(** * CrystalLab: the quality-report route of [routes.py]

    A shallow embedding of [load_df], [change_target_column] and
    [quality_issues].  pandas frames are objects: they live in a store
    and are passed around by reference, so that writing the
    ["__outlier_type__"] column into a selection can be told apart from
    writing it into the loaded dataset.  The Flask session is a
    dictionary in the same state.  Exceptions are explicit. *)

From Stdlib Require Import ZArith String Ascii List Lia.
From stdpp Require Import base option list gmap strings pretty sets.

Open Scope list_scope.

(** ** Python values and strings *)

(** Scalars found in dataset cells and in the dictionaries returned by
    the analyzers.  A float is kept as its IEEE-754 bit pattern: the
    route never computes with one. *)
Inductive pyval :=
  | PNone
  | PBool (b : bool)
  | PInt (z : Z)
  | PFloat (bits : Z)
  | PStr (s : string).

(** [float('nan')], what pandas puts in a cell that has no value. *)
Definition NaN : pyval := PFloat 0x7FF8000000000000.

(** [cell == s] for a string [s], as the element-wise comparison of a
    column with a string does it. *)
Definition cell_eq_str (v : pyval) (s : string) : bool :=
  match v with
  | PStr t => String.eqb t s
  | _ => false
  end.

(** Strings are byte strings, and [lower] is [str.lower()] on ASCII
    text.  The names [load_df] is given are ASCII: [upload] stores
    what [secure_filename] leaves of a name.  On a [filter] parameter
    with other characters [str.lower()] may change those as well; that
    changes neither the comparison with the three category words,
    which are ASCII, nor anything of the report but the selector it
    echoes.

    [c.lower()] on one character: only [A]..[Z] move. *)
Definition lower_ascii (c : ascii) : ascii :=
  let n := nat_of_ascii c in
  if (65 <=? n)%nat && (n <=? 90)%nat then ascii_of_nat (n + 32) else c.

(** [s.lower()]. *)
Fixpoint lower (s : string) : string :=
  match s with
  | EmptyString => EmptyString
  | String c r => String (lower_ascii c) (lower r)
  end.

(** The split point of [s.rsplit(sep, 1)]: what stands before and after
    the last [sep], or [None] when [s] has no [sep]. *)
Fixpoint rsplit_last (sep : ascii) (s : string) : option (string * string) :=
  match s with
  | EmptyString => None
  | String c r =>
      match rsplit_last sep r with
      | Some (h, t) => Some (String c h, t)
      | None => if Ascii.eqb c sep then Some (EmptyString, r) else None
      end
  end.

(** [s.rsplit(sep, 1)]: two pieces when [sep] occurs, else [s] alone. *)
Definition rsplit1 (sep : ascii) (s : string) : list string :=
  match rsplit_last sep s with
  | Some (h, t) => [h; t]
  | None => [s]
  end.

(** [sep in s]. *)
Fixpoint contains_char (sep : ascii) (s : string) : bool :=
  match s with
  | EmptyString => false
  | String c r => Ascii.eqb c sep || contains_char sep r
  end.

(** A line break. *)
Definition nl : string := String (ascii_of_nat 10) EmptyString.

(** Truth value of a string: every string but the empty one. *)
Definition truthy (s : string) : bool :=
  match s with
  | EmptyString => false
  | String _ _ => true
  end.

(** ** Exceptions and results *)

Inductive exn :=
  | KeyError (key : string)
  | ValueError (msg : string)
  | UnicodeDecodeError
  | NotFound404
  | OtherError (msg : string).

Inductive Result (A : Type) :=
  | Ok (a : A)
  | Raise (e : exn).

Arguments Ok {A} a.
Arguments Raise {A} e.

(** ** Frames *)

(** A frame: the column labels in order, and the rows in order, each
    with its index label and its cells by column.  A column that a row
    has no cell for reads as [NaN] there. *)
Record DataFrame := {
  columns : list string;
  rows : list (Z * gmap string pyval)
}.

(** [pd.DataFrame()]. *)
Definition empty_frame : DataFrame := {| columns := []; rows := [] |}.

(** [df.empty]: an axis of length 0. *)
Definition frame_is_empty (f : DataFrame) : bool :=
  match columns f, rows f with
  | [], _ | _, [] => true
  | _, _ => false
  end.

(** The cell of a row under a column. *)
Definition cell (r : Z * gmap string pyval) (c : string) : pyval :=
  default NaN (r.2 !! c).

(** The rows that [df.loc[[l]]] selects for one label: every row
    carrying it; a label the index does not have is a [KeyError]. *)
Definition loc_label (f : DataFrame) (l : Z) : option (list (Z * gmap string pyval)) :=
  match List.filter (fun r => Z.eqb r.1 l) (rows f) with
  | [] => None
  | rs => Some rs
  end.

(** [df.loc[idx]] for a list of labels: the selected rows in the order
    of [idx], under the same columns. *)
Fixpoint loc_rows (f : DataFrame) (idx : list Z) : Result (list (Z * gmap string pyval)) :=
  match idx with
  | [] => Ok []
  | l :: idx' =>
      match loc_label f l with
      | None => Raise (KeyError "not in index")
      | Some rs =>
          match loc_rows f idx' with
          | Ok rest => Ok (rs ++ rest)
          | Raise e => Raise e
          end
      end
  end.

Definition loc (f : DataFrame) (idx : list Z) : Result DataFrame :=
  match loc_rows f idx with
  | Ok rs => Ok {| columns := columns f; rows := rs |}
  | Raise e => Raise e
  end.

(** [f[c] = v] for a scalar [v]: the column is overwritten where it is,
    or added last. *)
Definition set_column (c : string) (v : pyval) (f : DataFrame) : DataFrame :=
  {| columns := if bool_decide (c ∈ columns f) then columns f else columns f ++ [c];
     rows := map (fun r => (r.1, <[c := v]> r.2)) (rows f) |}.

(** Column labels of [pd.concat]: the union in order of first
    appearance. *)
Fixpoint union_columns (seen : list string) (fs : list DataFrame) : list string :=
  match fs with
  | [] => seen
  | f :: fs' =>
      union_columns (seen ++ List.filter (fun c => negb (bool_decide (c ∈ seen))) (columns f)) fs'
  end.

(** The labels [0, 1, ...] that [ignore_index=True] and a freshly read
    file give to the rows. *)
Definition reindex (rs : list (Z * gmap string pyval)) : list (Z * gmap string pyval) :=
  imap (fun i r => (Z.of_nat i, r.2)) rs.

(** [pd.concat(fs, ignore_index=True)] for a non-empty [fs]. *)
Definition concat_ignore_index (fs : list DataFrame) : DataFrame :=
  {| columns := union_columns [] fs;
     rows := reindex (flat_map rows fs) |}.

(** [f[f[c] == s]]: the rows whose cell under [c] is the string [s],
    with their labels; [f[c]] is a [KeyError] when [f] has no column
    [c]. *)
Definition select_eq (f : DataFrame) (c s : string) : Result DataFrame :=
  if bool_decide (c ∈ columns f)
  then Ok {| columns := columns f;
             rows := List.filter (fun r => cell_eq_str (cell r c) s) (rows f) |}
  else Raise (KeyError c).

(** The keys of a list of dictionaries in order of first appearance. *)
Fixpoint first_appearances (keys : list string) : list string :=
  match keys with
  | [] => []
  | k :: keys' =>
      k :: List.filter (fun k' => negb (String.eqb k' k)) (first_appearances keys')
  end.

(** [pd.DataFrame(records)] for a list of dictionaries, each given in
    its insertion order: the columns are the keys in order of first
    appearance. *)
Definition frame_of_records (recs : list (list (string * pyval))) : DataFrame :=
  {| columns := first_appearances (flat_map (map fst) recs);
     rows := reindex (map (fun r => (0%Z, list_to_map r)) recs) |}.

(** ** State, and the monad the routes run in *)

(** A row of the [Dataset] table of [models.py], with the fields the
    routes read. *)
Record Dataset := {
  id : Z;
  user_id : Z;
  filename : string;
  original_filename : string;
  profile_generated : bool;
  profile_path : option string
}.

(** What a request can read and change: the store of frame objects
    (a reference is a position in it), the string entries of the Flask
    session, the flashed messages, and the [Dataset] table. *)
Record State := {
  frames : list DataFrame;
  session : gmap string string;
  flashes : list (string * string);
  datasets : gmap Z Dataset
}.

Definition M (A : Type) : Type := State -> Result A * State.

#[export] Instance M_ret : MRet M := fun A a s => (Ok a, s).

#[export] Instance M_bind : MBind M := fun A B k m s =>
  match m s with
  | (Ok a, s') => k a s'
  | (Raise e, s') => (Raise e, s')
  end.

Definition raise {A : Type} (e : exn) : M A := fun s => (Raise e, s).

(** A computation that has no effect but may fail. *)
Definition lift {A : Type} (r : Result A) : M A := fun s => (r, s).

Definition with_frames (fs : list DataFrame) (s : State) : State :=
  {| frames := fs; session := session s; flashes := flashes s; datasets := datasets s |}.

Definition with_session (ss : gmap string string) (s : State) : State :=
  {| frames := frames s; session := ss; flashes := flashes s; datasets := datasets s |}.

(** A new frame object. *)
Definition new_frame (f : DataFrame) : M nat := fun s =>
  (Ok (length (frames s)), with_frames (frames s ++ [f]) s).

(** The frame a reference points to. *)
Definition read (r : nat) : M DataFrame := fun s =>
  (Ok (default empty_frame (frames s !! r)), s).

(** [df.loc[idx]]: a new object. *)
Definition df_loc (r : nat) (idx : list Z) : M nat :=
  f ← read r; g ← lift (loc f idx); new_frame g.

(** [df.copy()]: a new object. *)
Definition df_copy (r : nat) : M nat :=
  f ← read r; new_frame f.

(** [df[c] = v]: the object itself is changed. *)
Definition df_setitem (r : nat) (c : string) (v : pyval) : M unit := fun s =>
  (Ok tt, with_frames (alter (set_column c v) r (frames s)) s).

(** [df[df[c] == v]]: a new object. *)
Definition df_select_eq (r : nat) (c v : string) : M nat :=
  f ← read r; g ← lift (select_eq f c v); new_frame g.

(** [pd.concat(rs, ignore_index=True)]: a new object. *)
Definition pd_concat (rs : list nat) : M nat :=
  fs ← mapM read rs; new_frame (concat_ignore_index fs).

(** [session.get(k)], [session[k] = v], [session.pop(k, None)]. *)
Definition session_get (k : string) : M (option string) := fun s =>
  (Ok (session s !! k), s).

Definition session_set (k v : string) : M unit := fun s =>
  (Ok tt, with_session (<[k := v]> (session s)) s).

Definition session_pop (k : string) : M unit := fun s =>
  (Ok tt, with_session (delete k (session s)) s).

(** [flash(msg, category)]. *)
Definition flash (msg category : string) : M unit := fun s =>
  (Ok tt, {| frames := frames s; session := session s;
             flashes := flashes s ++ [(msg, category)]; datasets := datasets s |}).

(** [Dataset.query.get_or_404(dataset_id)]. *)
Definition get_or_404 (dataset_id : Z) : M Dataset := fun s =>
  match datasets s !! dataset_id with
  | Some d => (Ok d, s)
  | None => (Raise NotFound404, s)
  end.

(** ** What the routes import *)

Inductive encoding := UTF8 | Latin1.

(** The dictionary [detect_outliers] returns, by the keys the route
    reads; [None] is a key the dictionary does not have. *)
Record OutTbl := {
  out_structural_indices : option (list Z);
  out_statistical_indices : option (list Z);
  out_semantic_indices : option (list Z);
  out_outlier_count : option pyval
}.

(** The dictionary [detect_duplicates] returns. *)
Record DupTbl := {
  dup_preview : option (list (list (string * pyval)));
  dup_duplicate_rows_count : option pyval;
  dup_duplicate_rows_percent : option pyval
}.

(** The dictionary [detect_label_issues] returns. *)
Record LabelsInfo := {
  lab_label_issue_count : option pyval;
  lab_note : option pyval;
  lab_preview : option (list (list (string * pyval)))
}.

(** The functions imported from [quality], which read the frame they
    are given and return a new value. *)
Class Quality := {
  detect_missing : DataFrame -> DataFrame;
  detect_duplicates : DataFrame -> DupTbl;
  detect_outliers : DataFrame -> OutTbl;
  detect_label_issues : DataFrame -> option string -> LabelsInfo;
  extract_ydata_overview_stats : string -> option (gmap string pyval);
  auto_detect_target_column : DataFrame -> option string
}.

(** pandas readers and renderer, [os.path.join], [str] and the
    application's configuration. *)
Class Platform := {
  read_excel : string -> Result DataFrame;
  read_csv : string -> encoding -> Result DataFrame;
  to_html : string -> DataFrame -> string;
  path_join : string -> string -> string;
  str_of : pyval -> string;
  UPLOAD_FOLDER : string
}.

(** The context [render_template("quality_report.html", ...)] is
    called with. *)
Record Report := {
  dataset : Dataset;
  missing_table : string;
  duplicate_table : string;
  dup_preview_html : string;
  merged_table : string;
  selected_filter : string;
  outlier_total : pyval;
  structural_count : nat;
  statistical_count : nat;
  semantic_count : nat;
  label_issue_count : pyval;
  label_table : string;
  label_note : pyval;
  y_missing_cells : pyval;
  y_missing_percent : pyval;
  y_dup_rows : pyval;
  y_dup_percent : pyval;
  detected_target : option string;
  df_columns : list string
}.

Inductive Response :=
  | Redirect (endpoint : string) (dataset_id : option Z)
  | Render (template : string) (d : Dataset)
  | Plain (body : string) (status : Z)
  | SendFile (filepath : string).

(** Truth value of a list, and of a string that may be [None]. *)
Definition truthy_list {A : Type} (l : list A) : bool :=
  match l with
  | [] => false
  | _ :: _ => true
  end.

Definition truthy_opt (o : option string) : bool :=
  match o with
  | Some s => truthy s
  | None => false
  end.

(** [o in df.columns] for a value that may be [None]. *)
Definition in_columns (o : option string) (f : DataFrame) : bool :=
  match o with
  | Some c => bool_decide (c ∈ columns f)
  | None => false
  end.

Section Routes.
Context `{Q : Quality} `{P : Platform}.

(** *** [load_df] *)

(** [original_name.lower().rsplit('.', 1)[-1]]. *)
Definition file_ext (original_name : string) : string :=
  List.last (rsplit1 "."%char (lower original_name)) EmptyString.

Definition load_df (filepath original_name : string) : Result DataFrame :=
  let ext := file_ext original_name in
  if String.eqb ext "xlsx" || String.eqb ext "xls" then read_excel filepath
  else if String.eqb ext "csv" then
    match read_csv filepath UTF8 with
    | Raise UnicodeDecodeError => read_csv filepath Latin1
    | r => r
    end
  else Raise (ValueError ("Unsupported file extension: " +:+ ext)).

(** [allowed_file]. *)
Definition allowed_file (filename : string) : bool :=
  contains_char "."%char filename &&
  match rsplit1 "."%char filename with
  | [_; e] => bool_decide (lower e ∈ ["csv"; "xlsx"; "xls"])
  | _ => false
  end.

(** *** [change_target_column] *)

Definition session_key_of (d : Dataset) : string :=
  "manual_target_column_" +:+ pretty (id d).

(** [form] is [request.form], [current_user] the id of the user
    logged in. *)
Definition change_target_column (current_user : Z) (form : gmap string string)
    (dataset_id : Z) : M Response :=
  d ← get_or_404 dataset_id;
  if negb (Z.eqb (user_id d) current_user) then
    flash "Access denied." "error";; mret (Redirect "dashboard" None)
  else
    let new_target := form !! "target_col" in
    if negb (truthy_opt new_target) then
      flash "No target column selected." "error";;
      mret (Redirect "quality_issues" (Some (id d)))
    else
      let session_key := session_key_of d in
      session_set session_key (default EmptyString new_target);;
      flash ("Target column changed to: " +:+ default EmptyString new_target) "success";;
      mret (Redirect "quality_issues" (Some (id d))).
(** *** [quality_issues] *)

(** YDATA SUMMARY: the overview statistics, read only when a profile
    was generated and its path recorded. *)
Definition ydata_summary (d : Dataset) : option (gmap string pyval) :=
  if profile_generated d && truthy_opt (profile_path d) then
    let html_path := path_join UPLOAD_FOLDER (default EmptyString (profile_path d)) in
    extract_ydata_overview_stats html_path
  else None.

(** [y_stats.get(k, "N/A") if y_stats else "N/A"]; an empty
    dictionary is false. *)
Definition y_metric (y_stats : option (gmap string pyval)) (k : string) : pyval :=
  match y_stats with
  | Some st =>
      if bool_decide (st = ∅) then PStr "N/A" else default (PStr "N/A") (st !! k)
  | None => PStr "N/A"
  end.

(** [temp = df.loc[idx].copy(); temp["__outlier_type__"] = tag]. *)
Definition tagged_selection (df : nat) (idx : list Z) (tag : string) : M nat :=
  sel ← df_loc df idx;
  temp ← df_copy sel;
  df_setitem temp "__outlier_type__" (PStr tag);;
  mret temp.

(** MERGED OUTLIERS TABLE: [merged_rows] and [merged_df]. *)
Definition merged_outliers (df : nat)
    (structural_idx statistical_idx semantic_idx : list Z) : M (list nat * nat) :=
  let merged_rows := [] in
  merged_rows ←
    (if truthy_list statistical_idx then
       temp ← tagged_selection df statistical_idx "Statistical";
       mret (merged_rows ++ [temp])
     else mret merged_rows);
  merged_rows ←
    (if truthy_list semantic_idx then
       temp ← tagged_selection df semantic_idx "AI-Based";
       mret (merged_rows ++ [temp])
     else mret merged_rows);
  merged_rows ←
    (if truthy_list structural_idx then
       temp ← tagged_selection df structural_idx "Structural";
       mret (merged_rows ++ [temp])
     else mret merged_rows);
  merged_df ←
    (if truthy_list merged_rows then pd_concat merged_rows
     else new_frame empty_frame);
  mret (merged_rows, merged_df).

(** [request.args.get("filter", "all").lower()]. *)
Definition selected_filter_of (args : gmap string string) : string :=
  lower (default "all" (args !! "filter")).

(** The filter: [filtered_df] for a selector already in lower case. *)
Definition filter_outliers (selected : string) (merged_df : nat) : M nat :=
  if String.eqb selected "statistical" then
    df_select_eq merged_df "__outlier_type__" "Statistical"
  else if String.eqb selected "ai" then
    df_select_eq merged_df "__outlier_type__" "AI-Based"
  else if String.eqb selected "structural" then
    df_select_eq merged_df "__outlier_type__" "Structural"
  else mret merged_df.

(** TARGET COLUMN DETECTION. *)
Definition target_column_detection (d : Dataset) (df : nat) : M (option string) :=
  let session_key := session_key_of d in
  manual_target ← session_get session_key;
  f ← read df;
  if truthy_opt manual_target && in_columns manual_target f then
    mret manual_target
  else
    let detected_target := auto_detect_target_column f in
    (if truthy_opt manual_target && negb (in_columns manual_target f) then
       session_pop session_key
     else mret tt);;
    mret detected_target.

(** The table of duplicate counts, as the route formats it. *)
Definition duplicate_table_html (count percent y_rows y_percent : pyval) : string :=
  nl +:+ "    <table class='table table-bordered table-sm'>" +:+ nl
  +:+ "        <tbody>" +:+ nl
  +:+ "            <tr><th>Duplicate Rows (Local)</th><td>"
  +:+ str_of count +:+ "</td></tr>" +:+ nl
  +:+ "            <tr><th>Duplicate Rows (%)</th><td>"
  +:+ str_of percent +:+ "</td></tr>" +:+ nl
  +:+ "            <tr><th>Duplicate Rows (YData)</th><td>"
  +:+ str_of y_rows +:+ "</td></tr>" +:+ nl
  +:+ "            <tr><th>Duplicate Rows (%) (YData)</th><td>"
  +:+ str_of y_percent +:+ "</td></tr>" +:+ nl
  +:+ "        </tbody>" +:+ nl
  +:+ "    </table>" +:+ nl
  +:+ "    ".

(** [f.to_html(classes=cls, index=False) if not f.empty else alt]. *)
Definition html_or (cls : string) (f : DataFrame) (alt : string) : string :=
  if negb (frame_is_empty f) then to_html cls f else alt.

Definition quality_issues (args : gmap string string) (dataset_id : Z) : M Report :=
  d ← get_or_404 dataset_id;
  let dataset_path := path_join UPLOAD_FOLDER (filename d) in
  loaded ← lift (load_df dataset_path (original_filename d));
  df ← new_frame loaded;
  (* YData summary *)
  let y_stats := ydata_summary d in
  let y_missing_cells := y_metric y_stats "missing_cells" in
  let y_missing_percent := y_metric y_stats "missing_cells_percent" in
  let y_dup_rows := y_metric y_stats "duplicate_rows" in
  let y_dup_percent := y_metric y_stats "duplicate_rows_percent" in
  (* local analysis *)
  f ← read df;
  let miss_tbl := detect_missing f in
  let dup_tbl := detect_duplicates f in
  let out_tbl := detect_outliers f in
  let structural_idx := default [] (out_structural_indices out_tbl) in
  let statistical_idx := default [] (out_statistical_indices out_tbl) in
  let semantic_idx := default [] (out_semantic_indices out_tbl) in
  (* merged outliers table, with filter *)
  '(merged_rows, merged_df) ← merged_outliers df structural_idx statistical_idx semantic_idx;
  let selected_filter := selected_filter_of args in
  filtered_df ← filter_outliers selected_filter merged_df;
  filtered ← read filtered_df;
  let merged_table_html :=
    html_or "table table-bordered table-sm" filtered
      "<p>No outliers found for this category.</p>" in
  (* target column detection *)
  detected_target ← target_column_detection d df;
  (* label issues *)
  f ← read df;
  let labels_info := detect_label_issues f detected_target in
  let label_issue_count := default (PInt 0) (lab_label_issue_count labels_info) in
  let label_note := default PNone (lab_note labels_info) in
  let label_preview_rows := default [] (lab_preview labels_info) in
  let label_df := frame_of_records label_preview_rows in
  let label_table := html_or "table table-bordered table-sm" label_df EmptyString in
  (* missing table, duplicate preview *)
  let missing_table :=
    html_or "table table-bordered" miss_tbl "<p>No missing values found.</p>" in
  let dup_prev_df := frame_of_records (default [] (dup_preview dup_tbl)) in
  let dup_preview_html :=
    html_or "table table-bordered table-sm" dup_prev_df "<p>No duplicate rows found.</p>" in
  let duplicate_table :=
    duplicate_table_html
      (default (PInt 0) (dup_duplicate_rows_count dup_tbl))
      (default (PStr "0%") (dup_duplicate_rows_percent dup_tbl))
      y_dup_rows y_dup_percent in
  mret {|
    dataset := d;
    missing_table := missing_table;
    duplicate_table := duplicate_table;
    dup_preview_html := dup_preview_html;
    merged_table := merged_table_html;
    selected_filter := selected_filter;
    outlier_total := default (PInt 0) (out_outlier_count out_tbl);
    structural_count := length structural_idx;
    statistical_count := length statistical_idx;
    semantic_count := length semantic_idx;
    label_issue_count := label_issue_count;
    label_table := label_table;
    label_note := label_note;
    y_missing_cells := y_missing_cells;
    y_missing_percent := y_missing_percent;
    y_dup_rows := y_dup_rows;
    y_dup_percent := y_dup_percent;
    detected_target := detected_target;
    df_columns := columns f
  |}.
End Routes.


(** ** Routes that also change the table and the upload folder *)

(** What the profile and delete routes use besides pandas: the import
    of [ProfileReport]; [ProfileReport(df, title=..., explorative=True)]
    followed by [to_file(path)], which writes the file or raises;
    the error, if any, [os.remove] raises on a file that exists; and
    [str] of an exception. *)
Class Services := {
  import_ProfileReport : Result unit;
  ProfileReport_to_file : DataFrame -> string -> string -> Result unit;
  remove_error : string -> option exn;
  str_exn : exn -> string
}.

(** The state of a request together with the paths that exist on
    disk. *)
Record World := {
  state : State;
  files : gset string
}.

Definition W (A : Type) : Type := World -> Result A * World.

#[export] Instance W_ret : MRet W := fun A a w => (Ok a, w).

#[export] Instance W_bind : MBind W := fun A B k m w =>
  match m w with
  | (Ok a, w') => k a w'
  | (Raise e, w') => (Raise e, w')
  end.

(** A computation on the state alone. *)
Definition run {A : Type} (m : M A) : W A := fun w =>
  let (r, s') := m (state w) in (r, {| state := s'; files := files w |}).

(** [try: body except Exception as e: handler(e)]; what [body] did
    before it raised stays done. *)
Definition try_except {A : Type} (body : W A) (handler : exn -> W A) : W A := fun w =>
  match body w with
  | (Ok a, w') => (Ok a, w')
  | (Raise e, w') => handler e w'
  end.

Definition with_datasets (ds : gmap Z Dataset) (s : State) : State :=
  {| frames := frames s; session := session s; flashes := flashes s; datasets := ds |}.

(** [os.path.exists(p)]. *)
Definition os_path_exists (p : string) : W bool := fun w =>
  (Ok (bool_decide (p ∈ files w)), w).

(** A file that [to_file] wrote. *)
Definition file_written (p : string) : W unit := fun w =>
  (Ok tt, {| state := state w; files := {[ p ]} ∪ files w |}).

(** The row under [dataset_id] after [db.session.commit()], for a
    dataset object whose fields were assigned; and after
    [db.session.delete(dataset)]. *)
Definition db_commit (dataset_id : Z) (d : Dataset) : W unit := fun w =>
  (Ok tt, {| state := with_datasets (<[dataset_id := d]> (datasets (state w))) (state w);
             files := files w |}).

Definition db_delete (dataset_id : Z) : W unit := fun w =>
  (Ok tt, {| state := with_datasets (delete dataset_id (datasets (state w))) (state w);
             files := files w |}).

(** [send_file(p)]: the response that serves the file, which has to
    exist. *)
Definition send_file (p : string) : W Response := fun w =>
  if bool_decide (p ∈ files w) then (Ok (SendFile p), w)
  else (Raise (OtherError "FileNotFoundError"), w).

Section MoreRoutes.
Context `{Q : Quality} `{P : Platform} `{S : Services}.

(** [os.remove(p)]. *)
Definition os_remove (p : string) : W unit := fun w =>
  if bool_decide (p ∈ files w) then
    match remove_error p with
    | Some e => (Raise e, w)
    | None => (Ok tt, {| state := state w; files := files w ∖ {[ p ]} |})
    end
  else (Raise (OtherError "FileNotFoundError"), w).

(** *** [profile_dataset] *)

Definition profile_filename_of (d : Dataset) : string :=
  "profile_" +:+ pretty (id d) +:+ ".html".

(** The dataset object after the two assignments. *)
Definition profiled (d : Dataset) : Dataset :=
  {| id := id d; user_id := user_id d; filename := filename d;
     original_filename := original_filename d;
     profile_generated := true;
     profile_path := Some (profile_filename_of d) |}.

(** The body of the [try]: the dataset object as it is afterwards. *)
Definition generate_profile (dataset_id : Z) (d : Dataset) : W Dataset :=
  run (lift import_ProfileReport);;
  let filepath := path_join UPLOAD_FOLDER (filename d) in
  loaded ← run (lift (load_df filepath (original_filename d)));
  df ← run (new_frame loaded);
  f ← run (read df);
  let title := "Profile - " +:+ original_filename d in
  let profile_filename := profile_filename_of d in
  let profile_path := path_join UPLOAD_FOLDER profile_filename in
  run (lift (ProfileReport_to_file f title profile_path));;
  file_written profile_path;;
  db_commit dataset_id (profiled d);;
  run (flash "Profile report generated!" "success");;
  mret (profiled d).

(** The result of the [if not dataset.profile_generated] block is
    either the dataset to render or the response the handler returns. *)
Definition profile_dataset (current_user dataset_id : Z) : W Response :=
  d ← run (get_or_404 dataset_id);
  if negb (Z.eqb (user_id d) current_user) then
    run (flash "Access denied." "error");;
    mret (Redirect "dashboard" None)
  else
    r ← (if negb (profile_generated d) then
           try_except
             (d' ← generate_profile dataset_id d; mret (inl d'))
             (fun e =>
                run (flash ("Error generating profile: " +:+ str_exn e) "error");;
                mret (inr (Redirect "dashboard" None)))
         else mret (inl d));
    match r with
    | inl d' => mret (Render "profile.html" d')
    | inr response => mret response
    end.

(** *** [view_profile] and [profile_report] *)

Definition view_profile (current_user dataset_id : Z) : M Response :=
  d ← get_or_404 dataset_id;
  if negb (Z.eqb (user_id d) current_user) then
    flash "Access denied." "error";;
    mret (Redirect "dashboard" None)
  else if negb (profile_generated d) then
    mret (Redirect "profile_dataset" (Some dataset_id))
  else mret (Render "view_report.html" d).

(** [os.path.join(folder, p)] for a [p] that may be [None]. *)
Definition join_opt (folder : string) (p : option string) : Result string :=
  match p with
  | Some p' => Ok (path_join folder p')
  | None => Raise (OtherError "TypeError")
  end.

Definition profile_report (current_user dataset_id : Z) : W Response :=
  d ← run (get_or_404 dataset_id);
  if negb (Z.eqb (user_id d) current_user) then
    mret (Plain "Access denied" 403)
  else if negb (profile_generated d) then
    mret (Plain "Profile not generated" 404)
  else
    filepath ← run (lift (join_opt UPLOAD_FOLDER (profile_path d)));
    send_file filepath.

(** *** [delete_dataset] *)

(** [if os.path.exists(p): os.remove(p)]. *)
Definition remove_if_exists (p : string) : W unit :=
  there ← os_path_exists p;
  if (there : bool) then os_remove p else mret tt.

Definition delete_dataset (current_user dataset_id : Z) : W Response :=
  d ← run (get_or_404 dataset_id);
  if negb (Z.eqb (user_id d) current_user) then
    run (flash "Access denied." "error");;
    mret (Redirect "dashboard" None)
  else
    try_except
      (let file_path := path_join UPLOAD_FOLDER (filename d) in
       remove_if_exists file_path;;
       (if truthy_opt (profile_path d) then
          let profile_file :=
            path_join UPLOAD_FOLDER (default EmptyString (profile_path d)) in
          remove_if_exists profile_file
        else mret tt);;
       db_delete dataset_id;;
       run (flash "Dataset deleted." "success"))
      (fun e => run (flash ("Error deleting dataset: " +:+ str_exn e) "error"));;
    mret (Redirect "dashboard" None).
End MoreRoutes.
(** ** Vocabulary of the statements *)

#[export] Instance pyval_eq_dec : EqDecision pyval.
Proof. solve_decision. Defined.

(** The cells of the row of [f] labelled [l] (the first one, should the
    index repeat a label). *)
Definition row_at (f : DataFrame) (l : Z) : gmap string pyval :=
  match List.filter (fun r => Z.eqb r.1 l) (rows f) with
  | r :: _ => r.2
  | [] => ∅
  end.

(** Cells with the tag column set. *)
Definition tagged (t : string) (cells : gmap string pyval) : gmap string pyval :=
  <["__outlier_type__" := PStr t]> cells.

(** The tag a row carries. *)
Definition tag_of (r : Z * gmap string pyval) : pyval := cell r "__outlier_type__".

(** Which row of the dataset each row of the frames in [merged_rows]
    is, and under which tag: the index labels are still the dataset's
    there. *)
Definition provenance (temps : list DataFrame) : list (Z * pyval) :=
  flat_map (fun t => map (fun r => (r.1, tag_of r)) (rows t)) temps.

(** The labels of a frame, and frames whose labels do not repeat, as
    those a reader returns. *)
Definition labels (f : DataFrame) : list Z := map fst (rows f).

Definition unique_labels (f : DataFrame) : Prop := NoDup (labels f).

(** A computation whose final state is always related to its initial
    state by [R]. *)
Definition maintains {A : Type} (R : relation State) (m : M A) : Prop :=
  forall s, R s (m s).2.

(** Every frame object is still there and as it was; new ones may have
    been created. *)
Definition frames_kept : relation State :=
  fun s s' => frames s `prefix_of` frames s'.

(** The session, the flashed messages and the table are as they were. *)
Definition session_kept : relation State :=
  fun s s' => session s' = session s /\ flashes s' = flashes s /\ datasets s' = datasets s.

(** A computation that leaves every frame object it did not create as
    it was. *)
Definition preserves {A : Type} (m : M A) : Prop := maintains frames_kept m.

(** A computation that only works on the store of frames. *)
Definition keeps_session {A : Type} (m : M A) : Prop := maintains session_kept m.

(** Every override in the session is a non-empty string. *)
Definition overrides_truthy (ss : gmap string string) : Prop :=
  forall k v, ss !! k = Some v -> truthy v = true.

(** Modelled from the spec: [quality.detect_outliers] is not among the
    sources.  The three detectors each return a set of row indices, and
    the total is the size of the union of the three sets (spec 3 and
    4.3). *)
Definition detect_outliers_spec (structural statistical semantic : gset Z) : OutTbl :=
  {| out_structural_indices := Some (elements structural);
     out_statistical_indices := Some (elements statistical);
     out_semantic_indices := Some (elements semantic);
     out_outlier_count :=
       Some (PInt (Z.of_nat (size (structural ∪ statistical ∪ semantic)))) |}.

(** A selection with its tag written in. *)
Definition tag_frame (t : string) (g : DataFrame) : DataFrame :=
  set_column "__outlier_type__" (PStr t) g.

(** The frames [merged_rows] holds, given the three selections. *)
Definition temps_of (statistical_idx semantic_idx structural_idx : list Z)
    (g_stat g_sem g_struct : DataFrame) : list DataFrame :=
  (if truthy_list statistical_idx then [tag_frame "Statistical" g_stat] else [])
  ++ (if truthy_list semantic_idx then [tag_frame "AI-Based" g_sem] else [])
  ++ (if truthy_list structural_idx then [tag_frame "Structural" g_struct] else []).

(** The frame [merged_df] is, given the frames of [merged_rows]. *)
Definition merged_of (temps : list DataFrame) : DataFrame :=
  if truthy_list temps then concat_ignore_index temps else empty_frame.

(** How many times [x] occurs in [l]. *)
Fixpoint occurrences {A : Type} `{EqDecision A} (x : A) (l : list A) : nat :=
  match l with
  | [] => 0
  | y :: l' => (if decide (y = x) then 1 else 0) + occurrences x l'
  end.

(** 1 when [x] is in [l], else 0. *)
Definition flagged (x : Z) (l : list Z) : nat := if decide (x ∈ l) then 1 else 0.

(** The selection of a label list out of a frame with unique labels. *)
Definition selection (f : DataFrame) (idx : list Z) : DataFrame :=
  {| columns := columns f; rows := map (fun l => (l, row_at f l)) idx |}.

(** The session lost entries at most. *)
Definition session_shrinks : relation State :=
  fun s s' => session s' ⊆ session s.

(** The session lost the entry under [key] at most; the flashed
    messages and the table are as they were. *)
Definition drops_at_most (key : string) : relation State :=
  fun s s' =>
    (session s' = session s \/ session s' = delete key (session s))
    /\ flashes s' = flashes s /\ datasets s' = datasets s.

(** The rows of a frame that carry tag [t], under the same columns. *)
Definition keep_tag (t : string) (f : DataFrame) : DataFrame :=
  {| columns := columns f;
     rows := List.filter (fun r => bool_decide (tag_of r = PStr t)) (rows f) |}.

(** The frame [filtered_df] is, given the selector in lower case and
    the frame [merged_df] is, when that one has the tag column. *)
Definition category_view (selected : string) (merged : DataFrame) : DataFrame :=
  if String.eqb selected "statistical" then keep_tag "Statistical" merged
  else if String.eqb selected "ai" then keep_tag "AI-Based" merged
  else if String.eqb selected "structural" then keep_tag "Structural" merged
  else merged.

(** The cells of the dataset's rows a selector asks for: those of one
    detector's list under its tag, or the three blocks. *)
Definition category_cells (selected : string) (f : DataFrame)
    (statistical_idx semantic_idx structural_idx : list Z) : list (gmap string pyval) :=
  if String.eqb selected "statistical" then
    map (fun l => tagged "Statistical" (row_at f l)) statistical_idx
  else if String.eqb selected "ai" then
    map (fun l => tagged "AI-Based" (row_at f l)) semantic_idx
  else if String.eqb selected "structural" then
    map (fun l => tagged "Structural" (row_at f l)) structural_idx
  else
    map (fun l => tagged "Statistical" (row_at f l)) statistical_idx
    ++ map (fun l => tagged "AI-Based" (row_at f l)) semantic_idx
    ++ map (fun l => tagged "Structural" (row_at f l)) structural_idx.

(** The rows of [f] that carry label [l], in the order of [f]. *)
Definition rows_labelled (f : DataFrame) (l : Z) : list (Z * gmap string pyval) :=
  List.filter (fun r => Z.eqb r.1 l) (rows f).

(** What [f.loc[idx]] is when [f] has every label of [idx]: for each
    label of [idx] in turn, the rows of [f] that carry it. *)
Definition picked (f : DataFrame) (idx : list Z) : DataFrame :=
  {| columns := columns f; rows := flat_map (rows_labelled f) idx |}.

(** The cells of those rows, with tag [t] written in. *)
Definition picked_cells (t : string) (f : DataFrame) (idx : list Z) :
    list (gmap string pyval) :=
  map (fun r => tagged t r.2) (rows (picked f idx)).

(** The extension of a file name in the usual sense, as
    [os.path.splitext] has it without its dot: what follows the last
    dot, and nothing for a name without a dot. *)
Definition extension_after_last_dot (name : string) : string :=
  match rsplit_last "."%char name with
  | Some (_, e) => e
  | None => EmptyString
  end.

(** Every dataset marked as profiled has a non-empty profile path. *)
Definition profiled_have_path (ds : gmap Z Dataset) : Prop :=
  forall k d, ds !! k = Some d -> profile_generated d = true ->
    exists p, profile_path d = Some p /\ p <> EmptyString.

(** The paths [delete_dataset] removes for a dataset. *)
Definition paths_of `{P : Platform} (d : Dataset) : gset string :=
  {[ path_join UPLOAD_FOLDER (filename d) ]}
  ∪ (if truthy_opt (profile_path d)
     then {[ path_join UPLOAD_FOLDER (default EmptyString (profile_path d)) ]}
     else ∅).

Section WorldVocabulary.
Context `{P : Platform} `{S : Services}.

(** The state after a profile was generated for [d], loaded as [F]. *)
Definition after_profile (dataset_id : Z) (d : Dataset) (F : DataFrame) (w : World) : World :=
  {| state :=
       {| frames := frames (state w) ++ [F];
          session := session (state w);
          flashes := flashes (state w) ++ [("Profile report generated!", "success")];
          datasets := <[dataset_id := profiled d]> (datasets (state w)) |};
     files := {[ path_join UPLOAD_FOLDER (profile_filename_of d) ]} ∪ files w |}.

(** The state with one more flashed message. *)
Definition flashed (msg category : string) (w : World) : World :=
  {| state := (flash msg category (state w)).2; files := files w |}.

(** The body of the [try] of [delete_dataset], up to the deletion of
    the row. *)
Definition remove_files (d : Dataset) : W unit :=
  remove_if_exists (path_join UPLOAD_FOLDER (filename d));;
  (if truthy_opt (profile_path d) then
     remove_if_exists (path_join UPLOAD_FOLDER (default EmptyString (profile_path d)))
   else mret tt).
End WorldVocabulary.

(** ** A dataset and an installation to run the routes on *)

Module Demo.

(** The dataset of the end-to-end scenario of the spec: five rows, an
    [age] and a [label]. *)
Definition person (l age label : Z) : Z * gmap string pyval :=
  (l, {[ "age" := PInt age; "label" := PInt label ]}).

Definition people : DataFrame :=
  {| columns := ["age"; "label"];
     rows := [person 0 25 0; person 1 26 0; person 2 24 1; person 3 27 0;
              person 4 1000 1] |}.

(** What [read_csv] makes of a file whose rows are one field longer
    than its header: the first field is taken as the row label, and
    two rows carry the label 1. *)
Definition ragged : DataFrame :=
  {| columns := ["age"; "label"];
     rows := [person 1 25 0; person 1 26 0; person 2 24 1] |}.

(** Three files under the upload folder: one that reads as UTF-8, one
    that only reads as Latin-1, and the one with the longer rows. *)
Definition installation : Platform := {|
  read_excel := fun _ => Raise (OtherError "no such file");
  read_csv := fun path enc =>
    if String.eqb path "uploads/7_people.csv" then Ok people
    else if String.eqb path "uploads/6_ragged.csv" then Ok ragged
    else if String.eqb path "uploads/8_latin.csv" then
      match enc with
      | UTF8 => Raise UnicodeDecodeError
      | Latin1 => Ok people
      end
    else Raise (OtherError "no such file");
  to_html := fun cls f => "<table class=" +:+ cls +:+ ">";
  path_join := fun a b => a +:+ "/" +:+ b;
  str_of := fun v =>
    match v with
    | PNone => "None"
    | PBool true => "True"
    | PBool false => "False"
    | PInt z => pretty z
    | PFloat _ => "nan"
    | PStr s => s
    end;
  UPLOAD_FOLDER := "uploads"
|}.

(** Analyzers whose outlier detectors return the given sets. *)
Definition analyzers (structural statistical semantic : gset Z) : Quality := {|
  detect_missing := fun _ => empty_frame;
  detect_duplicates := fun _ =>
    {| dup_preview := Some [];
       dup_duplicate_rows_count := Some (PInt 0);
       dup_duplicate_rows_percent := None |};
  detect_outliers := fun _ => detect_outliers_spec structural statistical semantic;
  detect_label_issues := fun _ _ =>
    {| lab_label_issue_count := Some (PInt 0); lab_note := None; lab_preview := None |};
  extract_ydata_overview_stats := fun path =>
    if String.eqb path "uploads/profile_7.html"
    then Some {[ "missing_cells" := PInt 0; "missing_cells_percent" := PStr "0.0%" ]}
    else None;
  auto_detect_target_column := fun f => List.last (map Some (columns f)) None
|}.

(** The last row is flagged statistically, rows 2 and 4 semantically. *)
Definition flagging : Quality := analyzers ∅ {[ 4%Z ]} {[ 2%Z; 4%Z ]}.

(** The row labelled 1 is flagged statistically. *)
Definition flagging_one : Quality := analyzers ∅ {[ 1%Z ]} ∅.

(** Row 0 is flagged structurally as well. *)
Definition flagging_all : Quality := analyzers {[ 0%Z ]} {[ 4%Z ]} {[ 2%Z; 4%Z ]}.

(** Nothing is flagged. *)
Definition quiet : Quality := analyzers ∅ ∅ ∅.

Definition people_csv : Dataset :=
  {| id := 7; user_id := 1; filename := "7_people.csv";
     original_filename := "People.CSV";
     profile_generated := true; profile_path := Some "profile_7.html" |}.

Definition latin_csv : Dataset :=
  {| id := 8; user_id := 1; filename := "8_latin.csv";
     original_filename := "latin.csv";
     profile_generated := false; profile_path := None |}.

Definition ragged_csv : Dataset :=
  {| id := 6; user_id := 1; filename := "6_ragged.csv";
     original_filename := "ragged.csv";
     profile_generated := false; profile_path := None |}.

(** No frame yet, nothing in the session. *)
Definition start : State :=
  {| frames := []; session := ∅; flashes := [];
     datasets := {[ 7%Z := people_csv; 8%Z := latin_csv ]} |}.

Definition ragged_start : State :=
  {| frames := []; session := ∅; flashes := [];
     datasets := {[ 6%Z := ragged_csv ]} |}.

(** The session holds an override for dataset 7. *)
Definition overridden (target : string) : State :=
  with_session {[ "manual_target_column_7" := target ]} start.

(** The dataset is loaded, as object 0. *)
Definition loaded : State := with_frames [people] start.

(** A merged frame: row 4, flagged structurally only. *)
Definition merged_structural : DataFrame :=
  merged_of [tag_frame "Structural" (selection people [4%Z])].

(** Profiles get written; the profile of dataset 9 cannot be removed. *)
Definition services : Services := {|
  import_ProfileReport := Ok tt;
  ProfileReport_to_file := fun _ _ _ => Ok tt;
  remove_error := fun p =>
    if String.eqb p "uploads/profile_9.html" then Some (OtherError "PermissionError")
    else None;
  str_exn := fun e =>
    match e with
    | KeyError k => k
    | ValueError m => m
    | UnicodeDecodeError => "UnicodeDecodeError"
    | NotFound404 => "404 Not Found"
    | OtherError m => m
    end
|}.

(** An upload whose extension [load_df] refuses, and a profiled one. *)
Definition notes_txt : Dataset :=
  {| id := 5; user_id := 1; filename := "5_notes.txt";
     original_filename := "notes.txt";
     profile_generated := false; profile_path := None |}.

Definition profiled_csv : Dataset :=
  {| id := 9; user_id := 1; filename := "7_people.csv";
     original_filename := "people.csv";
     profile_generated := true; profile_path := Some "profile_9.html" |}.

(** The upload folder and the table of a running installation. *)
Definition world : World :=
  {| state :=
       {| frames := []; session := {[ "manual_target_column_7" := "age" ]};
          flashes := [];
          datasets := {[ 5%Z := notes_txt; 7%Z := people_csv;
                         8%Z := latin_csv; 9%Z := profiled_csv ]} |};
     files := {[ "uploads/5_notes.txt"; "uploads/7_people.csv"; "uploads/8_latin.csv";
                 "uploads/profile_7.html"; "uploads/profile_9.html" ]} |}.

End Demo.

(** * Properties *)

(** ** Strings *)

Lemma lower_app (a b : string) : lower (a +:+ b) = lower a +:+ lower b.
Proof. induction a as [|c a IH]; simpl; [reflexivity | now rewrite IH]. Qed.

Lemma lower_ascii_dot (c : ascii) :
  Ascii.eqb (lower_ascii c) "."%char = Ascii.eqb c "."%char.
Proof. destruct c as [[] [] [] [] [] [] [] []]; reflexivity. Qed.

Lemma contains_char_lower (e : string) :
  contains_char "."%char (lower e) = contains_char "."%char e.
Proof.
  induction e as [|c e IH]; simpl; [reflexivity|].
  now rewrite lower_ascii_dot, IH.
Qed.

Lemma rsplit_last_absent (sep : ascii) (e : string) :
  contains_char sep e = false -> rsplit_last sep e = None.
Proof.
  induction e as [|c e IH]; simpl; [reflexivity|].
  intros H. apply orb_false_iff in H as [Hc He].
  now rewrite (IH He), Hc.
Qed.

Lemma rsplit_last_present (sep : ascii) (a e : string) :
  contains_char sep e = false ->
  rsplit_last sep (a +:+ String sep e) = Some (a, e).
Proof.
  intros He. induction a as [|c a IH]; simpl.
  - now rewrite (rsplit_last_absent _ _ He), Ascii.eqb_refl.
  - now rewrite IH.
Qed.

Lemma rsplit_last_sound (sep : ascii) (s h t : string) :
  rsplit_last sep s = Some (h, t) ->
  s = h +:+ String sep t /\ contains_char sep t = false.
Proof.
  revert h. induction s as [|c s IH]; intros h; simpl; [discriminate|].
  destruct (rsplit_last sep s) as [[h' t']|] eqn:E.
  - intros [= <- <-]. destruct (IH h' eq_refl) as [-> Ht]. now split.
  - destruct (Ascii.eqb_spec c sep) as [->|Hne]; [|discriminate].
    intros [= <- <-]. split; [reflexivity|].
    clear IH. induction s as [|c s IH]; simpl in *; [reflexivity|].
    destruct (rsplit_last sep s) as [[h' t']|]; [discriminate|].
    destruct (Ascii.eqb c sep); [discriminate|]. simpl. now apply IH.
Qed.

Lemma rsplit_last_found (sep : ascii) (s : string) :
  contains_char sep s = true -> exists h t, rsplit_last sep s = Some (h, t).
Proof.
  induction s as [|c s IH]; simpl; [discriminate|].
  destruct (rsplit_last sep s) as [[h t]|] eqn:E; [eauto|].
  destruct (Ascii.eqb c sep); [eauto|]. simpl. intros H.
  destruct (IH H) as (h & t & Hs). discriminate.
Qed.

Lemma rsplit_last_lower (s : string) :
  rsplit_last "."%char (lower s)
  = (fun p => (lower p.1, lower p.2)) <$> rsplit_last "."%char s.
Proof.
  induction s as [|c s IH]; simpl; [reflexivity|]. rewrite IH.
  destruct (rsplit_last "."%char s) as [[h t]|]; simpl; [reflexivity|].
  rewrite lower_ascii_dot. now destruct (Ascii.eqb c "."%char).
Qed.

(** The extension [load_df] looks at, in terms of the split
    [allowed_file] makes. *)
Lemma file_ext_split (name : string) :
  file_ext name =
    match rsplit_last "."%char name with
    | Some (_, e) => lower e
    | None => lower name
    end.
Proof.
  unfold file_ext, rsplit1. rewrite rsplit_last_lower.
  now destruct (rsplit_last "."%char name) as [[h t]|].
Qed.

Section LoadDf.
Context `{P : Platform}.

(** The extension of a dotted name is what follows its last dot, in
    lower case. *)
Lemma file_ext_dotted (stem e : string) :
  contains_char "."%char e = false ->
  file_ext (stem +:+ "." +:+ e) = lower e.
Proof.
  intros He. unfold file_ext, rsplit1.
  rewrite lower_app. change ("." +:+ e) with (String "."%char e).
  change (lower (String "."%char e)) with (String "."%char (lower e)).
  rewrite rsplit_last_present; [reflexivity|].
  now rewrite contains_char_lower.
Qed.

(** A name without a dot is its own extension. *)
Lemma file_ext_dotless (name : string) :
  contains_char "."%char name = false -> file_ext name = lower name.
Proof.
  intros He. unfold file_ext, rsplit1.
  rewrite rsplit_last_absent; [reflexivity|].
  now rewrite contains_char_lower.
Qed.

(** C6, amended.  [load_df] dispatches on the extension of the
    original name, compared in lower case.  For a name with a dot it
    is what follows the last dot; a name without a dot is taken whole
    as its extension, so that the names [csv] and [XLS] are read.
    [xlsx] and [xls] are read as Excel; [csv] is read as UTF-8 and,
    exactly when that raises [UnicodeDecodeError], read again as
    Latin-1; any other extension raises the unsupported-extension
    [ValueError] and no frame is returned. *)
Theorem load_df_by_extension (filepath original_name : string) :
  let ext := file_ext original_name in
  (forall stem e, original_name = stem +:+ "." +:+ e ->
     contains_char "."%char e = false -> ext = lower e) /\
  (contains_char "."%char original_name = false -> ext = lower original_name) /\
  ext = (if contains_char "."%char original_name
         then lower (extension_after_last_dot original_name)
         else lower original_name) /\
  (ext = "xlsx" \/ ext = "xls" ->
     load_df filepath original_name = read_excel filepath) /\
  (ext = "csv" ->
     (read_csv filepath UTF8 = Raise UnicodeDecodeError ->
        load_df filepath original_name = read_csv filepath Latin1) /\
     (read_csv filepath UTF8 <> Raise UnicodeDecodeError ->
        load_df filepath original_name = read_csv filepath UTF8)) /\
  (ext <> "xlsx" -> ext <> "xls" -> ext <> "csv" ->
     load_df filepath original_name
       = Raise (ValueError ("Unsupported file extension: " +:+ ext)) /\
     forall f, load_df filepath original_name <> Ok f).
Proof.
  intros ext. split; [|split; [|split; [|split; [|split]]]].
  - intros stem e -> He. now apply file_ext_dotted.
  - apply file_ext_dotless.
  - subst ext. rewrite file_ext_split. unfold extension_after_last_dot.
    destruct (contains_char "."%char original_name) eqn:Hdot.
    + destruct (rsplit_last_found _ _ Hdot) as (h & t & ->). reflexivity.
    + now rewrite rsplit_last_absent.
  - intros Hx. unfold load_df. fold ext.
    destruct Hx as [-> | ->]; reflexivity.
  - intros Hc. unfold load_df. fold ext. rewrite Hc. simpl. split.
    + now intros ->.
    + intros Hne. destruct (read_csv filepath UTF8) as [f|[]]; congruence.
  - intros H1 H2 H3.
    assert (load_df filepath original_name
            = Raise (ValueError ("Unsupported file extension: " +:+ ext))) as E.
    { unfold load_df. fold ext.
      destruct (String.eqb_spec ext "xlsx"); [contradiction|].
      destruct (String.eqb_spec ext "xls"); [contradiction|].
      destruct (String.eqb_spec ext "csv"); [contradiction|].
      reflexivity. }
    split; [exact E|]. intros f. rewrite E. discriminate.
Qed.
End LoadDf.

(** ** The monad and the store *)

Lemma bind_ok {A B : Type} (m : M A) (k : A -> M B) s a s' :
  m s = (Ok a, s') -> (m ≫= k) s = k a s'.
Proof. intros H. unfold mbind, M_bind. now rewrite H. Qed.

Lemma bind_raise {A B : Type} (m : M A) (k : A -> M B) s e s' :
  m s = (Raise e, s') -> (m ≫= k) s = (Raise e, s').
Proof. intros H. unfold mbind, M_bind. now rewrite H. Qed.

Lemma bind_inv {A B : Type} (m : M A) (k : A -> M B) s b s' :
  (m ≫= k) s = (Ok b, s') ->
  exists a s1, m s = (Ok a, s1) /\ k a s1 = (Ok b, s').
Proof.
  unfold mbind, M_bind. destruct (m s) as [[a|e] s1]; [eauto | discriminate].
Qed.

Lemma with_frames_frames fs s : frames (with_frames fs s) = fs.
Proof. reflexivity. Qed.

Lemma with_session_id s : with_session (session s) s = s.
Proof. now destruct s. Qed.

#[export] Instance frames_kept_preorder : PreOrder frames_kept.
Proof.
  split; [intros s; unfold frames_kept; reflexivity|].
  intros s1 s2 s3 H1 H2. unfold frames_kept in *.
  exact (transitivity H1 H2).
Qed.

#[export] Instance session_kept_preorder : PreOrder session_kept.
Proof.
  split; [intros s; now repeat split|].
  intros s1 s2 s3 (A1 & B1 & C1) (A2 & B2 & C2). repeat split; congruence.
Qed.

Section Maintains.
Context (R : relation State) `{!PreOrder R}.

Lemma maintains_ret {A : Type} (a : A) : maintains R (mret a).
Proof. intros s. reflexivity. Qed.

Lemma maintains_raise {A : Type} (e : exn) : maintains R (raise (A:=A) e).
Proof. intros s. reflexivity. Qed.

Lemma maintains_lift {A : Type} (r : Result A) : maintains R (lift r).
Proof. intros s. reflexivity. Qed.

Lemma maintains_read r : maintains R (read r).
Proof. intros s. reflexivity. Qed.

Lemma maintains_session_get k : maintains R (session_get k).
Proof. intros s. reflexivity. Qed.

Lemma maintains_get_or_404 i : maintains R (get_or_404 i).
Proof. intros s. unfold get_or_404. destruct (datasets s !! i); reflexivity. Qed.

Lemma maintains_bind {A B : Type} (m : M A) (k : A -> M B) :
  maintains R m -> (forall a, maintains R (k a)) -> maintains R (m ≫= k).
Proof.
  intros Hm Hk s. unfold mbind, M_bind. specialize (Hm s).
  destruct (m s) as [[a|e] s1]; simpl in *; [|exact Hm].
  etrans; [exact Hm | apply Hk].
Qed.

Lemma maintains_mapM_read rs : maintains R (mapM read rs).
Proof.
  induction rs as [|r rs IH]; simpl; [apply maintains_ret|].
  apply maintains_bind; [apply maintains_read|]. intros f.
  apply maintains_bind; [exact IH|]. intros fs. apply maintains_ret.
Qed.
End Maintains.

Lemma preserves_new_frame f : preserves (new_frame f).
Proof. intros s. unfold frames_kept. simpl. now apply prefix_app_r. Qed.

Lemma preserves_session_pop k : preserves (session_pop k).
Proof. intros s. unfold frames_kept. simpl. reflexivity. Qed.

Lemma keeps_session_new_frame f : keeps_session (new_frame f).
Proof. intros s. now repeat split. Qed.

Lemma keeps_session_df_setitem r c v : keeps_session (df_setitem r c v).
Proof. intros s. now repeat split. Qed.

Create HintDb maintains.
#[export] Hint Resolve maintains_ret maintains_raise maintains_lift maintains_read
  maintains_session_get maintains_get_or_404 maintains_mapM_read
  preserves_new_frame preserves_session_pop
  keeps_session_new_frame keeps_session_df_setitem : maintains.
#[export] Hint Extern 0 (PreOrder _) => exact _ : maintains.

(** Binds are taken apart, branches are split, and what is left is a
    primitive known to maintain the relation. *)
Ltac maintains_step :=
  match goal with
  | |- maintains _ (_ ≫= _) => eapply maintains_bind; try exact _; [|intros]
  | |- maintains _ (if ?b then _ else _) => destruct b
  | |- maintains _ (let '(_, _) := ?p in _) => destruct p
  | |- maintains _ _ => solve [auto with maintains]
  | |- maintains frames_kept ?m => change (preserves m); solve [auto with maintains]
  | |- maintains session_kept ?m => change (keeps_session m); solve [auto with maintains]
  end.

Ltac solve_maintains := unfold preserves, keeps_session; repeat maintains_step.

Lemma preserves_df_loc r idx : preserves (df_loc r idx).
Proof. unfold df_loc. solve_maintains. Qed.

Lemma preserves_df_copy r : preserves (df_copy r).
Proof. unfold df_copy. solve_maintains. Qed.

Lemma preserves_df_select_eq r c v : preserves (df_select_eq r c v).
Proof. unfold df_select_eq. solve_maintains. Qed.

Lemma preserves_pd_concat rs : preserves (pd_concat rs).
Proof. unfold pd_concat. solve_maintains. Qed.

Lemma keeps_session_df_loc r idx : keeps_session (df_loc r idx).
Proof. unfold df_loc. solve_maintains. Qed.

Lemma keeps_session_df_copy r : keeps_session (df_copy r).
Proof. unfold df_copy. solve_maintains. Qed.

Lemma keeps_session_df_select_eq r c v : keeps_session (df_select_eq r c v).
Proof. unfold df_select_eq. solve_maintains. Qed.

Lemma keeps_session_pd_concat rs : keeps_session (pd_concat rs).
Proof. unfold pd_concat. solve_maintains. Qed.

#[export] Hint Resolve preserves_df_loc preserves_df_copy preserves_df_select_eq
  preserves_pd_concat keeps_session_df_loc keeps_session_df_copy
  keeps_session_df_select_eq keeps_session_pd_concat : maintains.

(** Reading a list of references that point to known frames. *)
Lemma mapM_read_ok s rs fs :
  Forall2 (fun r f => frames s !! r = Some f) rs fs ->
  mapM read rs s = (Ok fs, s).
Proof.
  induction 1 as [|r f rs fs Hr _ IH]; [reflexivity|].
  simpl. erewrite bind_ok; [|unfold read; now rewrite Hr].
  now erewrite bind_ok; [|exact IH].
Qed.

Lemma alter_fresh {A : Type} (g : A -> A) (l : list A) (x y : A) :
  alter g (S (length l)) ((l ++ [x]) ++ [y]) = l ++ [x; g y].
Proof.
  rewrite <- app_assoc. simpl.
  replace (S (length l)) with (length l + 1) by lia.
  now rewrite alter_app_r.
Qed.

Section Store.
Context `{Q : Quality} `{P : Platform}.

(** What [tagged_selection] does: two new objects, the selection and
    its tagged copy; nothing else is touched. *)
Lemma tagged_selection_run (df : nat) (idx : list Z) (tag : string) (s : State) :
  tagged_selection df idx tag s =
    match loc (default empty_frame (frames s !! df)) idx with
    | Ok g =>
        (Ok (S (length (frames s))),
         with_frames (frames s ++ [g; set_column "__outlier_type__" (PStr tag) g]) s)
    | Raise e => (Raise e, s)
    end.
Proof.
  unfold tagged_selection, df_loc, df_copy, df_setitem, mbind, M_bind, read, lift,
    new_frame, mret, M_ret. simpl.
  destruct (loc _ idx) as [g|e]; [|reflexivity]. simpl.
  rewrite list_lookup_middle by reflexivity. simpl.
  rewrite length_app. simpl. rewrite Nat.add_1_r.
  unfold with_frames at 1. simpl. now rewrite alter_fresh.
Qed.

Lemma preserves_tagged_selection df idx tag : preserves (tagged_selection df idx tag).
Proof.
  intros s. unfold frames_kept. rewrite tagged_selection_run.
  destruct (loc _ idx); simpl; [now apply prefix_app_r | reflexivity].
Qed.

Lemma keeps_session_tagged_selection df idx tag :
  keeps_session (tagged_selection df idx tag).
Proof. unfold tagged_selection. solve_maintains. Qed.

Hint Resolve preserves_tagged_selection keeps_session_tagged_selection : maintains.

Lemma preserves_merged_outliers df a b c : preserves (merged_outliers df a b c).
Proof. unfold merged_outliers. solve_maintains. Qed.

Lemma keeps_session_merged_outliers df a b c : keeps_session (merged_outliers df a b c).
Proof. unfold merged_outliers. solve_maintains. Qed.

Lemma preserves_filter_outliers sel md : preserves (filter_outliers sel md).
Proof. unfold filter_outliers. solve_maintains. Qed.

Lemma keeps_session_filter_outliers sel md : keeps_session (filter_outliers sel md).
Proof. unfold filter_outliers. solve_maintains. Qed.

Lemma preserves_target_column_detection d df : preserves (target_column_detection d df).
Proof. unfold target_column_detection. cbv zeta. solve_maintains. Qed.
End Store.

(** ** The loaded dataset is not written to *)

Section Frame.
Context `{Q : Quality} `{P : Platform}.

Hint Resolve preserves_tagged_selection preserves_merged_outliers
  preserves_filter_outliers preserves_target_column_detection : maintains.

Lemma preserves_quality_issues args dataset_id :
  preserves (quality_issues args dataset_id).
Proof. unfold quality_issues. cbv zeta. solve_maintains. Qed.

(** The route up to the point where the dataset is an object of the
    store: the state then, and what is still to run. *)
Lemma quality_issues_loaded args dataset_id s d F :
  datasets s !! dataset_id = Some d ->
  load_df (path_join UPLOAD_FOLDER (filename d)) (original_filename d) = Ok F ->
  exists rest : M Report,
    preserves rest /\
    quality_issues args dataset_id s
      = rest (with_frames (frames s ++ [F]) s).
Proof.
  intros Hd HF. unfold quality_issues. cbv zeta.
  erewrite bind_ok; [|unfold get_or_404; now rewrite Hd].
  erewrite bind_ok; [|unfold lift; now rewrite HF].
  erewrite bind_ok; [|reflexivity].
  eexists. split; [|reflexivity]. solve_maintains.
Qed.

(** C8.  Whatever the request and however it ends, the object the
    dataset was loaded into holds the same frame afterwards: same
    columns (no ["__outlier_type__"] added), same rows, same values;
    and so does every frame object that existed before.  The tag is
    written into copies of the selections only. *)
Theorem quality_issues_leaves_dataset args dataset_id s d F :
  datasets s !! dataset_id = Some d ->
  load_df (path_join UPLOAD_FOLDER (filename d)) (original_filename d) = Ok F ->
  let df := length (frames s) in
  let s' := (quality_issues args dataset_id s).2 in
  frames s' !! df = Some F /\
  (forall r f, frames s !! r = Some f -> frames s' !! r = Some f) /\
  (forall a b c s0, frames s0 !! df = Some F ->
     frames (merged_outliers df a b c s0).2 !! df = Some F).
Proof.
  intros Hd HF df s'. split; [|split].
  - destruct (quality_issues_loaded args _ _ _ _ Hd HF) as (rest & Hp & E).
    subst s'. rewrite E.
    eapply prefix_lookup_Some; [|apply Hp]. simpl.
    now apply list_lookup_middle.
  - intros r f Hr. eapply prefix_lookup_Some; [exact Hr|].
    apply preserves_quality_issues.
  - intros a b c s0 H0. eapply prefix_lookup_Some; [exact H0|].
    apply preserves_merged_outliers.
Qed.
End Frame.

(** ** Selections and the merged table *)

Lemma filter_label_absent (rs : list (Z * gmap string pyval)) (l : Z) :
  l ∉ map fst rs -> List.filter (fun r => Z.eqb r.1 l) rs = [].
Proof.
  induction rs as [|[k c] rs IH]; simpl; [reflexivity|].
  intros Hn. apply not_elem_of_cons in Hn as [Hne Hn].
  destruct (Z.eqb_spec k l); [congruence | auto].
Qed.

Lemma filter_label_present (rs : list (Z * gmap string pyval)) (l : Z) :
  l ∈ map fst rs -> List.filter (fun r => Z.eqb r.1 l) rs <> [].
Proof.
  induction rs as [|[k c] rs IH]; simpl.
  - intros H. inversion H.
  - intros H. destruct (Z.eqb_spec k l); [discriminate|].
    apply elem_of_cons in H as [H|H]; [congruence | auto].
Qed.

Lemma filter_label_unique (rs : list (Z * gmap string pyval)) (l : Z) :
  NoDup (map fst rs) -> l ∈ map fst rs ->
  exists c, List.filter (fun r => Z.eqb r.1 l) rs = [(l, c)].
Proof.
  induction rs as [|[k c] rs IH]; simpl.
  - intros _ H. inversion H.
  - intros Hnd H. apply NoDup_cons in Hnd as [Hk Hnd].
    destruct (Z.eqb_spec k l) as [->|Hne].
    + exists c. now rewrite filter_label_absent.
    + apply elem_of_cons in H as [H|H]; [congruence | auto].
Qed.

(** With labels that do not repeat, [df.loc[idx]] is one row per label
    of [idx], in the order of [idx]. *)
Lemma loc_rows_unique (f : DataFrame) (idx : list Z) :
  unique_labels f -> Forall (fun l => l ∈ labels f) idx ->
  loc_rows f idx = Ok (map (fun l => (l, row_at f l)) idx).
Proof.
  intros Hu. induction 1 as [|l idx Hl _ IH]; simpl; [reflexivity|].
  unfold loc_label, row_at.
  destruct (filter_label_unique _ _ Hu Hl) as [c ->].
  now rewrite IH.
Qed.

Lemma loc_unique (f : DataFrame) (idx : list Z) :
  unique_labels f -> Forall (fun l => l ∈ labels f) idx ->
  loc f idx = Ok {| columns := columns f; rows := map (fun l => (l, row_at f l)) idx |}.
Proof. intros Hu Hi. unfold loc. now rewrite loc_rows_unique. Qed.

(** [df.loc[idx]] succeeds as soon as every label of [idx] is one of
    the frame, and only then. *)
Lemma loc_rows_defined (f : DataFrame) (idx : list Z) :
  Forall (fun l => l ∈ labels f) idx -> exists rs, loc_rows f idx = Ok rs.
Proof.
  induction 1 as [|l idx Hl _ [rs IH]]; simpl; [eauto|].
  unfold loc_label.
  pose proof (filter_label_present _ _ Hl) as Hne.
  destruct (List.filter _ (rows f)); [congruence|].
  rewrite IH. eauto.
Qed.

Lemma loc_defined (f : DataFrame) (idx : list Z) :
  Forall (fun l => l ∈ labels f) idx -> exists g, loc f idx = Ok g.
Proof.
  intros H. destruct (loc_rows_defined _ _ H) as [rs E].
  unfold loc. rewrite E. eauto.
Qed.

Lemma reindex_cells (rs : list (Z * gmap string pyval)) :
  map snd (reindex rs) = map snd rs.
Proof.
  unfold reindex. generalize 0 as n.
  assert (forall (g : nat -> nat),
            map snd (imap (fun i r => (Z.of_nat (g i), r.2)) rs) = map snd rs) as H.
  { induction rs as [|r rs IH]; intros g; simpl; [reflexivity|].
    f_equal. apply (IH (fun i => g (S i))). }
  intros _. apply (H (fun i => i)).
Qed.

Section Merged.
Context `{Q : Quality} `{P : Platform}.

(** One of the three blocks: the references gathered so far still
    point to their frames, and the new tagged copy is appended. *)
Lemma block_ok s df F idx tag G (mr : list nat) (fs : list DataFrame) :
  frames s !! df = Some F ->
  loc F idx = Ok G ->
  Forall2 (fun r f => frames s !! r = Some f) mr fs ->
  exists mr' s',
    (if truthy_list idx
     then tagged_selection df idx tag ≫= (fun temp => mret (mr ++ [temp]))
     else mret mr) s = (Ok mr', s') /\
    Forall2 (fun r f => frames s' !! r = Some f) mr'
      (fs ++ if truthy_list idx then [tag_frame tag G] else []) /\
    frames s' !! df = Some F /\
    frames s `prefix_of` frames s' /\
    session s' = session s /\ flashes s' = flashes s /\ datasets s' = datasets s.
Proof.
  intros Hdf HG Hmr. destruct idx as [|i idx].
  - exists mr, s. simpl. rewrite app_nil_r. repeat split; auto.
  - set (idx' := i :: idx) in *.
    change (truthy_list idx') with true. cbv iota.
    assert (tagged_selection df idx' tag s =
            (Ok (S (length (frames s))),
             with_frames (frames s ++ [G; tag_frame tag G]) s)) as E.
    { rewrite tagged_selection_run, Hdf. simpl. now rewrite HG. }
    eexists _, _. split; [erewrite bind_ok; [reflexivity | exact E]|].
    simpl. repeat split; auto.
    + apply Forall2_app.
      * eapply Forall2_impl; [exact Hmr|]. intros r f Hr. simpl in Hr |- *.
        eapply prefix_lookup_Some; [exact Hr | now apply prefix_app_r].
      * constructor; [|constructor].
        rewrite lookup_app_r by lia.
        now replace (S (length (frames s)) - length (frames s)) with 1 by lia.
    + eapply prefix_lookup_Some; [exact Hdf | now apply prefix_app_r].
    + now apply prefix_app_r.
Qed.

(** The merged table when the three selections exist: the frames of
    [merged_rows], and [merged_df] their concatenation, or the empty
    frame when there is none. *)
Lemma merged_outliers_ok s df F structural_idx statistical_idx semantic_idx Gs Ga Gt :
  frames s !! df = Some F ->
  loc F statistical_idx = Ok Gs ->
  loc F semantic_idx = Ok Ga ->
  loc F structural_idx = Ok Gt ->
  let temps := temps_of statistical_idx semantic_idx structural_idx Gs Ga Gt in
  exists mr md s',
    merged_outliers df structural_idx statistical_idx semantic_idx s = (Ok (mr, md), s') /\
    Forall2 (fun r f => frames s' !! r = Some f) mr temps /\
    frames s' !! md = Some (merged_of temps) /\
    frames s' !! df = Some F /\
    session s' = session s /\ flashes s' = flashes s /\ datasets s' = datasets s.
Proof.
  intros Hdf Hs Ha Ht temps. unfold merged_outliers. cbv zeta.
  destruct (block_ok s df F statistical_idx "Statistical" Gs [] [] Hdf Hs)
    as (mr1 & s1 & E1 & F1 & D1 & _ & S1 & L1 & B1); [constructor|].
  erewrite bind_ok; [|exact E1].
  destruct (block_ok s1 df F semantic_idx "AI-Based" Ga mr1 _ D1 Ha F1)
    as (mr2 & s2 & E2 & F2 & D2 & _ & S2 & L2 & B2).
  erewrite bind_ok; [|exact E2].
  destruct (block_ok s2 df F structural_idx "Structural" Gt mr2 _ D2 Ht F2)
    as (mr3 & s3 & E3 & F3 & D3 & _ & S3 & L3 & B3).
  erewrite bind_ok; [|exact E3].
  simpl app in F3. rewrite <- app_assoc in F3. fold (temps_of statistical_idx
    semantic_idx structural_idx Gs Ga Gt) in F3. fold temps in F3.
  unfold merged_of.
  destruct F3 as [|r f mr fs Hr Hrest].
  - simpl. eexists _, _, _. split; [reflexivity|]. simpl.
    repeat split; try congruence; [constructor| |].
    + now apply list_lookup_middle.
    + eapply prefix_lookup_Some; [exact D3 | now apply prefix_app_r].
  - simpl truthy_list. cbv iota.
    assert (Forall2 (fun r f => frames s3 !! r = Some f) (r :: mr) (f :: fs)) as Hall
      by now constructor.
    erewrite bind_ok;
      [|unfold pd_concat; erewrite bind_ok; [reflexivity | eapply mapM_read_ok; exact Hall]].
    eexists _, _, _. split; [reflexivity|]. simpl.
    repeat split; try congruence.
    + eapply Forall2_impl; [exact Hall|]. intros r' f' Hr'. simpl in Hr' |- *.
      eapply prefix_lookup_Some; [exact Hr' | now apply prefix_app_r].
    + now apply list_lookup_middle.
    + eapply prefix_lookup_Some; [exact D3 | now apply prefix_app_r].
Qed.
End Merged.

(** ** Counting and ordering the tagged rows *)

Lemma occurrences_app {A : Type} `{EqDecision A} (x : A) (l k : list A) :
  occurrences x (l ++ k) = occurrences x l + occurrences x k.
Proof. induction l as [|y l IH]; simpl; [reflexivity | rewrite IH; lia]. Qed.

Lemma occurrences_absent {A : Type} `{EqDecision A} (x : A) (l : list A) :
  x ∉ l -> occurrences x l = 0.
Proof.
  induction l as [|y l IH]; simpl; [reflexivity|].
  intros Hn. apply not_elem_of_cons in Hn as [Hne Hn].
  rewrite (IH Hn). destruct (decide (y = x)); [congruence | reflexivity].
Qed.

Lemma occurrences_NoDup (x : Z) (l : list Z) :
  NoDup l -> occurrences x l = flagged x l.
Proof.
  unfold flagged. induction 1 as [|y l Hy Hnd IH]; simpl.
  - destruct (decide (x ∈ [])) as [H|]; [inversion H | reflexivity].
  - destruct (decide (y = x)) as [->|Hne].
    + rewrite occurrences_absent by assumption.
      destruct (decide (x ∈ x :: l)) as [|Hn]; [reflexivity|].
      exfalso. apply Hn. constructor.
    + rewrite IH. destruct (decide (x ∈ l)) as [Hin|Hn];
        destruct (decide (x ∈ y :: l)) as [Hin'|Hn']; try reflexivity.
      * exfalso. apply Hn'. now constructor.
      * apply elem_of_cons in Hin' as [?|?]; congruence.
Qed.

Lemma occurrences_pair_same (i : Z) (t : pyval) (l : list Z) :
  occurrences (i, t) (map (fun j => (j, t)) l) = occurrences i l.
Proof.
  induction l as [|j l IH]; simpl; [reflexivity|]. rewrite IH.
  destruct (decide (j = i)) as [->|Hne].
  - destruct (decide ((i, t) = (i, t))); [reflexivity | congruence].
  - destruct (decide ((j, t) = (i, t))); [congruence | reflexivity].
Qed.

Lemma occurrences_pair_other (i : Z) (t t' : pyval) (l : list Z) :
  t' <> t -> occurrences (i, t) (map (fun j => (j, t')) l) = 0.
Proof.
  intros Hne. induction l as [|j l IH]; simpl; [reflexivity|]. rewrite IH.
  destruct (decide ((j, t') = (i, t))); [congruence | reflexivity].
Qed.

Lemma occurrences_fst (i : Z) (t : pyval) (l : list Z) :
  occurrences i (map fst (map (fun j => (j, t)) l)) = occurrences i l.
Proof. rewrite map_map. simpl. now rewrite map_id. Qed.

Lemma rows_tag_frame (t : string) (f : DataFrame) (idx : list Z) :
  rows (tag_frame t (selection f idx))
  = map (fun l => (l, tagged t (row_at f l))) idx.
Proof. unfold tag_frame, set_column, selection. simpl. now rewrite map_map. Qed.

Lemma tag_of_tagged (l : Z) (t : string) (c : gmap string pyval) :
  tag_of (l, tagged t c) = PStr t.
Proof. unfold tag_of, cell, tagged. simpl. now rewrite lookup_insert_eq. Qed.

(** The rows of the frames of [merged_rows], block by block; a block
    that was skipped had an empty label list. *)
Lemma rows_temps_of (f : DataFrame) (stat sem struct : list Z) :
  flat_map rows (temps_of stat sem struct
                   (selection f stat) (selection f sem) (selection f struct))
  = map (fun l => (l, tagged "Statistical" (row_at f l))) stat
    ++ map (fun l => (l, tagged "AI-Based" (row_at f l))) sem
    ++ map (fun l => (l, tagged "Structural" (row_at f l))) struct.
Proof.
  unfold temps_of. rewrite !flat_map_app.
  assert (forall t idx,
            flat_map rows (if truthy_list idx then [tag_frame t (selection f idx)] else [])
            = map (fun l => (l, tagged t (row_at f l))) idx) as H.
  { intros t [|i idx]; [reflexivity|].
    change (truthy_list (i :: idx)) with true. cbv iota.
    change (flat_map rows [tag_frame t (selection f (i :: idx))])
      with (rows (tag_frame t (selection f (i :: idx))) ++ []).
    now rewrite app_nil_r, rows_tag_frame. }
  now rewrite !H.
Qed.

Lemma provenance_rows (temps : list DataFrame) :
  provenance temps = map (fun r => (r.1, tag_of r)) (flat_map rows temps).
Proof.
  unfold provenance. induction temps as [|t temps IH]; simpl; [reflexivity|].
  now rewrite map_app, IH.
Qed.

Lemma provenance_temps_of (f : DataFrame) (stat sem struct : list Z) :
  provenance (temps_of stat sem struct
                (selection f stat) (selection f sem) (selection f struct))
  = map (fun l => (l, PStr "Statistical")) stat
    ++ map (fun l => (l, PStr "AI-Based")) sem
    ++ map (fun l => (l, PStr "Structural")) struct.
Proof.
  rewrite provenance_rows, rows_temps_of, !map_app, !map_map.
  f_equal; [|f_equal]; apply map_ext; intros l; simpl; now rewrite tag_of_tagged.
Qed.

Lemma rows_merged_of (temps : list DataFrame) :
  map snd (rows (merged_of temps)) = map snd (flat_map rows temps).
Proof.
  unfold merged_of. destruct temps as [|t temps]; [reflexivity|].
  change (truthy_list (t :: temps)) with true. cbv iota.
  unfold concat_ignore_index. simpl rows. apply reindex_cells.
Qed.

Lemma lookup_three_blocks {A : Type} (a b c : list A) (i : nat) (x : A) :
  (a ++ b ++ c) !! i = Some x ->
  (i < length a /\ x ∈ a)
  \/ (length a <= i < length a + length b /\ x ∈ b)
  \/ (length a + length b <= i /\ x ∈ c).
Proof.
  intros H. apply lookup_app_Some in H as [H|[Ha H]].
  - left. split; [eapply lookup_lt_Some; eauto | eapply list_elem_of_lookup_2; eauto].
  - apply lookup_app_Some in H as [H|[Hb H]].
    + right; left. apply lookup_lt_Some in H as Hlt.
      split; [lia | eapply list_elem_of_lookup_2; eauto].
    + right; right. split; [lia | eapply list_elem_of_lookup_2; eauto].
Qed.

Lemma tagged_block_tag (f : DataFrame) (t : string) (idx : list Z) (c : gmap string pyval) :
  c ∈ map (fun l => tagged t (row_at f l)) idx ->
  c !! "__outlier_type__" = Some (PStr t).
Proof.
  intros H. apply list_elem_of_fmap in H as (l & -> & _).
  unfold tagged. apply lookup_insert_eq.
Qed.

Section TaggedView.
Context `{Q : Quality} `{P : Platform}.

(** The merged table over a dataset with unique labels that has every
    flagged label: what [merged_rows] and [merged_df] hold. *)
Lemma merged_outliers_unique s df F structural_idx statistical_idx semantic_idx :
  frames s !! df = Some F ->
  unique_labels F ->
  Forall (fun l => l ∈ labels F) statistical_idx ->
  Forall (fun l => l ∈ labels F) semantic_idx ->
  Forall (fun l => l ∈ labels F) structural_idx ->
  let temps := temps_of statistical_idx semantic_idx structural_idx
                 (selection F statistical_idx) (selection F semantic_idx)
                 (selection F structural_idx) in
  exists mr md s',
    merged_outliers df structural_idx statistical_idx semantic_idx s = (Ok (mr, md), s') /\
    Forall2 (fun r f => frames s' !! r = Some f) mr temps /\
    frames s' !! md = Some (merged_of temps) /\
    frames s' !! df = Some F /\
    session s' = session s /\ flashes s' = flashes s /\ datasets s' = datasets s.
Proof.
  intros Hdf Hu Hs Ha Ht. apply merged_outliers_ok; auto using loc_unique.
Qed.

(** The unfiltered view is [merged_df] itself. *)
Lemma filter_outliers_all sel md s :
  sel <> "statistical" -> sel <> "ai" -> sel <> "structural" ->
  filter_outliers sel md s = (Ok md, s).
Proof.
  intros H1 H2 H3. unfold filter_outliers.
  destruct (String.eqb_spec sel "statistical"); [contradiction|].
  destruct (String.eqb_spec sel "ai"); [contradiction|].
  destruct (String.eqb_spec sel "structural"); [contradiction|].
  reflexivity.
Qed.

End TaggedView.

(** ** The route as a whole *)

Section Route.
Context `{Q : Quality} `{P : Platform}.

Hint Resolve preserves_tagged_selection keeps_session_tagged_selection
  preserves_merged_outliers keeps_session_merged_outliers
  preserves_filter_outliers keeps_session_filter_outliers
  preserves_target_column_detection : maintains.

(** What target detection does, case by case. *)
Lemma target_column_detection_run d df s :
  target_column_detection d df s =
    let f := default empty_frame (frames s !! df) in
    match session s !! session_key_of d with
    | Some o =>
        if truthy o then
          if bool_decide (o ∈ columns f) then (Ok (Some o), s)
          else (Ok (auto_detect_target_column f),
                with_session (delete (session_key_of d) (session s)) s)
        else (Ok (auto_detect_target_column f), s)
    | None => (Ok (auto_detect_target_column f), s)
    end.
Proof.
  unfold target_column_detection, mbind, M_bind, session_get, read, session_pop,
    mret, M_ret. cbv zeta.
  destruct (session s !! session_key_of d) as [o|]; simpl; [|reflexivity].
  destruct (truthy o); simpl; [|reflexivity].
  destruct (bool_decide (o ∈ columns _)); reflexivity.
Qed.

(** A report that was returned: where each of its fields comes from.
    [s1] is the state in which the target column is detected. *)
Lemma quality_issues_inv args dataset_id s rep s' :
  quality_issues args dataset_id s = (Ok rep, s') ->
  exists d F s1,
    datasets s !! dataset_id = Some d /\
    load_df (path_join UPLOAD_FOLDER (filename d)) (original_filename d) = Ok F /\
    frames s1 !! length (frames s) = Some F /\
    session_kept s s1 /\
    target_column_detection d (length (frames s)) s1 = (Ok (detected_target rep), s') /\
    dataset rep = d /\
    df_columns rep = columns F /\
    selected_filter rep = selected_filter_of args /\
    outlier_total rep = default (PInt 0) (out_outlier_count (detect_outliers F)) /\
    structural_count rep = length (default [] (out_structural_indices (detect_outliers F))) /\
    statistical_count rep = length (default [] (out_statistical_indices (detect_outliers F))) /\
    semantic_count rep = length (default [] (out_semantic_indices (detect_outliers F))) /\
    y_missing_cells rep = y_metric (ydata_summary d) "missing_cells" /\
    y_missing_percent rep = y_metric (ydata_summary d) "missing_cells_percent" /\
    y_dup_rows rep = y_metric (ydata_summary d) "duplicate_rows" /\
    y_dup_percent rep = y_metric (ydata_summary d) "duplicate_rows_percent" /\
    label_issue_count rep
      = default (PInt 0)
          (lab_label_issue_count (detect_label_issues F (detected_target rep))) /\
    label_note rep
      = default PNone (lab_note (detect_label_issues F (detected_target rep))).
Proof.
  intros H. unfold quality_issues in H. cbv zeta in H.
  apply bind_inv in H as (d & s0 & Hget & H).
  unfold get_or_404 in Hget. destruct (datasets s !! dataset_id) as [d0|] eqn:Hd;
    [|discriminate]. injection Hget as E1 E2. subst d0 s0.
  apply bind_inv in H as (F & s0 & Hload & H).
  unfold lift in Hload. injection Hload as Hload E2. subst s0.
  apply bind_inv in H as (df & s2 & Hnew & H).
  unfold new_frame in Hnew. injection Hnew as E1 E2. subst df s2.
  apply bind_inv in H as (f & s3 & Hread & H).
  unfold read in Hread. simpl in Hread.
  rewrite list_lookup_middle in Hread by reflexivity. simpl in Hread.
  injection Hread as E1 E2. subst f s3.
  apply bind_inv in H as ([mr md] & s4 & Hm & H).
  apply bind_inv in H as (fd & s5 & Hf & H).
  apply bind_inv in H as (filtered & s6 & Hr & H).
  unfold read in Hr. injection Hr as _ E2. subst s6.
  apply bind_inv in H as (dt & s7 & Ht & H).
  apply bind_inv in H as (f' & s8 & Hr' & H).
  unfold read in Hr'. injection Hr' as E1 E2. subst f' s8.
  pose proof (preserves_merged_outliers (length (frames s))
                (default [] (out_structural_indices (detect_outliers F)))
                (default [] (out_statistical_indices (detect_outliers F)))
                (default [] (out_semantic_indices (detect_outliers F)))
                (with_frames (frames s ++ [F]) s)) as P4.
  pose proof (keeps_session_merged_outliers (length (frames s))
                (default [] (out_structural_indices (detect_outliers F)))
                (default [] (out_statistical_indices (detect_outliers F)))
                (default [] (out_semantic_indices (detect_outliers F)))
                (with_frames (frames s ++ [F]) s)) as K4.
  rewrite Hm in P4, K4. simpl in P4, K4.
  pose proof (preserves_filter_outliers (selected_filter_of args) md s4) as P5.
  pose proof (keeps_session_filter_outliers (selected_filter_of args) md s4) as K5.
  rewrite Hf in P5, K5. simpl in P5, K5.
  pose proof (preserves_target_column_detection d (length (frames s)) s5) as P7.
  rewrite Ht in P7. simpl in P7.
  assert (frames s5 !! length (frames s) = Some F) as D5.
  { eapply prefix_lookup_Some; [|exact P5].
    eapply prefix_lookup_Some; [|exact P4].
    simpl. now apply list_lookup_middle. }
  assert (frames s7 !! length (frames s) = Some F) as D7
    by (eapply prefix_lookup_Some; [exact D5 | exact P7]).
  rewrite D7 in H. simpl in H.
  unfold mret, M_ret in H. injection H as E1 E2. subst rep s'.
  exists d, F, s5. simpl.
  split; [reflexivity|]. split; [exact Hload|]. split; [exact D5|].
  split; [exact (transitivity (R:=session_kept) K4 K5)|].
  split; [exact Ht|]. repeat split.
Qed.
End Route.

(** ** Sizes of the index sets *)

Lemma size_difference_disjoint (X Y : gset Z) :
  size (Y ∖ X) = size Y <-> X ## Y.
Proof.
  split.
  - intros E. assert (Y ∖ X = Y) as H.
    { apply set_subseteq_size_eq; [set_solver | lia]. }
    set_solver.
  - intros D. f_equal. set_solver.
Qed.

Lemma size_union3 (A B C : gset Z) :
  size (A ∪ B ∪ C) <= size A + size B + size C /\
  (size (A ∪ B ∪ C) = size A + size B + size C <-> A ## B /\ A ## C /\ B ## C).
Proof.
  rewrite (size_union_alt (A ∪ B) C), (size_union_alt A B).
  assert (size (B ∖ A) <= size B) as HB by (apply subseteq_size; set_solver).
  assert (size (C ∖ (A ∪ B)) <= size C) as HC by (apply subseteq_size; set_solver).
  split; [lia|]. split.
  - intros E.
    assert (size (B ∖ A) = size B) as EB by lia.
    assert (size (C ∖ (A ∪ B)) = size C) as EC by lia.
    apply size_difference_disjoint in EB, EC. set_solver.
  - intros (AB & AC & BC).
    assert (size (B ∖ A) = size B) as -> by now apply size_difference_disjoint.
    assert (size (C ∖ (A ∪ B)) = size C) as ->
      by (apply size_difference_disjoint; set_solver).
    reflexivity.
Qed.

Section Claims.
Context `{Q : Quality} `{P : Platform}.

(** C3.  When [detect_outliers] is as the spec has it, a returned
    report carries as total the size of the union of the three index
    sets, and as per-method counts the sizes of the sets; the total
    is at most the sum of the three counts, and equal to it exactly
    when no two of the sets share an index. *)
Theorem outlier_total_is_union_size
    args dataset_id s rep s' d F (structural statistical semantic : gset Z) :
  quality_issues args dataset_id s = (Ok rep, s') ->
  datasets s !! dataset_id = Some d ->
  load_df (path_join UPLOAD_FOLDER (filename d)) (original_filename d) = Ok F ->
  detect_outliers F = detect_outliers_spec structural statistical semantic ->
  let total := size (structural ∪ statistical ∪ semantic) in
  outlier_total rep = PInt (Z.of_nat total) /\
  structural_count rep = size structural /\
  statistical_count rep = size statistical /\
  semantic_count rep = size semantic /\
  total <= structural_count rep + statistical_count rep + semantic_count rep /\
  (total = structural_count rep + statistical_count rep + semantic_count rep
   <-> structural ## statistical /\ structural ## semantic /\ statistical ## semantic).
Proof.
  intros H Hd HF Hout total.
  apply quality_issues_inv in H
    as (d' & F' & s1 & Hd' & HF' & _ & _ & _ & _ & _ & _ & Ht & Hc1 & Hc2 & Hc3 & _).
  assert (d' = d) as -> by congruence.
  assert (F' = F) as -> by congruence.
  rewrite Hout in Ht, Hc1, Hc2, Hc3. simpl in Ht, Hc1, Hc2, Hc3.
  rewrite Ht, Hc1, Hc2, Hc3.
  change (length (elements structural)) with (size structural).
  change (length (elements statistical)) with (size statistical).
  change (length (elements semantic)) with (size semantic).
  destruct (size_union3 structural statistical semantic) as [Hle Hiff].
  subst total. split; [reflexivity|]. do 3 (split; [reflexivity|]).
  split; [exact Hle | exact Hiff].
Qed.

(** C7.  In a returned report: when the dataset has no generated
    profile or no profile path, no statistics are extracted, whatever
    the extractor, and the four overview metrics are ["N/A"]; when it
    has both, the statistics are those the extractor returns for the
    profile's path, and each of the four metrics is the value under
    its key, or ["N/A"] when the key is not there or nothing was
    returned. *)
Theorem overview_metrics_default_to_unavailable args dataset_id s rep s' d :
  quality_issues args dataset_id s = (Ok rep, s') ->
  datasets s !! dataset_id = Some d ->
  (profile_generated d = false \/ profile_path d = None
     \/ profile_path d = Some EmptyString ->
     (forall Q' : Quality, ydata_summary (Q:=Q') d = None) /\
     y_missing_cells rep = PStr "N/A" /\ y_missing_percent rep = PStr "N/A" /\
     y_dup_rows rep = PStr "N/A" /\ y_dup_percent rep = PStr "N/A") /\
  (forall path, profile_generated d = true -> profile_path d = Some path ->
     path <> EmptyString ->
     let y_stats := extract_ydata_overview_stats (path_join UPLOAD_FOLDER path) in
     let metric k :=
       match y_stats with
       | Some st => default (PStr "N/A") (st !! k)
       | None => PStr "N/A"
       end in
     ydata_summary d = y_stats /\
     y_missing_cells rep = metric "missing_cells" /\
     y_missing_percent rep = metric "missing_cells_percent" /\
     y_dup_rows rep = metric "duplicate_rows" /\
     y_dup_percent rep = metric "duplicate_rows_percent").
Proof.
  intros H Hd.
  apply quality_issues_inv in H
    as (d' & F' & s1 & Hd' & _ & _ & _ & _ & _ & _ & _ & _ & _ & _ & _
        & Y1 & Y2 & Y3 & Y4 & _).
  assert (d' = d) as -> by congruence.
  rewrite Y1, Y2, Y3, Y4. split.
  - intros Hno.
    assert (forall Q' : Quality, ydata_summary (Q:=Q') d = None) as Hsum.
    { intros Q'. unfold ydata_summary.
      destruct Hno as [-> | [-> | ->]]; simpl; [reflexivity | |];
        now rewrite andb_false_r. }
    split; [exact Hsum|]. now rewrite (Hsum Q).
  - intros path Hg Hp Hne y_stats metric.
    assert (ydata_summary d = y_stats) as Hsum.
    { unfold ydata_summary. rewrite Hg, Hp. simpl.
      destruct path; [congruence | reflexivity]. }
    split; [exact Hsum|]. rewrite Hsum.
    assert (forall k, y_metric y_stats k = metric k) as Hm.
    { intros k. unfold y_metric, metric. destruct y_stats as [st|]; [|reflexivity].
      case_bool_decide as He; [|reflexivity]. subst st.
      now rewrite lookup_empty. }
    now rewrite !Hm.
Qed.

End Claims.

(** ** The filter, and when the route raises *)

Lemma cell_eq_str_decide (v : pyval) (t : string) :
  cell_eq_str v t = bool_decide (v = PStr t).
Proof.
  destruct v as [| | | |u]; simpl; try reflexivity.
  destruct (String.eqb_spec u t) as [->|Hne]; symmetry.
  - now apply bool_decide_eq_true.
  - apply bool_decide_eq_false. congruence.
Qed.

Lemma union_columns_seen (c : string) (seen : list string) (fs : list DataFrame) :
  c ∈ seen -> c ∈ union_columns seen fs.
Proof.
  revert seen. induction fs as [|f fs IH]; intros seen H; simpl; [exact H|].
  apply IH. apply elem_of_app. now left.
Qed.

Lemma union_columns_head (c : string) (seen : list string) (f : DataFrame)
    (fs : list DataFrame) :
  c ∈ columns f -> c ∈ union_columns seen (f :: fs).
Proof.
  intros H. simpl. apply union_columns_seen. apply elem_of_app.
  destruct (decide (c ∈ seen)) as [Hin|Hn]; [now left|]. right.
  apply list_elem_of_In, filter_In. split; [now apply list_elem_of_In|].
  now rewrite bool_decide_false.
Qed.

Lemma tag_frame_has_tag (t : string) (g : DataFrame) :
  "__outlier_type__" ∈ columns (tag_frame t g).
Proof.
  unfold tag_frame, set_column. simpl. case_bool_decide as H; [exact H|].
  apply elem_of_app. right. constructor.
Qed.

(** The merged frame has the tag column as soon as a detector flagged a
    row, and has no column at all otherwise. *)
Lemma merged_of_has_tag (stat sem struct : list Z) (gs ga gt : DataFrame) :
  stat <> [] \/ sem <> [] \/ struct <> [] ->
  "__outlier_type__" ∈ columns (merged_of (temps_of stat sem struct gs ga gt)).
Proof.
  intros H.
  assert (exists t g rest, temps_of stat sem struct gs ga gt = tag_frame t g :: rest)
    as (t & g & rest & ->).
  { unfold temps_of.
    destruct stat as [|i stat];
      [destruct sem as [|j sem]; [destruct struct as [|k struct]|]|]; simpl; eauto.
    destruct H as [H|[H|H]]; congruence. }
  unfold merged_of. change (truthy_list (tag_frame t g :: rest)) with true. cbv iota.
  unfold concat_ignore_index. cbn [columns].
  apply union_columns_head, tag_frame_has_tag.
Qed.

Lemma merged_of_nothing (gs ga gt : DataFrame) :
  merged_of (temps_of [] [] [] gs ga gt) = empty_frame.
Proof. reflexivity. Qed.

Lemma select_eq_rows (f : DataFrame) (t : string) :
  "__outlier_type__" ∈ columns f ->
  select_eq f "__outlier_type__" t
  = Ok {| columns := columns f;
          rows := List.filter (fun r => bool_decide (tag_of r = PStr t)) (rows f) |}.
Proof.
  intros H. unfold select_eq. rewrite bool_decide_true by exact H.
  do 2 f_equal. apply filter_ext. intros r. apply cell_eq_str_decide.
Qed.

Lemma df_select_eq_run (md : nat) (t : string) (s : State) :
  df_select_eq md "__outlier_type__" t s =
    match select_eq (default empty_frame (frames s !! md)) "__outlier_type__" t with
    | Ok g => (Ok (length (frames s)), with_frames (frames s ++ [g]) s)
    | Raise e => (Raise e, s)
    end.
Proof.
  unfold df_select_eq, mbind, M_bind, read, lift, new_frame. simpl.
  now destruct (select_eq _ _ t).
Qed.

Section Filter.
Context `{Q : Quality} `{P : Platform}.

(** C5, amended.  The selector is compared in lower case.  On a merged
    frame that has the tag column (a detector flagged a row): if the
    selector is ["statistical"], ["ai"] or ["structural"], the view is
    a new frame with the same columns and exactly the rows tagged
    ["Statistical"], ["AI-Based"] or ["Structural"], in their order.
    On every merged frame, [pd.DataFrame()] included: for any other
    selector, and when the request has no [filter] parameter, the
    view is the merged frame itself.  On a merged frame without the
    tag column the three selectors raise [KeyError] and nothing is
    kept. *)
Theorem filter_outliers_by_category args s md Mf :
  frames s !! md = Some Mf ->
  let sel := selected_filter_of args in
  let view t :=
    {| columns := columns Mf;
       rows := List.filter (fun r => bool_decide (tag_of r = PStr t)) (rows Mf) |} in
  let kept t :=
    filter_outliers sel md s
    = (Ok (length (frames s)), with_frames (frames s ++ [view t]) s) in
  ("__outlier_type__" ∈ columns Mf ->
     (sel = "statistical" -> kept "Statistical") /\
     (sel = "ai" -> kept "AI-Based") /\
     (sel = "structural" -> kept "Structural")) /\
  (sel <> "statistical" -> sel <> "ai" -> sel <> "structural" ->
     filter_outliers sel md s = (Ok md, s)) /\
  (args !! "filter" = None -> filter_outliers sel md s = (Ok md, s)) /\
  ("__outlier_type__" ∉ columns Mf ->
     sel = "statistical" \/ sel = "ai" \/ sel = "structural" ->
     filter_outliers sel md s = (Raise (KeyError "__outlier_type__"), s)).
Proof.
  intros Hmd sel view kept. subst kept.
  split; [|split; [|split]].
  - intros Htag.
    assert (forall t, df_select_eq md "__outlier_type__" t s
                      = (Ok (length (frames s)), with_frames (frames s ++ [view t]) s))
      as Hsel.
    { intros t. rewrite df_select_eq_run, Hmd. simpl.
      now rewrite select_eq_rows. }
    repeat split; intros ->; apply Hsel.
  - apply filter_outliers_all.
  - intros Hnone. subst sel. unfold selected_filter_of. now rewrite Hnone.
  - intros Htag Hsel.
    assert (forall t, df_select_eq md "__outlier_type__" t s
                      = (Raise (KeyError "__outlier_type__"), s)) as Hraise.
    { intros t. rewrite df_select_eq_run, Hmd. simpl. unfold select_eq.
      now rewrite bool_decide_false. }
    destruct Hsel as [-> | [-> | ->]]; apply Hraise.
Qed.

(** Selecting a category out of [pd.DataFrame()] is a [KeyError]. *)
Lemma filter_outliers_on_empty sel md s :
  frames s !! md = Some empty_frame ->
  sel ∈ ["statistical"; "ai"; "structural"] ->
  filter_outliers sel md s = (Raise (KeyError "__outlier_type__"), s).
Proof.
  intros Hmd Hsel. rewrite !elem_of_cons in Hsel.
  destruct Hsel as [->|[->|[->|Hsel]]]; [| | |inversion Hsel];
    unfold filter_outliers; simpl; now rewrite df_select_eq_run, Hmd.
Qed.

(** With nothing flagged and one of the three category selectors, the
    route raises: the merged frame is [pd.DataFrame()], which has no
    ["__outlier_type__"] column to compare. *)
Lemma quality_issues_raises_when_nothing_flagged args dataset_id s d F :
  datasets s !! dataset_id = Some d ->
  load_df (path_join UPLOAD_FOLDER (filename d)) (original_filename d) = Ok F ->
  default [] (out_structural_indices (detect_outliers F)) = [] ->
  default [] (out_statistical_indices (detect_outliers F)) = [] ->
  default [] (out_semantic_indices (detect_outliers F)) = [] ->
  selected_filter_of args ∈ ["statistical"; "ai"; "structural"] ->
  (quality_issues args dataset_id s).1 = Raise (KeyError "__outlier_type__").
Proof.
  intros Hd HF E1 E2 E3 Hsel. unfold quality_issues. cbv zeta.
  erewrite bind_ok; [|unfold get_or_404; now rewrite Hd].
  erewrite bind_ok; [|unfold lift; now rewrite HF].
  erewrite bind_ok; [|reflexivity].
  erewrite bind_ok; [|reflexivity].
  simpl frames. rewrite list_lookup_middle by reflexivity. simpl default.
  rewrite E1, E2, E3.
  set (st := with_frames (frames s ++ [F]) s).
  assert (merged_outliers (length (frames s)) [] [] [] st
          = (Ok ([], length (frames st)),
             with_frames (frames st ++ [empty_frame]) st)) as Em by reflexivity.
  erewrite bind_ok; [|exact Em]. cbv beta iota.
  erewrite bind_raise; [reflexivity|].
  apply filter_outliers_on_empty; [|exact Hsel].
  simpl frames. now apply list_lookup_middle.
Qed.

Lemma target_column_detection_total d df s :
  exists t s', target_column_detection d df s = (Ok t, s').
Proof.
  rewrite target_column_detection_run. simpl.
  destruct (session s !! session_key_of d) as [o|]; [|eauto].
  destruct (truthy o); [|eauto]. case_bool_decide; eauto.
Qed.

(** In every other case the route returns a report, provided the
    flagged labels are labels of the dataset. *)
Lemma quality_issues_completes args dataset_id s d F :
  datasets s !! dataset_id = Some d ->
  load_df (path_join UPLOAD_FOLDER (filename d)) (original_filename d) = Ok F ->
  let structural_idx := default [] (out_structural_indices (detect_outliers F)) in
  let statistical_idx := default [] (out_statistical_indices (detect_outliers F)) in
  let semantic_idx := default [] (out_semantic_indices (detect_outliers F)) in
  Forall (fun l => l ∈ labels F) structural_idx ->
  Forall (fun l => l ∈ labels F) statistical_idx ->
  Forall (fun l => l ∈ labels F) semantic_idx ->
  (statistical_idx <> [] \/ semantic_idx <> [] \/ structural_idx <> [])
  \/ selected_filter_of args ∉ ["statistical"; "ai"; "structural"] ->
  exists rep s', quality_issues args dataset_id s = (Ok rep, s').
Proof.
  intros Hd HF structural_idx statistical_idx semantic_idx Ht Hs Ha Hcase.
  destruct (loc_defined _ _ Ht) as [Gt Et].
  destruct (loc_defined _ _ Hs) as [Gs Es].
  destruct (loc_defined _ _ Ha) as [Ga Ea].
  unfold quality_issues. cbv zeta.
  erewrite bind_ok; [|unfold get_or_404; now rewrite Hd].
  erewrite bind_ok; [|unfold lift; now rewrite HF].
  erewrite bind_ok; [|reflexivity].
  erewrite bind_ok; [|reflexivity].
  simpl frames. rewrite list_lookup_middle by reflexivity. simpl default.
  fold structural_idx statistical_idx semantic_idx.
  destruct (merged_outliers_ok (with_frames (frames s ++ [F]) s) (length (frames s)) F
              structural_idx statistical_idx semantic_idx Gs Ga Gt)
    as (mr & md & s4 & Em & _ & Hmd & Hdf & _); auto.
  { simpl. now apply list_lookup_middle. }
  erewrite bind_ok; [|exact Em]. cbv beta iota.
  assert (exists fd s5, filter_outliers (selected_filter_of args) md s4 = (Ok fd, s5))
    as (fd & s5 & Ef).
  { destruct (decide (selected_filter_of args ∈ ["statistical"; "ai"; "structural"]))
      as [Hin|Hnin].
    - destruct Hcase as [Hne|Hn]; [|contradiction].
      pose proof (merged_of_has_tag _ _ _ Gs Ga Gt Hne) as Htag.
      assert (forall t, exists fd s5,
                 df_select_eq md "__outlier_type__" t s4 = (Ok fd, s5)) as Hrun.
      { intros t. rewrite df_select_eq_run, Hmd. simpl default.
        rewrite select_eq_rows by exact Htag. eauto. }
      rewrite !elem_of_cons in Hin.
      destruct Hin as [->|[->|[->|Hin]]]; [| | |inversion Hin];
        unfold filter_outliers; simpl; apply Hrun.
    - rewrite filter_outliers_all; [eauto|..]; intros E; apply Hnin; rewrite E;
        repeat constructor. }
  erewrite bind_ok; [|exact Ef].
  erewrite bind_ok; [|reflexivity].
  destruct (target_column_detection_total d (length (frames s)) s5) as (t & s7 & Etd).
  erewrite bind_ok; [|exact Etd].
  erewrite bind_ok; [|reflexivity].
  eexists _, _. reflexivity.
Qed.
End Filter.

(** ** Overrides in the session are non-empty *)

Arguments session_key_of : simpl never.

#[export] Instance session_shrinks_preorder : PreOrder session_shrinks.
Proof.
  split; [intros s; unfold session_shrinks; reflexivity|].
  intros s1 s2 s3 H1 H2. unfold session_shrinks in *.
  exact (transitivity H2 H1).
Qed.

Lemma shrinks_new_frame f : maintains session_shrinks (new_frame f).
Proof. intros s. unfold session_shrinks. reflexivity. Qed.

Lemma shrinks_df_setitem r c v : maintains session_shrinks (df_setitem r c v).
Proof. intros s. unfold session_shrinks. reflexivity. Qed.

Lemma shrinks_session_pop k : maintains session_shrinks (session_pop k).
Proof. intros s. unfold session_shrinks. simpl. apply delete_subseteq. Qed.

#[export] Hint Resolve shrinks_new_frame shrinks_df_setitem shrinks_session_pop : maintains.

Lemma overrides_truthy_subseteq (ss ss' : gmap string string) :
  ss' ⊆ ss -> overrides_truthy ss -> overrides_truthy ss'.
Proof.
  intros Hsub Ht k v Hk. apply (Ht k v).
  eapply lookup_weaken; eauto.
Qed.

Section Session.
Context `{Q : Quality} `{P : Platform}.

Lemma shrinks_quality_issues args dataset_id :
  maintains session_shrinks (quality_issues args dataset_id).
Proof.
  unfold quality_issues, merged_outliers, tagged_selection, filter_outliers,
    target_column_detection, df_loc, df_copy, df_select_eq, pd_concat.
  cbv zeta. repeat maintains_step.
Qed.

(** The quality report never puts an empty override in the session. *)
Lemma quality_issues_overrides_truthy args dataset_id s :
  overrides_truthy (session s) ->
  overrides_truthy (session (quality_issues args dataset_id s).2).
Proof.
  apply overrides_truthy_subseteq, shrinks_quality_issues.
Qed.

(** Nor does the route that stores overrides: it refuses an empty
    [target_col]. *)
Lemma change_target_column_overrides_truthy current_user form dataset_id s :
  overrides_truthy (session s) ->
  overrides_truthy (session (change_target_column current_user form dataset_id s).2).
Proof.
  intros Ht. unfold change_target_column, mbind, M_bind, get_or_404.
  destruct (datasets s !! dataset_id) as [d|]; [|exact Ht]. simpl.
  destruct (Z.eqb (user_id d) current_user); simpl; [|exact Ht].
  destruct (form !! "target_col") as [t|] eqn:Hf; simpl; [|exact Ht].
  destruct (truthy t) eqn:Htt; simpl; [|exact Ht].
  intros k v Hk. destruct (decide (session_key_of d = k)) as [<-|Hne].
  - rewrite lookup_insert_eq in Hk. congruence.
  - rewrite lookup_insert_ne in Hk by exact Hne. eauto.
Qed.

(** A stored override is read back by the next quality report of the
    same dataset. *)
Lemma change_target_column_stores current_user form dataset_id s d target :
  datasets s !! dataset_id = Some d ->
  user_id d = current_user ->
  form !! "target_col" = Some target ->
  target <> EmptyString ->
  session (change_target_column current_user form dataset_id s).2
    !! session_key_of d = Some target.
Proof.
  intros Hd Hu Hf Hne. unfold change_target_column, mbind, M_bind, get_or_404.
  rewrite Hd. simpl. rewrite Hu, Z.eqb_refl. simpl. rewrite Hf. simpl.
  destruct target; [congruence|]. simpl. apply lookup_insert_eq.
Qed.
End Session.

(** ** The routes on the demonstration dataset *)

Section Examples.
#[local] Existing Instance Demo.installation.

(** A decidable fact about closed data, by evaluation. *)
Ltac by_evaluation :=
  match goal with
  | |- ?P => apply (bool_decide_unpack P); vm_compute; exact I
  end.

(** C1.  Dataset 7 loads, no detector flags a row, and the request asks
    for one category: the route raises [KeyError], whichever of the
    three categories is asked for, instead of returning a report. *)
Theorem quality_issues_raises_on_category_without_outliers :
  Forall (fun sel =>
            (quality_issues (Q:=Demo.quiet) (P:=Demo.installation)
               {[ "filter" := sel ]} 7 Demo.start).1
            = Raise (KeyError "__outlier_type__"))
    ["statistical"; "ai"; "structural"].
Proof. repeat constructor; vm_compute; reflexivity. Qed.

(** The same request without the parameter returns a report that says
    no outlier was found. *)
Example quality_issues_without_filter_returns :
  exists rep s',
    quality_issues (Q:=Demo.quiet) (P:=Demo.installation) ∅ 7 Demo.start = (Ok rep, s')
    /\ merged_table rep = "<p>No outliers found for this category.</p>".
Proof.
  destruct (quality_issues (Q:=Demo.quiet) (P:=Demo.installation) ∅ 7 Demo.start)
    as [[rep|e] s'] eqn:E; [|vm_compute in E; discriminate].
  exists rep, s'. split; [reflexivity|].
  vm_compute in E. injection E as <- _. reflexivity.
Qed.

Lemma outlier_total_is_union_size_witness :
  exists rep s',
    quality_issues (Q:=Demo.flagging) (P:=Demo.installation) ∅ 7 Demo.start = (Ok rep, s')
    /\ outlier_total rep = PInt 2
    /\ statistical_count rep + semantic_count rep + structural_count rep = 3.
Proof.
  destruct (quality_issues (Q:=Demo.flagging) (P:=Demo.installation) ∅ 7 Demo.start)
    as [[rep|e] s'] eqn:E; [|vm_compute in E; discriminate].
  assert (datasets Demo.start !! 7%Z = Some Demo.people_csv) as H1
    by (vm_compute; reflexivity).
  assert (load_df (P:=Demo.installation)
            (path_join UPLOAD_FOLDER (filename Demo.people_csv))
            (original_filename Demo.people_csv) = Ok Demo.people) as H2
    by (vm_compute; reflexivity).
  assert (detect_outliers (Quality:=Demo.flagging) Demo.people
          = detect_outliers_spec ∅ {[ 4%Z ]} {[ 2%Z; 4%Z ]}) as H3 by reflexivity.
  destruct (outlier_total_is_union_size (Q:=Demo.flagging) (P:=Demo.installation)
              ∅ 7 Demo.start rep s' Demo.people_csv Demo.people
              ∅ {[ 4%Z ]} {[ 2%Z; 4%Z ]} E H1 H2 H3)
    as (T & C1 & C2 & C3 & _).
  exists rep, s'. split; [reflexivity|]. rewrite T, C1, C2, C3.
  split; vm_compute; reflexivity.
Defined.

(** C5 as it is stated fails on a selector that is not one of the three
    strings but becomes one in lower case: [STATISTICAL] is none of
    ["statistical"], ["ai"], ["structural"], yet on a merged frame
    whose only row is tagged ["Structural"] the view is not the merged
    frame: it is a new frame without any row. *)
Lemma filter_outliers_other_selector_counterexample :
  let args : gmap string string := {[ "filter" := "STATISTICAL" ]} in
  let s := with_frames [Demo.merged_structural] Demo.start in
  args !! "filter" <> Some "statistical"
  /\ args !! "filter" <> Some "ai"
  /\ args !! "filter" <> Some "structural"
  /\ map tag_of (rows Demo.merged_structural) = [PStr "Structural"]
  /\ filter_outliers (selected_filter_of args) 0 s <> (Ok 0, s)
  /\ exists view s',
       filter_outliers (selected_filter_of args) 0 s = (Ok view, s')
       /\ (rows <$> frames s' !! view) = Some [].
Proof.
  intros args s.
  split; [vm_compute; discriminate|]. split; [vm_compute; discriminate|].
  split; [vm_compute; discriminate|]. split; [vm_compute; reflexivity|].
  split; [vm_compute; discriminate|].
  eexists _, _. split; vm_compute; reflexivity.
Qed.

Lemma filter_outliers_by_category_witness :
  (exists view s',
     filter_outliers (selected_filter_of {[ "filter" := "Structural" ]}) 0
       (with_frames [Demo.merged_structural] Demo.start) = (Ok view, s')
     /\ (rows <$> frames s' !! view) = Some (rows Demo.merged_structural))
  /\ filter_outliers (selected_filter_of {[ "filter" := "none" ]}) 0
       (with_frames [empty_frame] Demo.start)
     = (Ok 0, with_frames [empty_frame] Demo.start).
Proof.
  split.
  - assert (frames (with_frames [Demo.merged_structural] Demo.start) !! 0
            = Some Demo.merged_structural) as H1 by reflexivity.
    assert ("__outlier_type__" ∈ columns Demo.merged_structural) as H2 by by_evaluation.
    destruct (filter_outliers_by_category {[ "filter" := "Structural" ]}
                (with_frames [Demo.merged_structural] Demo.start) 0
                Demo.merged_structural H1) as (Hcat & _).
    destruct (Hcat H2) as (_ & _ & Hst).
    assert (selected_filter_of {[ "filter" := "Structural" ]} = "structural") as H3
      by (vm_compute; reflexivity).
    eexists _, _. split; [exact (Hst H3)|]. vm_compute. reflexivity.
  - assert (frames (with_frames [empty_frame] Demo.start) !! 0 = Some empty_frame) as H1
      by reflexivity.
    destruct (filter_outliers_by_category {[ "filter" := "none" ]}
                (with_frames [empty_frame] Demo.start) 0 empty_frame H1)
      as (_ & Hother & _).
    apply Hother; vm_compute; discriminate.
Defined.

(** C6 as it is stated fails on a name without a dot: the name [csv]
    has no extension, so its extension is none of [xlsx], [xls] and
    [csv], yet [load_df] does not raise: it reads the file as CSV. *)
Lemma load_df_dotless_name_counterexample :
  contains_char "."%char "csv" = false
  /\ extension_after_last_dot "csv" = EmptyString
  /\ (lower (extension_after_last_dot "csv") ∉ ["xlsx"; "xls"; "csv"])
  /\ load_df "uploads/7_people.csv" "csv" = Ok Demo.people.
Proof.
  split; [reflexivity|]. split; [reflexivity|].
  split; [by_evaluation | vm_compute; reflexivity].
Qed.

Lemma load_df_by_extension_witness :
  load_df "uploads/8_latin.csv" "Latin.CSV" = Ok Demo.people
  /\ load_df "uploads/7_people.csv" "people.tar.gz"
     = Raise (ValueError "Unsupported file extension: gz")
  /\ file_ext "XLS" = "xls".
Proof.
  split; [|split].
  - destruct (load_df_by_extension "uploads/8_latin.csv" "Latin.CSV")
      as (_ & _ & _ & _ & Hcsv & _).
    assert (file_ext "Latin.CSV" = "csv") as H1 by (vm_compute; reflexivity).
    assert (read_csv "uploads/8_latin.csv" UTF8 = Raise UnicodeDecodeError) as H2
      by (vm_compute; reflexivity).
    rewrite (proj1 (Hcsv H1) H2). vm_compute. reflexivity.
  - destruct (load_df_by_extension "uploads/7_people.csv" "people.tar.gz")
      as (Hext & _ & _ & _ & _ & Hother).
    assert (file_ext "people.tar.gz" = "gz") as H1
      by (rewrite (Hext "people.tar" "gz"); vm_compute; reflexivity).
    assert (file_ext "people.tar.gz" <> "xlsx") as H2 by (rewrite H1; discriminate).
    assert (file_ext "people.tar.gz" <> "xls") as H3 by (rewrite H1; discriminate).
    assert (file_ext "people.tar.gz" <> "csv") as H4 by (rewrite H1; discriminate).
    rewrite (proj1 (Hother H2 H3 H4)), H1. reflexivity.
  - destruct (load_df_by_extension "uploads/7_people.csv" "XLS")
      as (_ & Hdotless & _).
    assert (contains_char "."%char "XLS" = false) as H1 by reflexivity.
    rewrite (Hdotless H1). reflexivity.
Defined.

Lemma overview_metrics_default_to_unavailable_witness :
  (exists rep s',
     quality_issues (Q:=Demo.flagging) ∅ 7 Demo.start = (Ok rep, s')
     /\ y_missing_cells rep = PInt 0 /\ y_dup_rows rep = PStr "N/A")
  /\ (exists rep s',
        quality_issues (Q:=Demo.flagging) ∅ 8 Demo.start = (Ok rep, s')
        /\ y_missing_cells rep = PStr "N/A" /\ y_dup_rows rep = PStr "N/A").
Proof.
  split.
  - destruct (quality_issues (Q:=Demo.flagging) ∅ 7 Demo.start)
      as [[rep|e] s'] eqn:E; [|vm_compute in E; discriminate].
    assert (datasets Demo.start !! 7%Z = Some Demo.people_csv) as H1
      by (vm_compute; reflexivity).
    destruct (overview_metrics_default_to_unavailable (Q:=Demo.flagging)
                ∅ 7 Demo.start rep s' Demo.people_csv E H1) as (_ & Hyes).
    assert ("profile_7.html" <> EmptyString) as H2 by discriminate.
    destruct (Hyes "profile_7.html" eq_refl eq_refl H2) as (_ & Y1 & _ & Y3 & _).
    exists rep, s'. split; [reflexivity|]. rewrite Y1, Y3.
    split; vm_compute; reflexivity.
  - destruct (quality_issues (Q:=Demo.flagging) ∅ 8 Demo.start)
      as [[rep|e] s'] eqn:E; [|vm_compute in E; discriminate].
    assert (datasets Demo.start !! 8%Z = Some Demo.latin_csv) as H1
      by (vm_compute; reflexivity).
    destruct (overview_metrics_default_to_unavailable (Q:=Demo.flagging)
                ∅ 8 Demo.start rep s' Demo.latin_csv E H1) as (Hno & _).
    destruct (Hno (or_introl eq_refl)) as (_ & Y1 & _ & Y3 & _).
    exists rep, s'. split; [reflexivity|]. now rewrite Y1, Y3.
Defined.

Lemma quality_issues_leaves_dataset_witness :
  frames (quality_issues (Q:=Demo.flagging) {[ "filter" := "ai" ]} 7 Demo.start).2 !! 0
  = Some Demo.people.
Proof.
  assert (datasets Demo.start !! 7%Z = Some Demo.people_csv) as H1
    by (vm_compute; reflexivity).
  assert (load_df (path_join UPLOAD_FOLDER (filename Demo.people_csv))
            (original_filename Demo.people_csv) = Ok Demo.people) as H2
    by (vm_compute; reflexivity).
  exact (proj1 (quality_issues_leaves_dataset (Q:=Demo.flagging)
                  {[ "filter" := "ai" ]} 7 Demo.start Demo.people_csv Demo.people H1 H2)).
Defined.
End Examples.

(** ** File names: [allowed_file] against [load_df] *)

Lemma lower_ascii_idemp (c : ascii) : lower_ascii (lower_ascii c) = lower_ascii c.
Proof. destruct c as [[] [] [] [] [] [] [] []]; reflexivity. Qed.

Lemma lower_idemp (s : string) : lower (lower s) = lower s.
Proof.
  induction s as [|c s IH]; simpl; [reflexivity|].
  now rewrite lower_ascii_idemp, IH.
Qed.

Lemma allowed_file_split (name : string) :
  allowed_file name =
    match rsplit_last "."%char name with
    | Some (_, e) => bool_decide (lower e ∈ ["csv"; "xlsx"; "xls"])
    | None => false
    end.
Proof.
  unfold allowed_file, rsplit1.
  destruct (rsplit_last "."%char name) as [[h t]|] eqn:E.
  - destruct (rsplit_last_sound _ _ _ _ E) as [-> Ht].
    assert (contains_char "."%char (h +:+ String "."%char t) = true) as ->;
      [|reflexivity].
    clear E. induction h as [|c h IH]; simpl; [reflexivity|].
    rewrite IH. apply orb_true_r.
  - apply andb_false_r.
Qed.

Section Names.
Context `{P : Platform}.

(** X1.  [allowed_file] accepts exactly the names that have a dot and
    whose part after the last dot is, in lower case, one of the three
    allowed extensions. *)
Theorem allowed_file_iff (filename : string) :
  allowed_file filename = true <->
  exists stem e,
    filename = stem +:+ "." +:+ e /\ contains_char "."%char e = false /\
    lower e ∈ ["csv"; "xlsx"; "xls"].
Proof.
  rewrite allowed_file_split. split.
  - destruct (rsplit_last "."%char filename) as [[h t]|] eqn:E; [|discriminate].
    intros H. apply bool_decide_eq_true in H.
    destruct (rsplit_last_sound _ _ _ _ E) as [-> Ht]. eauto.
  - intros (stem & e & -> & He & Hin).
    change ("." +:+ e) with (String "."%char e).
    rewrite rsplit_last_present by exact He.
    now apply bool_decide_eq_true.
Qed.

(** X2.  A name that [allowed_file] accepts is never refused by
    [load_df]: the result is that of one of the readers, the Latin-1
    one only after the UTF-8 one raised [UnicodeDecodeError]. *)
Theorem allowed_file_load_df_reads (filepath filename : string) :
  allowed_file filename = true ->
  file_ext filename ∈ ["csv"; "xlsx"; "xls"] /\
  (load_df filepath filename = read_excel filepath
   \/ load_df filepath filename = read_csv filepath UTF8
   \/ (read_csv filepath UTF8 = Raise UnicodeDecodeError /\
       load_df filepath filename = read_csv filepath Latin1)).
Proof.
  rewrite allowed_file_split, file_ext_split.
  destruct (rsplit_last "."%char filename) as [[h t]|] eqn:E; [|discriminate].
  intros H. apply bool_decide_eq_true in H. split; [exact H|].
  unfold load_df. rewrite file_ext_split, E.
  rewrite !elem_of_cons in H. destruct H as [->|[->|[->|H]]]; [| | |inversion H]; simpl.
  - destruct (read_csv filepath UTF8) as [f|[]] eqn:R; auto.
  - now left.
  - now left.
Qed.

(** X3.  Both checks ignore the case of the name. *)
Theorem file_checks_ignore_case (filepath filename : string) :
  allowed_file (lower filename) = allowed_file filename /\
  load_df filepath (lower filename) = load_df filepath filename.
Proof.
  split.
  - rewrite !allowed_file_split, rsplit_last_lower.
    destruct (rsplit_last "."%char filename) as [[h t]|]; simpl; [|reflexivity].
    now rewrite lower_idemp.
  - unfold load_df, file_ext. now rewrite lower_idemp.
Qed.

(** X4.  The names [load_df] reads although [allowed_file] refuses
    them are exactly the names without a dot that are, in lower case,
    one of the three extensions themselves. *)
Theorem load_df_reads_dotless_names (filename : string) :
  (allowed_file filename = false /\ file_ext filename ∈ ["csv"; "xlsx"; "xls"]) <->
  (contains_char "."%char filename = false /\
   lower filename ∈ ["csv"; "xlsx"; "xls"]).
Proof.
  rewrite allowed_file_split, file_ext_split.
  destruct (rsplit_last "."%char filename) as [[h t]|] eqn:E.
  - destruct (rsplit_last_sound _ _ _ _ E) as [-> Ht]. split.
    + intros [Hf Hin]. apply bool_decide_eq_false in Hf. contradiction.
    + intros [Hc _]. exfalso. clear E.
      induction h as [|c h IH]; simpl in Hc.
      * discriminate.
      * apply orb_false_iff in Hc as [_ Hc]. auto.
  - split.
    + intros [_ Hin]. split; [|exact Hin].
      destruct (contains_char "."%char filename) eqn:Hc; [|reflexivity].
      destruct (rsplit_last_found _ _ Hc) as (h & t & Hs). congruence.
    + intros [_ Hin]. now split.
Qed.
End Names.

(** ** Overrides across the two routes *)

#[export] Instance drops_at_most_preorder key : PreOrder (drops_at_most key).
Proof.
  split.
  - intros s. unfold drops_at_most. auto.
  - intros s1 s2 s3 (A1 & B1 & C1) (A2 & B2 & C2).
    split; [|split; congruence].
    destruct A1 as [A1|A1], A2 as [A2|A2]; rewrite A2, A1; auto.
    right. apply delete_delete_eq.
Qed.

Lemma drops_new_frame key f : maintains (drops_at_most key) (new_frame f).
Proof. intros s. unfold drops_at_most. simpl. auto. Qed.

Lemma drops_df_setitem key r c v : maintains (drops_at_most key) (df_setitem r c v).
Proof. intros s. unfold drops_at_most. simpl. auto. Qed.

Lemma drops_session_pop key : maintains (drops_at_most key) (session_pop key).
Proof. intros s. unfold drops_at_most. simpl. auto. Qed.

#[export] Hint Resolve drops_new_frame drops_df_setitem drops_session_pop : maintains.

Lemma session_key_of_inj (d1 d2 : Dataset) :
  session_key_of d1 = session_key_of d2 <-> id d1 = id d2.
Proof.
  unfold session_key_of. split; [|now intros ->].
  intros H. apply String.app_inj in H. now apply pretty_Z_inj in H.
Qed.

Section Targets.
Context `{Q : Quality} `{P : Platform}.

(** What [change_target_column] does to the state. *)
Lemma change_target_column_effect current_user form dataset_id s :
  let s' := (change_target_column current_user form dataset_id s).2 in
  frames s' = frames s /\ datasets s' = datasets s /\
  (session s' = session s
   \/ exists d t,
        datasets s !! dataset_id = Some d /\ user_id d = current_user /\
        form !! "target_col" = Some t /\ t <> EmptyString /\
        session s' = <[session_key_of d := t]> (session s)).
Proof.
  unfold change_target_column, mbind, M_bind, get_or_404.
  destruct (datasets s !! dataset_id) as [d|] eqn:Hd; simpl; [|auto].
  destruct (Z.eqb_spec (user_id d) current_user) as [Hu|Hu]; simpl; [|auto].
  destruct (form !! "target_col") as [t|] eqn:Hf; simpl; [|auto].
  destruct t as [|c t]; simpl; [auto|].
  repeat split. right. exists d, (String c t). repeat split; auto; discriminate.
Qed.

(** X5.  [change_target_column] never touches the frames or the table,
    and changes the session only when the dataset exists, the caller
    owns it and [target_col] is a non-empty string: then it sets this
    dataset's key to it and nothing else. *)
Theorem change_target_column_session current_user form dataset_id s :
  let s' := (change_target_column current_user form dataset_id s).2 in
  frames s' = frames s /\ datasets s' = datasets s /\
  (session s' = session s
   \/ exists d t,
        datasets s !! dataset_id = Some d /\ user_id d = current_user /\
        form !! "target_col" = Some t /\ t <> EmptyString /\
        session s' = <[session_key_of d := t]> (session s)).
Proof. apply change_target_column_effect. Qed.

(** X6.  The key of an override is the dataset's id in decimal after a
    fixed prefix, so two datasets share a key only if they share their
    id; whatever is posted for one dataset, target detection for a
    dataset with another id answers as before. *)
Theorem overrides_do_not_cross_datasets current_user form dataset_id s d2 df :
  (forall d1, session_key_of d1 = session_key_of d2 <-> id d1 = id d2) /\
  ((forall d1, datasets s !! dataset_id = Some d1 -> id d1 <> id d2) ->
   (target_column_detection d2 df
      (change_target_column current_user form dataset_id s).2).1
   = (target_column_detection d2 df s).1).
Proof.
  split; [intros d1; apply session_key_of_inj|]. intros Hother.
  destruct (change_target_column_effect current_user form dataset_id s)
    as (Hf & _ & Hs).
  rewrite !target_column_detection_run. cbv zeta. rewrite Hf.
  assert (session (change_target_column current_user form dataset_id s).2
            !! session_key_of d2 = session s !! session_key_of d2) as ->.
  { destruct Hs as [->|(d1 & t & Hd & _ & _ & _ & ->)]; [reflexivity|].
    apply lookup_insert_ne. intros E. apply session_key_of_inj in E.
    exact (Hother d1 Hd E). }
  destruct (session s !! session_key_of d2) as [o|]; [|reflexivity].
  destruct (truthy o); [|reflexivity]. now case_bool_decide.
Qed.

(** X7.  An override its owner posts is what the next quality report
    of that dataset detects when it is one of the dataset's columns,
    and the session keeps it; when it is not a column, the report
    falls back on automatic detection and the session is left without
    an entry for this dataset. *)
Theorem posted_override_round_trip
    current_user form args dataset_id s d F t rep s2 :
  datasets s !! dataset_id = Some d ->
  user_id d = current_user ->
  form !! "target_col" = Some t ->
  t <> EmptyString ->
  load_df (path_join UPLOAD_FOLDER (filename d)) (original_filename d) = Ok F ->
  let s1 := (change_target_column current_user form dataset_id s).2 in
  quality_issues args dataset_id s1 = (Ok rep, s2) ->
  (t ∈ columns F -> detected_target rep = Some t /\ session s2 = session s1) /\
  (t ∉ columns F ->
     detected_target rep = auto_detect_target_column F /\
     session s2 = delete (session_key_of d) (session s)).
Proof.
  intros Hd Hu Hf Hne HF s1 Hrun.
  assert (session s1 !! session_key_of d = Some t) as Hkey
    by now apply change_target_column_stores.
  destruct (change_target_column_effect current_user form dataset_id s)
    as (_ & Hds & Hs). fold s1 in Hds, Hs.
  assert (session s1 = <[session_key_of d := t]> (session s)) as Hs1.
  { destruct Hs as [E|(d' & t' & Hd' & _ & Hf' & _ & E)].
    - apply map_eq. intros k. destruct (decide (k = session_key_of d)) as [->|Hk].
      + now rewrite lookup_insert_eq.
      + rewrite lookup_insert_ne by congruence. now rewrite E.
    - congruence. }
  apply quality_issues_inv in Hrun
    as (d' & F' & s3 & Hd' & HF' & Hdf & (Hss & _ & _) & Ht & _).
  rewrite Hds in Hd'. assert (d' = d) as -> by congruence.
  assert (F' = F) as -> by congruence.
  rewrite target_column_detection_run in Ht. cbv zeta in Ht.
  rewrite Hdf, Hss, Hkey in Ht. simpl in Ht.
  assert (truthy t = true) as Htt by (destruct t; [congruence | reflexivity]).
  rewrite Htt in Ht. split.
  - intros Hin. rewrite bool_decide_true in Ht by exact Hin.
    injection Ht as <- <-. auto.
  - intros Hnin. rewrite bool_decide_false in Ht by exact Hnin.
    injection Ht as <- <-. split; [reflexivity|]. simpl.
    rewrite Hs1. apply delete_insert_eq.
Qed.

(** The two ways the route stops before the dataset is loaded. *)
Lemma quality_issues_stops_early args dataset_id s :
  (datasets s !! dataset_id = None ->
     quality_issues args dataset_id s = (Raise NotFound404, s)) /\
  (forall d e,
     datasets s !! dataset_id = Some d ->
     load_df (path_join UPLOAD_FOLDER (filename d)) (original_filename d) = Raise e ->
     quality_issues args dataset_id s = (Raise e, s)).
Proof.
  split.
  - intros Hd. unfold quality_issues. cbv zeta.
    erewrite bind_raise; [reflexivity|]. unfold get_or_404. now rewrite Hd.
  - intros d e Hd HF. unfold quality_issues. cbv zeta.
    erewrite bind_ok; [|unfold get_or_404; now rewrite Hd].
    erewrite bind_raise; [reflexivity|]. unfold lift. now rewrite HF.
Qed.

(** X8.  The report fails fast: without a row for the id the route
    raises [NotFound404], and when [load_df] raises, the route raises
    the same exception; in both cases nothing was changed. *)
Theorem quality_issues_fails_fast args dataset_id s :
  (datasets s !! dataset_id = None ->
     quality_issues args dataset_id s = (Raise NotFound404, s)) /\
  (forall d e,
     datasets s !! dataset_id = Some d ->
     load_df (path_join UPLOAD_FOLDER (filename d)) (original_filename d) = Raise e ->
     quality_issues args dataset_id s = (Raise e, s)).
Proof. apply quality_issues_stops_early. Qed.

(** X9.  However the request ends, the quality report leaves the table
    and the flashed messages alone, and the session as it was or
    without the override of the dataset it reports on. *)
Theorem quality_issues_read_only args dataset_id s :
  let s' := (quality_issues args dataset_id s).2 in
  datasets s' = datasets s /\ flashes s' = flashes s /\
  (session s' = session s
   \/ exists d, datasets s !! dataset_id = Some d /\
                session s' = delete (session_key_of d) (session s)).
Proof.
  intros s'. subst s'.
  destruct (datasets s !! dataset_id) as [d|] eqn:Hd.
  - unfold quality_issues. cbv zeta.
    erewrite bind_ok; [|unfold get_or_404; now rewrite Hd].
    match goal with
    | |- context [(?m s).2] =>
        assert (maintains (drops_at_most (session_key_of d)) m) as Hm
    end.
    { unfold merged_outliers, tagged_selection, filter_outliers,
        target_column_detection, df_loc, df_copy, df_select_eq, pd_concat.
      cbv zeta. repeat maintains_step. }
    destruct (Hm s) as (A & B & C).
    split; [exact C|]. split; [exact B|].
    destruct A as [A|A]; [now left | right; eauto].
  - destruct (quality_issues_stops_early args dataset_id s) as [H _].
    rewrite (H Hd). simpl. auto.
Qed.
End Targets.

(** ** The merged frame and its category views *)

Lemma reindex_labels (rs : list (Z * gmap string pyval)) :
  map fst (reindex rs) = map Z.of_nat (seq 0 (length rs)).
Proof.
  unfold reindex.
  assert (forall (g : nat -> nat),
            map fst (imap (fun i r => (Z.of_nat (g i), r.2)) rs)
            = map (fun i => Z.of_nat (g i)) (seq 0 (length rs))) as H.
  { induction rs as [|r rs IH]; intros g; simpl; [reflexivity|].
    f_equal. rewrite <- seq_shift, map_map. apply (IH (fun i => g (S i))). }
  apply (H (fun i => i)).
Qed.

Lemma reindex_length (rs : list (Z * gmap string pyval)) :
  length (reindex rs) = length rs.
Proof. unfold reindex. apply length_imap. Qed.

Lemma filter_reindex (p : gmap string pyval -> bool) (rs : list (Z * gmap string pyval)) :
  map snd (List.filter (fun r => p r.2) (reindex rs)) = List.filter p (map snd rs).
Proof.
  unfold reindex.
  assert (forall (g : nat -> nat),
            map snd (List.filter (fun r => p r.2)
                       (imap (fun i r => (Z.of_nat (g i), r.2)) rs))
            = List.filter p (map snd rs)) as H.
  { induction rs as [|r rs IH]; intros g; simpl; [reflexivity|].
    destruct (p r.2); simpl; [f_equal|]; apply (IH (fun i => g (S i))). }
  apply (H (fun i => i)).
Qed.

Lemma tagged_tag (t : string) (c : gmap string pyval) :
  default NaN (tagged t c !! "__outlier_type__") = PStr t.
Proof. unfold tagged. now rewrite lookup_insert_eq. Qed.

Lemma filter_tagged_same (f : DataFrame) (t : string) (idx : list Z) :
  List.filter (fun c => bool_decide (default NaN (c !! "__outlier_type__") = PStr t))
    (map (fun l => tagged t (row_at f l)) idx)
  = map (fun l => tagged t (row_at f l)) idx.
Proof.
  induction idx as [|l idx IH]; simpl; [reflexivity|].
  rewrite tagged_tag, bool_decide_true by reflexivity. now rewrite IH.
Qed.

Lemma filter_tagged_other (f : DataFrame) (t t' : string) (idx : list Z) :
  t' <> t ->
  List.filter (fun c => bool_decide (default NaN (c !! "__outlier_type__") = PStr t))
    (map (fun l => tagged t' (row_at f l)) idx)
  = [].
Proof.
  intros Hne. induction idx as [|l idx IH]; simpl; [reflexivity|].
  rewrite tagged_tag, bool_decide_false by congruence. exact IH.
Qed.

Lemma union_columns_known (seen : list string) (fs : list DataFrame) :
  Forall (fun f => forall c, c ∈ columns f -> c ∈ seen) fs ->
  union_columns seen fs = seen.
Proof.
  induction 1 as [|f fs Hf _ IH]; simpl; [reflexivity|].
  assert (List.filter (fun c => negb (bool_decide (c ∈ seen))) (columns f) = []) as ->.
  { induction (columns f) as [|c cs IHc]; simpl; [reflexivity|].
    rewrite bool_decide_true by (apply Hf; constructor). simpl.
    apply IHc. intros c' Hc'. apply Hf. now constructor. }
  now rewrite app_nil_r.
Qed.

Lemma union_columns_same (cols : list string) (f : DataFrame) (fs : list DataFrame) :
  Forall (fun g => columns g = cols) (f :: fs) ->
  union_columns [] (f :: fs) = cols.
Proof.
  intros H. apply Forall_cons in H as [Hf Hfs].
  change (union_columns [] (f :: fs))
    with (union_columns
            ([] ++ List.filter (fun c => negb (bool_decide (c ∈ @nil string))) (columns f))
            fs).
  assert (List.filter (fun c => negb (bool_decide (c ∈ @nil string))) (columns f)
          = columns f) as ->.
  { apply forallb_filter_id, forallb_forall. intros c _.
    rewrite bool_decide_false; [reflexivity|]. intros Hc. inversion Hc. }
  rewrite app_nil_l, Hf. apply union_columns_known.
  eapply Forall_impl; [exact Hfs|]. intros g -> c Hc. exact Hc.
Qed.

Lemma temps_of_columns (F : DataFrame) (stat sem struct : list Z) :
  Forall (fun g => columns g = columns (tag_frame "" F))
    (temps_of stat sem struct (selection F stat) (selection F sem) (selection F struct)).
Proof.
  unfold temps_of. rewrite !Forall_app.
  repeat split;
    match goal with |- Forall _ (if truthy_list ?l then _ else _) => destruct l end;
    simpl; repeat constructor.
Qed.

Lemma category_cells_of_view (sel : string) (F : DataFrame) (stat sem struct : list Z) :
  map snd (rows (category_view sel
                   (merged_of (temps_of stat sem struct (selection F stat)
                                 (selection F sem) (selection F struct)))))
  = category_cells sel F stat sem struct.
Proof.
  assert (rows (merged_of (temps_of stat sem struct (selection F stat)
                             (selection F sem) (selection F struct)))
          = reindex (flat_map rows (temps_of stat sem struct (selection F stat)
                                      (selection F sem) (selection F struct)))) as Hrows.
  { unfold merged_of.
    destruct (temps_of stat sem struct _ _ _) as [|t ts]; reflexivity. }
  assert (forall t,
            map snd (rows (keep_tag t (merged_of (temps_of stat sem struct
                       (selection F stat) (selection F sem) (selection F struct)))))
            = List.filter
                (fun c => bool_decide (default NaN (c !! "__outlier_type__") = PStr t))
                (map (fun l => tagged "Statistical" (row_at F l)) stat
                 ++ map (fun l => tagged "AI-Based" (row_at F l)) sem
                 ++ map (fun l => tagged "Structural" (row_at F l)) struct)) as Hkeep.
  { intros t. unfold keep_tag. cbn [rows]. rewrite Hrows. unfold tag_of, cell.
    etrans;
      [exact (filter_reindex
                (fun c => bool_decide (default NaN (c !! "__outlier_type__") = PStr t))
                _)|].
    now rewrite rows_temps_of, !map_app, !map_map. }
  unfold category_view, category_cells.
  destruct (String.eqb sel "statistical");
    [|destruct (String.eqb sel "ai"); [|destruct (String.eqb sel "structural")]].
  - rewrite Hkeep, !List.filter_app, filter_tagged_same,
      !filter_tagged_other by discriminate.
    now rewrite !app_nil_r.
  - rewrite Hkeep, !List.filter_app, filter_tagged_same,
      !filter_tagged_other by discriminate.
    now rewrite app_nil_r.
  - rewrite Hkeep, !List.filter_app, filter_tagged_same,
      !filter_tagged_other by discriminate.
    reflexivity.
  - rewrite Hrows, reindex_cells, rows_temps_of, !map_app, !map_map. reflexivity.
Qed.

Lemma category_view_columns (sel : string) (Mf : DataFrame) :
  columns (category_view sel Mf) = columns Mf.
Proof.
  unfold category_view.
  destruct (String.eqb sel "statistical"); [reflexivity|].
  destruct (String.eqb sel "ai"); [reflexivity|].
  now destruct (String.eqb sel "structural").
Qed.

Section Views.
Context `{Q : Quality} `{P : Platform}.

(** The filter on a merged frame that has the tag column. *)
Lemma filter_outliers_view s md Mf sel :
  frames s !! md = Some Mf ->
  "__outlier_type__" ∈ columns Mf ->
  exists fd s',
    filter_outliers sel md s = (Ok fd, s') /\
    frames s' !! fd = Some (category_view sel Mf) /\
    frames s `prefix_of` frames s' /\ session_kept s s'.
Proof.
  intros Hmd Htag.
  assert (forall t, exists fd s',
             df_select_eq md "__outlier_type__" t s = (Ok fd, s') /\
             frames s' !! fd = Some (keep_tag t Mf) /\
             frames s `prefix_of` frames s' /\ session_kept s s') as Hsel.
  { intros t. rewrite df_select_eq_run, Hmd. simpl default.
    rewrite select_eq_rows by exact Htag.
    eexists _, _. split; [reflexivity|]. simpl.
    split; [now apply list_lookup_middle|].
    split; [now apply prefix_app_r | now repeat split]. }
  unfold filter_outliers, category_view.
  destruct (String.eqb sel "statistical"); [apply Hsel|].
  destruct (String.eqb sel "ai"); [apply Hsel|].
  destruct (String.eqb sel "structural"); [apply Hsel|].
  exists md, s. repeat split; auto.
Qed.

(** X10.  Over a dataset with unique row labels that has every flagged
    label, [merged_df] has one row per flagged label and detector, so
    as many rows as the three counts of the report add up to; its rows
    are renumbered from 0; and when something is flagged its columns
    are the dataset's, followed by ["__outlier_type__"] unless the
    dataset already has a column of that name, which the tag then
    overwrites in the view.  When nothing is flagged it is the frame
    without rows or columns. *)
Theorem merged_frame_shape s df F structural_idx statistical_idx semantic_idx :
  frames s !! df = Some F ->
  unique_labels F ->
  Forall (fun l => l ∈ labels F) statistical_idx ->
  Forall (fun l => l ∈ labels F) semantic_idx ->
  Forall (fun l => l ∈ labels F) structural_idx ->
  exists mr md s' Mf,
    merged_outliers df structural_idx statistical_idx semantic_idx s = (Ok (mr, md), s') /\
    frames s' !! md = Some Mf /\
    length (rows Mf)
      = length statistical_idx + length semantic_idx + length structural_idx /\
    labels Mf = map Z.of_nat (seq 0 (length (rows Mf))) /\
    (statistical_idx <> [] \/ semantic_idx <> [] \/ structural_idx <> [] ->
       columns Mf = if bool_decide ("__outlier_type__" ∈ columns F) then columns F
                    else columns F ++ ["__outlier_type__"]) /\
    (statistical_idx = [] -> semantic_idx = [] -> structural_idx = [] ->
       Mf = empty_frame).
Proof.
  intros Hdf Hu Hs Ha Ht.
  destruct (merged_outliers_unique s df F structural_idx statistical_idx semantic_idx
              Hdf Hu Hs Ha Ht) as (mr & md & s' & E & _ & Hmd & _).
  eexists mr, md, s', _. split; [exact E|]. split; [exact Hmd|].
  set (temps := temps_of statistical_idx semantic_idx structural_idx
                  (selection F statistical_idx) (selection F semantic_idx)
                  (selection F structural_idx)).
  assert (rows (merged_of temps) = reindex (flat_map rows temps)) as Hrows.
  { unfold merged_of. destruct temps as [|t ts]; reflexivity. }
  split; [|split; [|split]].
  - rewrite Hrows, reindex_length. subst temps.
    rewrite rows_temps_of, !length_app, !length_map. lia.
  - unfold labels. rewrite Hrows, reindex_labels. now rewrite reindex_length.
  - intros Hne.
    pose proof (temps_of_columns F statistical_idx semantic_idx structural_idx) as Hcols.
    fold temps in Hcols.
    assert (temps <> []) as Hnil.
    { subst temps. unfold temps_of.
      destruct statistical_idx; [|discriminate].
      destruct semantic_idx; [|discriminate].
      destruct structural_idx; [|discriminate].
      destruct Hne as [H|[H|H]]; congruence. }
    unfold merged_of. destruct temps as [|t ts]; [congruence|].
    change (truthy_list (t :: ts)) with true. cbv iota.
    unfold concat_ignore_index. cbn [columns].
    now rewrite (union_columns_same _ _ _ Hcols).
  - intros -> -> ->. reflexivity.
Qed.

(** The report of a request on a dataset with unique row labels that
    has every flagged label, when something is flagged: it is returned,
    and its table is that of the category view. *)
Lemma quality_issues_table args dataset_id s d F :
  datasets s !! dataset_id = Some d ->
  load_df (path_join UPLOAD_FOLDER (filename d)) (original_filename d) = Ok F ->
  let structural_idx := default [] (out_structural_indices (detect_outliers F)) in
  let statistical_idx := default [] (out_statistical_indices (detect_outliers F)) in
  let semantic_idx := default [] (out_semantic_indices (detect_outliers F)) in
  unique_labels F ->
  Forall (fun l => l ∈ labels F) structural_idx ->
  Forall (fun l => l ∈ labels F) statistical_idx ->
  Forall (fun l => l ∈ labels F) semantic_idx ->
  statistical_idx <> [] \/ semantic_idx <> [] \/ structural_idx <> [] ->
  exists rep s',
    quality_issues args dataset_id s = (Ok rep, s') /\
    merged_table rep
    = html_or "table table-bordered table-sm"
        (category_view (selected_filter_of args)
           (merged_of (temps_of statistical_idx semantic_idx structural_idx
                         (selection F statistical_idx) (selection F semantic_idx)
                         (selection F structural_idx))))
        "<p>No outliers found for this category.</p>".
Proof.
  intros Hd HF structural_idx statistical_idx semantic_idx Hu Ht Hs Ha Hne.
  unfold quality_issues. cbv zeta.
  erewrite bind_ok; [|unfold get_or_404; now rewrite Hd].
  erewrite bind_ok; [|unfold lift; now rewrite HF].
  erewrite bind_ok; [|reflexivity].
  erewrite bind_ok; [|reflexivity].
  simpl frames. rewrite list_lookup_middle by reflexivity. simpl default.
  fold structural_idx statistical_idx semantic_idx.
  destruct (merged_outliers_unique (with_frames (frames s ++ [F]) s) (length (frames s)) F
              structural_idx statistical_idx semantic_idx)
    as (mr & md & s4 & Em & _ & Hmd & Hdf & _); auto.
  { simpl. now apply list_lookup_middle. }
  erewrite bind_ok; [|exact Em]. cbv beta iota.
  destruct (filter_outliers_view s4 md _ (selected_filter_of args) Hmd
              (merged_of_has_tag _ _ _ _ _ _ Hne))
    as (fd & s5 & Ef & Hfd & _ & _).
  erewrite bind_ok; [|exact Ef].
  erewrite bind_ok; [|reflexivity].
  destruct (target_column_detection_total d (length (frames s)) s5) as (t & s7 & Etd).
  erewrite bind_ok; [|exact Etd].
  erewrite bind_ok; [|reflexivity].
  eexists _, _. split; [reflexivity|]. simpl. now rewrite Hfd.
Qed.

(** X11.  On a dataset with unique row labels that has every flagged
    label, and with something flagged, the request returns a report
    whatever the selector.  Its table shows the dataset's rows of the
    selected detector's list, in the order of that list and tagged
    with its category (or the three blocks one after the other for any
    other selector); when that list is empty it is the text that no
    outlier was found for the category. *)
Theorem report_table_of_category args dataset_id s d F :
  datasets s !! dataset_id = Some d ->
  load_df (path_join UPLOAD_FOLDER (filename d)) (original_filename d) = Ok F ->
  let structural_idx := default [] (out_structural_indices (detect_outliers F)) in
  let statistical_idx := default [] (out_statistical_indices (detect_outliers F)) in
  let semantic_idx := default [] (out_semantic_indices (detect_outliers F)) in
  unique_labels F ->
  Forall (fun l => l ∈ labels F) structural_idx ->
  Forall (fun l => l ∈ labels F) statistical_idx ->
  Forall (fun l => l ∈ labels F) semantic_idx ->
  statistical_idx <> [] \/ semantic_idx <> [] \/ structural_idx <> [] ->
  exists rep s' view,
    quality_issues args dataset_id s = (Ok rep, s') /\
    map snd (rows view)
      = category_cells (selected_filter_of args) F
          statistical_idx semantic_idx structural_idx /\
    "__outlier_type__" ∈ columns view /\
    merged_table rep
      = match category_cells (selected_filter_of args) F
                statistical_idx semantic_idx structural_idx with
        | [] => "<p>No outliers found for this category.</p>"
        | _ :: _ => to_html "table table-bordered table-sm" view
        end.
Proof.
  intros Hd HF structural_idx statistical_idx semantic_idx Hu Ht Hs Ha Hne.
  destruct (quality_issues_table args dataset_id s d F Hd HF Hu Ht Hs Ha Hne)
    as (rep & s' & E & Htab).
  fold structural_idx statistical_idx semantic_idx in Htab.
  set (Mf := merged_of (temps_of statistical_idx semantic_idx structural_idx
                          (selection F statistical_idx) (selection F semantic_idx)
                          (selection F structural_idx))) in *.
  exists rep, s', (category_view (selected_filter_of args) Mf).
  pose proof (category_cells_of_view (selected_filter_of args) F
                statistical_idx semantic_idx structural_idx) as Hcells.
  fold Mf in Hcells.
  assert ("__outlier_type__" ∈ columns (category_view (selected_filter_of args) Mf))
    as Htag by (rewrite category_view_columns; now apply merged_of_has_tag).
  split; [exact E|]. split; [exact Hcells|]. split; [exact Htag|].
  rewrite Htab, <- Hcells. unfold html_or, frame_is_empty.
  destruct (columns (category_view (selected_filter_of args) Mf)) as [|c cs];
    [inversion Htag|].
  now destruct (rows (category_view (selected_filter_of args) Mf)).
Qed.
End Views.

(** ** Profiles and deletion *)

Arguments profile_filename_of : simpl never.

Section World.
Context `{Q : Quality} `{P : Platform} `{S : Services}.

Lemma generate_profile_run dataset_id d w :
  generate_profile dataset_id d w =
    match import_ProfileReport with
    | Raise e => (Raise e, w)
    | Ok _ =>
        match load_df (path_join UPLOAD_FOLDER (filename d)) (original_filename d) with
        | Raise e => (Raise e, w)
        | Ok F =>
            match ProfileReport_to_file F ("Profile - " +:+ original_filename d)
                    (path_join UPLOAD_FOLDER (profile_filename_of d)) with
            | Raise e =>
                (Raise e, {| state := with_frames (frames (state w) ++ [F]) (state w);
                             files := files w |})
            | Ok _ => (Ok (profiled d), after_profile dataset_id d F w)
            end
        end
    end.
Proof.
  unfold generate_profile, mbind, W_bind, run, lift. cbv zeta.
  destruct w as [s fs]. simpl.
  destruct import_ProfileReport as [u|e]; simpl; [|reflexivity].
  destruct (load_df _ _) as [F|e]; simpl; [|reflexivity].
  rewrite list_lookup_middle by reflexivity. simpl.
  destruct (ProfileReport_to_file F _ _) as [u'|e]; reflexivity.
Qed.

Lemma profile_dataset_run current_user dataset_id w :
  profile_dataset current_user dataset_id w =
    match datasets (state w) !! dataset_id with
    | None => (Raise NotFound404, w)
    | Some d =>
        if negb (Z.eqb (user_id d) current_user) then
          (Ok (Redirect "dashboard" None), flashed "Access denied." "error" w)
        else if negb (profile_generated d) then
          match generate_profile dataset_id d w with
          | (Ok d', w') => (Ok (Render "profile.html" d'), w')
          | (Raise e, w') =>
              (Ok (Redirect "dashboard" None),
               flashed ("Error generating profile: " +:+ str_exn e) "error" w')
          end
        else (Ok (Render "profile.html" d), w)
    end.
Proof.
  unfold profile_dataset, mbind at 1, W_bind at 1, run at 1, get_or_404.
  destruct w as [s fs]. simpl.
  destruct (datasets s !! dataset_id) as [d|]; [|reflexivity].
  destruct (negb (Z.eqb (user_id d) current_user)); [reflexivity|].
  destruct (negb (profile_generated d)); [|reflexivity].
  unfold mbind, W_bind, try_except.
  destruct (generate_profile dataset_id d _) as [[d'|e] w']; reflexivity.
Qed.

Lemma remove_if_exists_run p w :
  remove_if_exists p w =
    if bool_decide (p ∈ files w) then
      match remove_error p with
      | Some e => (Raise e, w)
      | None => (Ok tt, {| state := state w; files := files w ∖ {[ p ]} |})
      end
    else (Ok tt, w).
Proof.
  unfold remove_if_exists, mbind, W_bind, os_path_exists, os_remove.
  destruct (bool_decide (p ∈ files w)) eqn:H; simpl; rewrite ?H; reflexivity.
Qed.

Lemma delete_dataset_run current_user dataset_id w :
  delete_dataset current_user dataset_id w =
    match datasets (state w) !! dataset_id with
    | None => (Raise NotFound404, w)
    | Some d =>
        if negb (Z.eqb (user_id d) current_user) then
          (Ok (Redirect "dashboard" None), flashed "Access denied." "error" w)
        else
          match remove_files d w with
          | (Ok _, w') =>
              (Ok (Redirect "dashboard" None),
               flashed "Dataset deleted." "success"
                 {| state := with_datasets (delete dataset_id (datasets (state w')))
                               (state w');
                    files := files w' |})
          | (Raise e, w') =>
              (Ok (Redirect "dashboard" None),
               flashed ("Error deleting dataset: " +:+ str_exn e) "error" w')
          end
    end.
Proof.
  unfold delete_dataset, mbind at 1, W_bind at 1, run at 1, get_or_404.
  destruct w as [s fs]. simpl.
  destruct (datasets s !! dataset_id) as [d|]; [|reflexivity].
  destruct (negb (Z.eqb (user_id d) current_user)); [reflexivity|].
  cbv zeta. unfold remove_files, mbind, W_bind, try_except.
  destruct (remove_if_exists _ _) as [[u|e] w1]; [|reflexivity].
  destruct (truthy_opt (profile_path d)).
  - destruct (remove_if_exists _ w1) as [[u'|e] w2]; reflexivity.
  - reflexivity.
Qed.

(** What the removals of [delete_dataset] can do to the disk. *)
Lemma remove_files_effect d w :
  let r := remove_files d w in
  state r.2 = state w /\
  files r.2 ⊆ files w /\
  (forall p, p ∈ files w -> p ∉ paths_of d -> p ∈ files r.2) /\
  (forall u, r.1 = Ok u -> forall p, p ∈ paths_of d -> p ∉ files r.2).
Proof.
  unfold remove_files, mbind, W_bind, paths_of. cbv zeta.
  rewrite remove_if_exists_run.
  set (a := path_join UPLOAD_FOLDER (filename d)).
  set (b := path_join UPLOAD_FOLDER (default EmptyString (profile_path d))).
  destruct (bool_decide (a ∈ files w)) eqn:Ha.
  - apply bool_decide_eq_true in Ha.
    destruct (remove_error a) as [e|]; simpl.
    + repeat split; auto; discriminate.
    + destruct (truthy_opt (profile_path d)); simpl.
      * rewrite remove_if_exists_run. simpl.
        destruct (bool_decide (b ∈ files w ∖ {[a]})) eqn:Hb.
        -- apply bool_decide_eq_true in Hb.
           destruct (remove_error b) as [e|]; simpl.
           ++ repeat split; [set_solver..|discriminate].
           ++ repeat split; set_solver.
        -- apply bool_decide_eq_false in Hb. simpl. repeat split; set_solver.
      * repeat split; set_solver.
  - apply bool_decide_eq_false in Ha. simpl.
    destruct (truthy_opt (profile_path d)); simpl.
    + rewrite remove_if_exists_run.
      destruct (bool_decide (b ∈ files w)) eqn:Hb.
      * apply bool_decide_eq_true in Hb.
        destruct (remove_error b) as [e|]; simpl.
        -- repeat split; [set_solver..|discriminate].
        -- repeat split; set_solver.
      * apply bool_decide_eq_false in Hb. simpl. repeat split; set_solver.
    + repeat split; set_solver.
Qed.
End World.

Section Lifecycle.
Context `{Q : Quality} `{P : Platform} `{S : Services}.

(** What [profile_dataset] can do to the table. *)
Lemma profile_dataset_table current_user dataset_id w d :
  datasets (state w) !! dataset_id = Some d ->
  datasets (state (profile_dataset current_user dataset_id w).2) = datasets (state w)
  \/ datasets (state (profile_dataset current_user dataset_id w).2)
     = <[dataset_id := profiled d]> (datasets (state w)).
Proof.
  intros Hd. rewrite profile_dataset_run, Hd.
  destruct (negb (Z.eqb (user_id d) current_user)); [now left|].
  destruct (negb (profile_generated d)); [|now left].
  rewrite generate_profile_run.
  destruct import_ProfileReport as [u|e0]; [|now left].
  destruct (load_df _ _) as [F|e0]; [|now left].
  destruct (ProfileReport_to_file F _ _) as [u'|e0]; [now right | now left].
Qed.

(** X12.  For a dataset that exists, [profile_dataset] never raises:
    whatever goes wrong while the profile is generated is flashed and
    answered with a redirect to the dashboard.  The session is left
    alone, and the table is either left alone or, for the owner of a
    dataset not yet profiled, has this dataset marked as profiled with
    the path of its profile, which then exists.  In particular a file
    [load_df] cannot read leaves the table as it was. *)
Theorem profile_dataset_never_raises current_user dataset_id w d :
  datasets (state w) !! dataset_id = Some d ->
  exists response w',
    profile_dataset current_user dataset_id w = (Ok response, w') /\
    session (state w') = session (state w) /\
    (datasets (state w') = datasets (state w)
     \/ (user_id d = current_user /\ profile_generated d = false /\
         response = Render "profile.html" (profiled d) /\
         datasets (state w') = <[dataset_id := profiled d]> (datasets (state w)) /\
         path_join UPLOAD_FOLDER (profile_filename_of d) ∈ files w')) /\
    (forall e,
       user_id d = current_user -> profile_generated d = false ->
       import_ProfileReport = Ok tt ->
       load_df (path_join UPLOAD_FOLDER (filename d)) (original_filename d) = Raise e ->
       response = Redirect "dashboard" None /\
       w' = flashed ("Error generating profile: " +:+ str_exn e) "error" w).
Proof.
  intros Hd. rewrite profile_dataset_run, Hd.
  assert (forall (response : Response) w',
            datasets (state w') = datasets (state w) ->
            session (state w') = session (state w) ->
            (forall e,
               user_id d = current_user -> profile_generated d = false ->
               import_ProfileReport = Ok tt ->
               load_df (path_join UPLOAD_FOLDER (filename d)) (original_filename d)
                 = Raise e ->
               response = Redirect "dashboard" None /\
               w' = flashed ("Error generating profile: " +:+ str_exn e) "error" w) ->
            exists response0 w0,
              (Ok response, w') = (Ok response0, w0) /\
              session (state w0) = session (state w) /\
              (datasets (state w0) = datasets (state w)
               \/ (user_id d = current_user /\ profile_generated d = false /\
                   response0 = Render "profile.html" (profiled d) /\
                   datasets (state w0)
                     = <[dataset_id := profiled d]> (datasets (state w)) /\
                   path_join UPLOAD_FOLDER (profile_filename_of d) ∈ files w0)) /\
              (forall e,
                 user_id d = current_user -> profile_generated d = false ->
                 import_ProfileReport = Ok tt ->
                 load_df (path_join UPLOAD_FOLDER (filename d)) (original_filename d)
                   = Raise e ->
                 response0 = Redirect "dashboard" None /\
                 w0 = flashed ("Error generating profile: " +:+ str_exn e) "error" w))
    as Hsame.
  { intros response w' Hds Hss Hfail. exists response, w'. auto. }
  destruct (Z.eqb_spec (user_id d) current_user) as [Hu|Hu]; simpl.
  2: { apply Hsame; [reflexivity..|]. intros; congruence. }
  destruct (profile_generated d) eqn:Hg; simpl.
  { apply Hsame; [reflexivity..|]. intros; congruence. }
  rewrite generate_profile_run.
  destruct import_ProfileReport as [u|e0] eqn:Hi.
  2: { apply Hsame; [reflexivity..|]. intros; congruence. }
  destruct (load_df _ _) as [F|e0] eqn:Hl.
  2: { apply Hsame; [reflexivity..|]. intros e _ _ _ [= ->]. auto. }
  destruct (ProfileReport_to_file F _ _) as [u'|e0] eqn:Ht.
  - eexists _, _. split; [reflexivity|]. simpl. split; [reflexivity|].
    split; [|intros; congruence].
    right. repeat split; auto. set_solver.
  - apply Hsame; [reflexivity..|]. intros; congruence.
Qed.

(** X13.  Once its owner had the profile of a dataset generated, the
    path the profile was written to is the path the other routes read:
    [view_profile] renders the report page, [profile_report] sends the
    file at that path, the quality report extracts its overview
    statistics from that path, and a second [profile_dataset] renders
    without generating anything again.  Other rows of the table are
    untouched. *)
Theorem profile_is_found_again current_user dataset_id w d F :
  datasets (state w) !! dataset_id = Some d ->
  user_id d = current_user ->
  profile_generated d = false ->
  import_ProfileReport = Ok tt ->
  load_df (path_join UPLOAD_FOLDER (filename d)) (original_filename d) = Ok F ->
  ProfileReport_to_file F ("Profile - " +:+ original_filename d)
    (path_join UPLOAD_FOLDER (profile_filename_of d)) = Ok tt ->
  let written := path_join UPLOAD_FOLDER (profile_filename_of d) in
  exists w',
    profile_dataset current_user dataset_id w
      = (Ok (Render "profile.html" (profiled d)), w') /\
    written ∈ files w' /\
    datasets (state w') !! dataset_id = Some (profiled d) /\
    (forall k, k <> dataset_id ->
       datasets (state w') !! k = datasets (state w) !! k) /\
    view_profile current_user dataset_id (state w')
      = (Ok (Render "view_report.html" (profiled d)), state w') /\
    profile_report current_user dataset_id w' = (Ok (SendFile written), w') /\
    ydata_summary (profiled d) = extract_ydata_overview_stats written /\
    profile_dataset current_user dataset_id w'
      = (Ok (Render "profile.html" (profiled d)), w').
Proof.
  intros Hd Hu Hg Hi Hl Ht written.
  exists (after_profile dataset_id d F w).
  assert (datasets (state (after_profile dataset_id d F w)) !! dataset_id
          = Some (profiled d)) as Hrow by (simpl; apply lookup_insert_eq).
  assert (Z.eqb (user_id d) current_user = true) as Hu' by now apply Z.eqb_eq.
  split; [|split; [|split; [|split; [|split; [|split; [|split]]]]]].
  - rewrite profile_dataset_run, Hd, Hu', Hg. simpl.
    now rewrite generate_profile_run, Hi, Hl, Ht.
  - simpl. set_solver.
  - exact Hrow.
  - intros k Hk. simpl. now apply lookup_insert_ne.
  - unfold view_profile, mbind, M_bind, get_or_404. rewrite Hrow. simpl.
    now rewrite Hu'.
  - unfold profile_report, mbind, W_bind, run, get_or_404. rewrite Hrow. simpl.
    rewrite Hu'. simpl. unfold send_file. simpl.
    rewrite bool_decide_true by set_solver. reflexivity.
  - unfold ydata_summary. simpl.
    unfold profile_filename_of at 1. reflexivity.
  - rewrite profile_dataset_run, Hrow. simpl. now rewrite Hu'.
Qed.

(** What [profile_report] answers. *)
Lemma profile_report_run current_user dataset_id w :
  profile_report current_user dataset_id w =
    match datasets (state w) !! dataset_id with
    | None => (Raise NotFound404, w)
    | Some d =>
        if negb (Z.eqb (user_id d) current_user) then (Ok (Plain "Access denied" 403), w)
        else if negb (profile_generated d) then (Ok (Plain "Profile not generated" 404), w)
        else
          match profile_path d with
          | None => (Raise (OtherError "TypeError"), w)
          | Some p =>
              if bool_decide (path_join UPLOAD_FOLDER p ∈ files w)
              then (Ok (SendFile (path_join UPLOAD_FOLDER p)), w)
              else (Raise (OtherError "FileNotFoundError"), w)
          end
    end.
Proof.
  unfold profile_report, mbind, W_bind, run, get_or_404. destruct w as [s fs]. simpl.
  destruct (datasets s !! dataset_id) as [d|]; [|reflexivity]. simpl.
  destruct (negb (Z.eqb (user_id d) current_user)); [reflexivity|].
  destruct (negb (profile_generated d)); [reflexivity|].
  destruct (profile_path d) as [p|]; reflexivity.
Qed.

(** X14.  That every dataset marked as profiled has a non-empty profile
    path is kept by [profile_dataset] and by [delete_dataset], however
    they end; and while it holds, [profile_report] on a dataset that
    exists never fails on the path: it answers, or the file of the
    recorded profile is not on disk and [send_file] raises
    [FileNotFoundError].  Either way nothing is changed. *)
Theorem profiled_datasets_have_a_path current_user dataset_id w :
  profiled_have_path (datasets (state w)) ->
  profiled_have_path (datasets (state (profile_dataset current_user dataset_id w).2)) /\
  profiled_have_path (datasets (state (delete_dataset current_user dataset_id w).2)) /\
  (forall d, datasets (state w) !! dataset_id = Some d ->
     (exists response,
        profile_report current_user dataset_id w = (Ok response, w) /\
        forall p, response = SendFile p ->
          p ∈ files w /\ user_id d = current_user /\
          exists name, profile_path d = Some name /\ p = path_join UPLOAD_FOLDER name)
     \/ (exists name,
           user_id d = current_user /\ profile_generated d = true /\
           profile_path d = Some name /\
           path_join UPLOAD_FOLDER name ∉ files w /\
           profile_report current_user dataset_id w
             = (Raise (OtherError "FileNotFoundError"), w))).
Proof.
  intros Hinv. split; [|split].
  - destruct (datasets (state w) !! dataset_id) as [d|] eqn:Hd.
    + destruct (profile_dataset_table current_user dataset_id w d Hd)
        as [E|E]; rewrite E; [exact Hinv|].
      intros k d' Hk Hg. destruct (decide (k = dataset_id)) as [->|Hne].
      * rewrite lookup_insert_eq in Hk. injection Hk as <-.
        exists (profile_filename_of d). split; [reflexivity|].
        unfold profile_filename_of. discriminate.
      * rewrite lookup_insert_ne in Hk by congruence. eauto.
    + rewrite profile_dataset_run, Hd. exact Hinv.
  - rewrite delete_dataset_run.
    destruct (datasets (state w) !! dataset_id) as [d|] eqn:Hd; [|exact Hinv].
    destruct (negb (Z.eqb (user_id d) current_user)); [exact Hinv|].
    pose proof (remove_files_effect d w) as (Hst & _). cbv zeta in Hst.
    destruct (remove_files d w) as [[u|e] w1]; simpl in *; rewrite Hst.
    + intros k d' Hk. apply lookup_delete_Some in Hk as [_ Hk]. eauto.
    + exact Hinv.
  - intros d Hd. rewrite profile_report_run, Hd.
    destruct (Z.eqb_spec (user_id d) current_user) as [Hu|Hu]; simpl.
    2: { left. eexists. split; [reflexivity|]. intros p [=]. }
    destruct (profile_generated d) eqn:Hg; simpl.
    2: { left. eexists. split; [reflexivity|]. intros p [=]. }
    destruct (Hinv _ _ Hd Hg) as (name & Hp & _). rewrite Hp.
    case_bool_decide as Hin.
    + left. eexists. split; [reflexivity|]. intros p [= <-]. eauto.
    + right. exists name. auto.
Qed.
End Lifecycle.

Section Deletion.
Context `{Q : Quality} `{P : Platform} `{S : Services}.

(** X15.  A user who does not own a dataset changes nothing through
    [profile_dataset], [delete_dataset], [change_target_column] or
    [view_profile] but the flashed messages, is sent to the dashboard
    by all four, and gets 403 from [profile_report]. *)
Theorem strangers_change_nothing current_user form dataset_id w d :
  datasets (state w) !! dataset_id = Some d ->
  user_id d <> current_user ->
  let denied := flashed "Access denied." "error" w in
  profile_dataset current_user dataset_id w = (Ok (Redirect "dashboard" None), denied) /\
  delete_dataset current_user dataset_id w = (Ok (Redirect "dashboard" None), denied) /\
  change_target_column current_user form dataset_id (state w)
    = (Ok (Redirect "dashboard" None), state denied) /\
  view_profile current_user dataset_id (state w)
    = (Ok (Redirect "dashboard" None), state denied) /\
  profile_report current_user dataset_id w = (Ok (Plain "Access denied" 403), w) /\
  datasets (state denied) = datasets (state w) /\
  session (state denied) = session (state w) /\
  frames (state denied) = frames (state w) /\
  files denied = files w.
Proof.
  intros Hd Hu denied.
  assert (negb (Z.eqb (user_id d) current_user) = true) as Hneq.
  { destruct (Z.eqb_spec (user_id d) current_user); [contradiction | reflexivity]. }
  repeat split.
  - rewrite profile_dataset_run, Hd. now rewrite Hneq.
  - rewrite delete_dataset_run, Hd. now rewrite Hneq.
  - unfold change_target_column, mbind, M_bind, get_or_404. rewrite Hd. simpl.
    now rewrite Hneq.
  - unfold view_profile, mbind, M_bind, get_or_404. rewrite Hd. simpl.
    now rewrite Hneq.
  - rewrite profile_report_run, Hd. now rewrite Hneq.
Qed.

(** X16.  For a dataset that exists, [delete_dataset] never raises and
    always answers with a redirect to the dashboard.  It leaves the
    session (the dataset's override included) and the frames alone;
    the table is as it was or without this dataset's row; and on disk
    only the dataset's file and its profile can be missing afterwards. *)
Theorem delete_dataset_never_raises current_user dataset_id w d :
  datasets (state w) !! dataset_id = Some d ->
  exists w',
    delete_dataset current_user dataset_id w = (Ok (Redirect "dashboard" None), w') /\
    session (state w') = session (state w) /\
    frames (state w') = frames (state w) /\
    (datasets (state w') = datasets (state w)
     \/ datasets (state w') = delete dataset_id (datasets (state w))) /\
    files w' ⊆ files w /\
    (forall p, p ∈ files w -> p ∉ paths_of d -> p ∈ files w').
Proof.
  intros Hd. rewrite delete_dataset_run, Hd.
  destruct (negb (Z.eqb (user_id d) current_user)).
  { eexists. split; [reflexivity|]. simpl. repeat split; auto. }
  pose proof (remove_files_effect d w) as (Hst & Hsub & Hkeep & _).
  cbv zeta in Hst, Hsub, Hkeep.
  destruct (remove_files d w) as [[u|e] w1]; simpl in *;
    (eexists; split; [reflexivity|]); simpl; rewrite Hst; repeat split; auto.
Qed.

(** X17.  When its owner deletes a dataset and [os.remove] does not
    fail on its files, the row is gone, so that every route answers
    404 for the id from then on; the dataset's file and its profile
    are not on disk any more, whether or not they were before; every
    other row and file is as it was. *)
Theorem delete_dataset_removes current_user args dataset_id w d :
  datasets (state w) !! dataset_id = Some d ->
  user_id d = current_user ->
  (forall p, p ∈ paths_of d -> remove_error p = None) ->
  exists w',
    delete_dataset current_user dataset_id w = (Ok (Redirect "dashboard" None), w') /\
    datasets (state w') = delete dataset_id (datasets (state w)) /\
    files w' = files w ∖ paths_of d /\
    quality_issues args dataset_id (state w') = (Raise NotFound404, state w') /\
    profile_dataset current_user dataset_id w' = (Raise NotFound404, w') /\
    delete_dataset current_user dataset_id w' = (Raise NotFound404, w').
Proof.
  intros Hd Hu Hrm.
  assert (negb (Z.eqb (user_id d) current_user) = false) as Hown
    by (rewrite Hu, Z.eqb_refl; reflexivity).
  assert (exists w1, remove_files d w = (Ok tt, w1)
                     /\ state w1 = state w /\ files w1 = files w ∖ paths_of d)
    as (w1 & Hrun & Hst & Hfiles).
  { unfold remove_files, mbind, W_bind.
    assert (forall p w0, p ∈ paths_of d ->
              remove_if_exists p w0
              = (Ok tt, {| state := state w0; files := files w0 ∖ {[ p ]} |})) as Hone.
    { intros p w0 Hp. rewrite remove_if_exists_run, (Hrm p Hp).
      case_bool_decide as Hin; [reflexivity|].
      destruct w0 as [s0 f0]. simpl in *. do 2 f_equal. set_solver. }
    unfold paths_of in *.
    rewrite Hone by set_solver.
    destruct (truthy_opt (profile_path d)).
    - rewrite Hone by set_solver. eexists. split; [reflexivity|]. simpl.
      split; [reflexivity|]. set_solver.
    - eexists. split; [reflexivity|]. simpl. split; [reflexivity|]. set_solver. }
  eexists. split; [rewrite delete_dataset_run, Hd, Hown, Hrun; reflexivity|].
  simpl. rewrite Hst.
  assert (delete dataset_id (datasets (state w)) !! dataset_id = None) as Hgone
    by apply lookup_delete_eq.
  repeat split.
  - exact Hfiles.
  - apply quality_issues_stops_early. exact Hgone.
  - rewrite profile_dataset_run. simpl. now rewrite Hgone.
  - rewrite delete_dataset_run. simpl. now rewrite Hgone.
Qed.

(** X18.  Deletion is not atomic: when the dataset's file is removed
    and [os.remove] then fails on its profile, the error is flashed,
    the row and the profile stay, and the dataset's file is gone. *)
Theorem delete_dataset_can_stop_halfway current_user dataset_id w d p e :
  datasets (state w) !! dataset_id = Some d ->
  user_id d = current_user ->
  profile_path d = Some p -> p <> EmptyString ->
  let data := path_join UPLOAD_FOLDER (filename d) in
  let profile := path_join UPLOAD_FOLDER p in
  data ∈ files w -> profile ∈ files w -> data <> profile ->
  remove_error data = None ->
  remove_error profile = Some e ->
  exists w',
    delete_dataset current_user dataset_id w = (Ok (Redirect "dashboard" None), w') /\
    datasets (state w') = datasets (state w) /\
    files w' = files w ∖ {[ data ]} /\
    profile ∈ files w' /\
    flashes (state w')
      = flashes (state w) ++ [("Error deleting dataset: " +:+ str_exn e, "error")].
Proof.
  intros Hd Hu Hp Hne data profile Hdata Hprofile Hdiff Hrd Hrp.
  assert (negb (Z.eqb (user_id d) current_user) = false) as Hown
    by (rewrite Hu, Z.eqb_refl; reflexivity).
  assert (truthy_opt (profile_path d) = true) as Htr
    by (rewrite Hp; destruct p; [congruence | reflexivity]).
  assert (remove_files d w
          = (Raise e, {| state := state w; files := files w ∖ {[ data ]} |})) as Hrun.
  { unfold remove_files, mbind, W_bind. rewrite remove_if_exists_run.
    fold data. rewrite bool_decide_true by exact Hdata. rewrite Hrd, Htr, Hp.
    simpl default. fold profile. rewrite remove_if_exists_run. simpl files.
    rewrite bool_decide_true by set_solver. now rewrite Hrp. }
  eexists. split; [rewrite delete_dataset_run, Hd, Hown, Hrun; reflexivity|].
  simpl. repeat split. set_solver.
Qed.
End Deletion.

(** ** The merged table and the target, through the route *)

Lemma loc_rows_present (f : DataFrame) (idx : list Z) :
  Forall (fun l => l ∈ labels f) idx ->
  loc_rows f idx = Ok (flat_map (rows_labelled f) idx).
Proof.
  induction 1 as [|l idx Hl _ IH]; [reflexivity|].
  cbn [loc_rows flat_map]. unfold loc_label. rewrite IH.
  pose proof (filter_label_present _ _ Hl) as Hne.
  change (List.filter (fun r => Z.eqb r.1 l) (rows f)) with (rows_labelled f l) in *.
  destruct (rows_labelled f l); [congruence | reflexivity].
Qed.

(** [df.loc[idx]] only succeeds on a frame that has every label of
    [idx]. *)
Lemma loc_ok_present (f : DataFrame) (idx : list Z) (g : DataFrame) :
  loc f idx = Ok g -> Forall (fun l => l ∈ labels f) idx.
Proof.
  unfold loc. destruct (loc_rows f idx) as [rs|e] eqn:E; [|discriminate].
  intros _. revert rs E. induction idx as [|l idx IH]; intros rs E; [constructor|].
  cbn [loc_rows] in E. unfold loc_label in E.
  destruct (decide (l ∈ labels f)) as [Hl|Hl].
  - constructor; [exact Hl|].
    destruct (loc_rows f idx) as [rest|e]; [eauto|].
    destruct (List.filter _ (rows f)); discriminate.
  - rewrite (filter_label_absent _ _ Hl) in E. discriminate.
Qed.

(** [df.loc[idx]] on a frame that has every label of [idx], whether or
    not its labels repeat. *)
Lemma loc_present (f : DataFrame) (idx : list Z) :
  Forall (fun l => l ∈ labels f) idx -> loc f idx = Ok (picked f idx).
Proof. intros H. unfold loc. now rewrite loc_rows_present. Qed.

(** With labels that do not repeat, that is one row per label. *)
Lemma picked_unique (f : DataFrame) (idx : list Z) :
  unique_labels f -> Forall (fun l => l ∈ labels f) idx ->
  picked f idx = selection f idx.
Proof.
  intros Hu Hi. pose proof (loc_unique f idx Hu Hi) as E1.
  rewrite (loc_present f idx Hi) in E1. unfold selection. congruence.
Qed.

Lemma picked_cells_unique (t : string) (f : DataFrame) (idx : list Z) :
  unique_labels f -> Forall (fun l => l ∈ labels f) idx ->
  picked_cells t f idx = map (fun l => tagged t (row_at f l)) idx.
Proof.
  intros Hu Hi. unfold picked_cells. rewrite picked_unique by assumption.
  unfold selection. cbn [rows]. now rewrite map_map.
Qed.

Lemma picked_block_tag (f : DataFrame) (t : string) (idx : list Z)
    (c : gmap string pyval) :
  c ∈ picked_cells t f idx -> c !! "__outlier_type__" = Some (PStr t).
Proof.
  intros H. apply list_elem_of_fmap in H as (r & -> & _).
  unfold tagged. apply lookup_insert_eq.
Qed.

(** The cells of the frames of [merged_rows], block by block. *)
Lemma rows_temps_picked (f : DataFrame) (stat sem struct : list Z) :
  map snd (flat_map rows (temps_of stat sem struct
                            (picked f stat) (picked f sem) (picked f struct)))
  = picked_cells "Statistical" f stat
    ++ picked_cells "AI-Based" f sem
    ++ picked_cells "Structural" f struct.
Proof.
  unfold temps_of. rewrite !flat_map_app, !map_app.
  assert (forall t idx,
            map snd (flat_map rows
                       (if truthy_list idx then [tag_frame t (picked f idx)] else []))
            = picked_cells t f idx) as H.
  { intros t [|i idx]; [reflexivity|].
    change (truthy_list (i :: idx)) with true. cbv iota.
    change (flat_map rows [tag_frame t (picked f (i :: idx))])
      with (rows (tag_frame t (picked f (i :: idx))) ++ []).
    rewrite app_nil_r. unfold tag_frame, set_column, picked_cells. cbn [rows].
    now rewrite map_map. }
  now rewrite !H.
Qed.

Lemma category_view_all (sel : string) (Mf : DataFrame) :
  sel ∉ ["statistical"; "ai"; "structural"] -> category_view sel Mf = Mf.
Proof.
  intros H. unfold category_view.
  destruct (String.eqb_spec sel "statistical") as [->|_];
    [exfalso; apply H; repeat constructor|].
  destruct (String.eqb_spec sel "ai") as [->|_];
    [exfalso; apply H; repeat constructor|].
  destruct (String.eqb_spec sel "structural") as [->|_];
    [exfalso; apply H; repeat constructor|].
  reflexivity.
Qed.

Section RouteFacts.
Context `{Q : Quality} `{P : Platform}.

(** The references one block adds to [merged_rows] are new objects. *)
Lemma block_fresh s df idx tag (mr mr' : list nat) s' n :
  (if truthy_list idx
   then tagged_selection df idx tag ≫= (fun temp => mret (mr ++ [temp]))
   else mret mr) s = (Ok mr', s') ->
  n < length (frames s) ->
  Forall (fun r => n < r) mr ->
  Forall (fun r => n < r) mr' /\ n < length (frames s').
Proof.
  intros E Hn Hmr. destruct (truthy_list idx).
  - apply bind_inv in E as (temp & s1 & E1 & E2).
    rewrite tagged_selection_run in E1.
    destruct (loc _ idx) as [g|e]; [|discriminate].
    injection E1 as <- <-. injection E2 as <- <-. split.
    + apply Forall_app. split; [exact Hmr|]. repeat constructor. lia.
    + simpl. rewrite length_app. simpl. lia.
  - injection E as <- <-. auto.
Qed.

(** A block that does not raise was given labels of the dataset. *)
Lemma block_present s df F idx tag (mr mr' : list nat) s' :
  (if truthy_list idx
   then tagged_selection df idx tag ≫= (fun temp => mret (mr ++ [temp]))
   else mret mr) s = (Ok mr', s') ->
  frames s !! df = Some F ->
  Forall (fun l => l ∈ labels F) idx /\ frames s' !! df = Some F.
Proof.
  intros E Hdf. destruct idx as [|i idx].
  - injection E as _ <-. split; [constructor | exact Hdf].
  - change (truthy_list (i :: idx)) with true in E. cbv iota in E.
    apply bind_inv in E as (temp & s1 & E1 & E2).
    rewrite tagged_selection_run, Hdf in E1. simpl default in E1.
    destruct (loc F (i :: idx)) as [g|e] eqn:Eg; [|discriminate].
    injection E1 as _ <-. injection E2 as _ <-. split.
    + eapply loc_ok_present; exact Eg.
    + simpl. eapply prefix_lookup_Some; [exact Hdf | now apply prefix_app_r].
Qed.

Lemma merged_outliers_present s df F a b c res s' :
  merged_outliers df a b c s = (Ok res, s') ->
  frames s !! df = Some F ->
  Forall (fun l => l ∈ labels F) a /\
  Forall (fun l => l ∈ labels F) b /\
  Forall (fun l => l ∈ labels F) c.
Proof.
  unfold merged_outliers. cbv zeta. intros E Hdf.
  apply bind_inv in E as (mr1 & s1 & E1 & E).
  apply bind_inv in E as (mr2 & s2 & E2 & E).
  apply bind_inv in E as (mr3 & s3 & E3 & _).
  destruct (block_present _ _ _ _ _ _ _ _ E1 Hdf) as [Hb D1].
  destruct (block_present _ _ _ _ _ _ _ _ E2 D1) as [Hc D2].
  destruct (block_present _ _ _ _ _ _ _ _ E3 D2) as [Ha _].
  auto.
Qed.

(** So are the frames of [merged_rows] and [merged_df]. *)
Lemma merged_outliers_fresh s df a b c mr md s' n :
  merged_outliers df a b c s = (Ok (mr, md), s') ->
  n < length (frames s) ->
  Forall (fun r => n < r) mr /\ n < md.
Proof.
  unfold merged_outliers. cbv zeta. intros E Hn.
  apply bind_inv in E as (mr1 & s1 & E1 & E).
  apply bind_inv in E as (mr2 & s2 & E2 & E).
  apply bind_inv in E as (mr3 & s3 & E3 & E).
  apply bind_inv in E as (md' & s4 & E4 & E).
  injection E as <- <- <-.
  destruct (block_fresh _ _ _ _ _ _ _ n E1 Hn) as [F1 N1]; [constructor|].
  destruct (block_fresh _ _ _ _ _ _ _ n E2 N1 F1) as [F2 N2].
  destruct (block_fresh _ _ _ _ _ _ _ n E3 N2 F2) as [F3 N3].
  split; [exact F3|].
  destruct (truthy_list mr3).
  - unfold pd_concat in E4. apply bind_inv in E4 as (fs & s5 & E5 & E6).
    pose proof (maintains_mapM_read frames_kept mr3 s3) as Hk.
    rewrite E5 in Hk. simpl in Hk. apply prefix_length in Hk.
    unfold new_frame in E6. injection E6 as <- _. lia.
  - unfold new_frame in E4. injection E4 as <- _. exact N3.
Qed.

(** What the route builds on a dataset that has every flagged label:
    the frames of [merged_rows] and [merged_df] are new objects of the
    store, the tagged copies of the three selections and their
    concatenation; a report that is returned shows the category view
    of [merged_df]; and a report is returned unless nothing is flagged
    and one of the three categories is asked for. *)
Lemma quality_issues_merged args dataset_id s d F :
  datasets s !! dataset_id = Some d ->
  load_df (path_join UPLOAD_FOLDER (filename d)) (original_filename d) = Ok F ->
  let structural_idx := default [] (out_structural_indices (detect_outliers F)) in
  let statistical_idx := default [] (out_statistical_indices (detect_outliers F)) in
  let semantic_idx := default [] (out_semantic_indices (detect_outliers F)) in
  Forall (fun l => l ∈ labels F) structural_idx ->
  Forall (fun l => l ∈ labels F) statistical_idx ->
  Forall (fun l => l ∈ labels F) semantic_idx ->
  let temps := temps_of statistical_idx semantic_idx structural_idx
                 (picked F statistical_idx) (picked F semantic_idx)
                 (picked F structural_idx) in
  let run := quality_issues args dataset_id s in
  exists mr md,
    Forall (fun r => length (frames s) < r) mr /\
    length (frames s) < md /\
    Forall2 (fun r f => frames run.2 !! r = Some f) mr temps /\
    frames run.2 !! md = Some (merged_of temps) /\
    (forall rep, run.1 = Ok rep ->
       merged_table rep
       = html_or "table table-bordered table-sm"
           (category_view (selected_filter_of args) (merged_of temps))
           "<p>No outliers found for this category.</p>") /\
    ((statistical_idx <> [] \/ semantic_idx <> [] \/ structural_idx <> [])
     \/ selected_filter_of args ∉ ["statistical"; "ai"; "structural"] ->
     exists rep, run.1 = Ok rep).
Proof.
  intros Hd HF structural_idx statistical_idx semantic_idx Ht Hs Ha temps run.
  subst run. unfold quality_issues. cbv zeta.
  erewrite bind_ok; [|unfold get_or_404; now rewrite Hd].
  erewrite bind_ok; [|unfold lift; now rewrite HF].
  erewrite bind_ok; [|reflexivity].
  erewrite bind_ok; [|reflexivity].
  simpl frames. rewrite list_lookup_middle by reflexivity. simpl default.
  fold structural_idx statistical_idx semantic_idx.
  destruct (merged_outliers_ok (with_frames (frames s ++ [F]) s) (length (frames s)) F
              structural_idx statistical_idx semantic_idx
              (picked F statistical_idx) (picked F semantic_idx)
              (picked F structural_idx))
    as (mr & md & s4 & Em & Hmr & Hmd & Hdf & _); auto using loc_present.
  { simpl. now apply list_lookup_middle. }
  fold temps in Hmr, Hmd.
  destruct (merged_outliers_fresh _ _ _ _ _ _ _ _ (length (frames s)) Em) as [Hf1 Hf2].
  { simpl. rewrite length_app. simpl. lia. }
  erewrite bind_ok; [|exact Em]. cbv beta iota.
  exists mr, md. split; [exact Hf1|]. split; [exact Hf2|].
  assert ((exists fd s5,
             filter_outliers (selected_filter_of args) md s4 = (Ok fd, s5) /\
             frames s5 !! fd
               = Some (category_view (selected_filter_of args) (merged_of temps)) /\
             frames s4 `prefix_of` frames s5)
          \/ (filter_outliers (selected_filter_of args) md s4
                = (Raise (KeyError "__outlier_type__"), s4) /\
              ~ ((statistical_idx <> [] \/ semantic_idx <> [] \/ structural_idx <> [])
                 \/ selected_filter_of args ∉ ["statistical"; "ai"; "structural"])))
    as [(fd & s5 & Ef & Hfd & Hpre)|[Ef Hno]].
  { destruct (decide (selected_filter_of args ∈ ["statistical"; "ai"; "structural"]))
      as [Hin|Hnin].
    - destruct (decide (statistical_idx = [] /\ semantic_idx = [] /\ structural_idx = []))
        as [(E1 & E2 & E3)|Hsome].
      + right. split.
        * apply filter_outliers_on_empty; [|exact Hin].
          rewrite Hmd. subst temps. now rewrite E1, E2, E3.
        * intros [[H|[H|H]]|H]; congruence.
      + left.
        assert (statistical_idx <> [] \/ semantic_idx <> [] \/ structural_idx <> [])
          as Hne.
        { destruct statistical_idx; [|left; discriminate].
          destruct semantic_idx; [|right; left; discriminate].
          destruct structural_idx; [|right; right; discriminate].
          exfalso. now apply Hsome. }
        destruct (filter_outliers_view s4 md _ (selected_filter_of args) Hmd
                    (merged_of_has_tag _ _ _ _ _ _ Hne))
          as (fd & s5 & Ef & Hfd & Hpre & _).
        eauto 6.
    - left. exists md, s4. rewrite category_view_all by exact Hnin.
      split; [|split; [exact Hmd | reflexivity]].
      apply filter_outliers_all; intros E; apply Hnin; rewrite E; repeat constructor. }
  - erewrite bind_ok; [|exact Ef].
    erewrite bind_ok; [|reflexivity].
    destruct (target_column_detection_total d (length (frames s)) s5) as (t & s7 & Etd).
    pose proof (preserves_target_column_detection d (length (frames s)) s5) as Hp7.
    rewrite Etd in Hp7. simpl in Hp7.
    erewrite bind_ok; [|exact Etd].
    erewrite bind_ok; [|reflexivity].
    unfold mret, M_ret. cbn [fst snd].
    assert (frames s4 `prefix_of` frames s7) as Hpre7 by (etrans; eassumption).
    split; [|split; [|split]].
    + eapply Forall2_impl; [exact Hmr|]. intros r f Hr. simpl in Hr |- *.
      eapply prefix_lookup_Some; eassumption.
    + eapply prefix_lookup_Some; eassumption.
    + intros rep [= <-]. cbn [merged_table]. now rewrite Hfd.
    + intros _. eauto.
  - erewrite bind_raise; [|exact Ef]. cbn [fst snd].
    split; [exact Hmr|]. split; [exact Hmd|].
    split; [intros rep [=] | intros H; contradiction].
Qed.

(** A report that was returned: the target it shows and the session
    it leaves, by what the session held for the dataset. *)
Lemma quality_issues_target args dataset_id s rep s' d F :
  quality_issues args dataset_id s = (Ok rep, s') ->
  datasets s !! dataset_id = Some d ->
  load_df (path_join UPLOAD_FOLDER (filename d)) (original_filename d) = Ok F ->
  datasets s' = datasets s /\
  match session s !! session_key_of d with
  | Some o =>
      if truthy o then
        if bool_decide (o ∈ columns F)
        then detected_target rep = Some o /\ session s' = session s
        else detected_target rep = auto_detect_target_column F /\
             session s' = delete (session_key_of d) (session s)
      else detected_target rep = auto_detect_target_column F /\ session s' = session s
  | None => detected_target rep = auto_detect_target_column F /\ session s' = session s
  end.
Proof.
  intros Hrun Hd HF.
  apply quality_issues_inv in Hrun
    as (d' & F' & s1 & Hd' & HF' & Hdf & (Hss & _ & Hds) & Ht & _).
  assert (d' = d) as -> by congruence.
  assert (F' = F) as -> by congruence.
  rewrite target_column_detection_run in Ht. cbv zeta in Ht.
  rewrite Hdf, Hss in Ht. simpl in Ht.
  destruct (session s !! session_key_of d) as [o|].
  - destruct (truthy o).
    + case_bool_decide; injection Ht as <- <-; simpl; rewrite ?Hss; auto.
    + injection Ht as <- <-. auto.
  - injection Ht as <- <-. auto.
Qed.

(** A request that returns a report was given labels of the dataset
    by the three detectors. *)
Lemma quality_issues_present args dataset_id s rep s' d F :
  quality_issues args dataset_id s = (Ok rep, s') ->
  datasets s !! dataset_id = Some d ->
  load_df (path_join UPLOAD_FOLDER (filename d)) (original_filename d) = Ok F ->
  Forall (fun l => l ∈ labels F)
    (default [] (out_structural_indices (detect_outliers F))) /\
  Forall (fun l => l ∈ labels F)
    (default [] (out_statistical_indices (detect_outliers F))) /\
  Forall (fun l => l ∈ labels F)
    (default [] (out_semantic_indices (detect_outliers F))).
Proof.
  intros H Hd HF. unfold quality_issues in H. cbv zeta in H.
  erewrite bind_ok in H; [|unfold get_or_404; now rewrite Hd].
  erewrite bind_ok in H; [|unfold lift; now rewrite HF].
  erewrite bind_ok in H; [|reflexivity].
  erewrite bind_ok in H; [|reflexivity].
  simpl frames in H. rewrite list_lookup_middle in H by reflexivity.
  simpl default in H.
  apply bind_inv in H as (res & s4 & Em & _).
  eapply merged_outliers_present; [exact Em|].
  simpl. now apply list_lookup_middle.
Qed.

End RouteFacts.

Section RouteClaims.
Context `{Q : Quality} `{P : Platform}.

(** C2, amended.  Over a dataset whose row labels do not repeat, and
    when the three lists of flagged labels are lists of labels of that
    dataset, none repeating a label (the detectors return sets): the
    frames the request gathers in [merged_rows] are new objects that
    carry each flagged label once under each detector that flagged it,
    tagged with that detector's category, and under no other tag, so
    a label flagged by k detectors is there k times; each such row
    has the cells of the dataset's row of that label with the tag
    written in; [merged_df] is a new object with those rows in the
    same order; and the table of a returned report is rendered from
    the category view of [merged_df]. *)
Theorem merged_rows_once_per_detector args dataset_id s d F :
  datasets s !! dataset_id = Some d ->
  load_df (path_join UPLOAD_FOLDER (filename d)) (original_filename d) = Ok F ->
  let structural_idx := default [] (out_structural_indices (detect_outliers F)) in
  let statistical_idx := default [] (out_statistical_indices (detect_outliers F)) in
  let semantic_idx := default [] (out_semantic_indices (detect_outliers F)) in
  unique_labels F ->
  Forall (fun l => l ∈ labels F) structural_idx ->
  Forall (fun l => l ∈ labels F) statistical_idx ->
  Forall (fun l => l ∈ labels F) semantic_idx ->
  NoDup structural_idx -> NoDup statistical_idx -> NoDup semantic_idx ->
  let run := quality_issues args dataset_id s in
  exists mr md temps Mf,
    Forall (fun r => length (frames s) < r) mr /\
    length (frames s) < md /\
    Forall2 (fun r f => frames run.2 !! r = Some f) mr temps /\
    frames run.2 !! md = Some Mf /\
    (forall rep, run.1 = Ok rep ->
       merged_table rep
       = html_or "table table-bordered table-sm"
           (category_view (selected_filter_of args) Mf)
           "<p>No outliers found for this category.</p>") /\
    ((statistical_idx <> [] \/ semantic_idx <> [] \/ structural_idx <> [])
     \/ selected_filter_of args ∉ ["statistical"; "ai"; "structural"] ->
     exists rep, run.1 = Ok rep) /\
    map snd (rows Mf) = map snd (flat_map rows temps) /\
    Forall (fun r => exists t, r.2 = tagged t (row_at F r.1))
      (flat_map rows temps) /\
    (forall i,
       occurrences (i, PStr "Statistical") (provenance temps) = flagged i statistical_idx /\
       occurrences (i, PStr "AI-Based") (provenance temps) = flagged i semantic_idx /\
       occurrences (i, PStr "Structural") (provenance temps) = flagged i structural_idx) /\
    (forall i t, (i, t) ∈ provenance temps ->
       t = PStr "Statistical" \/ t = PStr "AI-Based" \/ t = PStr "Structural") /\
    (forall i,
       occurrences i (map fst (provenance temps))
       = flagged i statistical_idx + flagged i semantic_idx + flagged i structural_idx).
Proof.
  intros Hd HF structural_idx statistical_idx semantic_idx Hu Ht Hs Ha Nt Ns Na run.
  destruct (quality_issues_merged args dataset_id s d F Hd HF Ht Hs Ha)
    as (mr & md & Hf1 & Hf2 & Hmr & Hmd & Hrep & Hex).
  fold structural_idx statistical_idx semantic_idx run in Hmr, Hmd, Hrep, Hex.
  rewrite !picked_unique in Hmr, Hmd, Hrep by assumption.
  eexists mr, md, _, _.
  split; [exact Hf1|]. split; [exact Hf2|]. split; [exact Hmr|]. split; [exact Hmd|].
  split; [exact Hrep|]. split; [exact Hex|].
  split; [apply rows_merged_of|].
  rewrite provenance_temps_of, rows_temps_of.
  split; [|split; [|split]].
  - rewrite !Forall_app. repeat split; apply Forall_forall; intros r Hr;
      apply list_elem_of_fmap in Hr as (l & -> & _); simpl; eauto.
  - intros i. rewrite !occurrences_app.
    rewrite !occurrences_pair_same, !occurrences_pair_other by discriminate.
    rewrite (occurrences_NoDup i _ Ns), (occurrences_NoDup i _ Na),
      (occurrences_NoDup i _ Nt).
    repeat split; lia.
  - intros i t Hin. rewrite !elem_of_app in Hin.
    destruct Hin as [H|[H|H]]; apply list_elem_of_fmap in H as (l & [= -> ->] & _); auto.
  - intros i. rewrite !map_app, !occurrences_app, !occurrences_fst.
    rewrite (occurrences_NoDup i _ Ns), (occurrences_NoDup i _ Na),
      (occurrences_NoDup i _ Nt).
    lia.
Qed.

(** C4.  A request that returns a report, on a dataset for which the
    session holds a non-empty override: if the override is one of the
    dataset's columns, the target of the report is the override, and
    that whatever the analyzers are, automatic detection included,
    and the session is left as it was; if it is not, the target of
    the report is what automatic detection answers on the dataset. *)
Theorem manual_override_wins args dataset_id s rep s' d F o :
  quality_issues args dataset_id s = (Ok rep, s') ->
  datasets s !! dataset_id = Some d ->
  load_df (path_join UPLOAD_FOLDER (filename d)) (original_filename d) = Ok F ->
  session s !! session_key_of d = Some o ->
  o <> EmptyString ->
  (o ∈ columns F ->
     detected_target rep = Some o /\ session s' = session s /\
     forall (Q' : Quality) rep' s'',
       quality_issues (Q:=Q') args dataset_id s = (Ok rep', s'') ->
       detected_target rep' = Some o) /\
  (o ∉ columns F -> detected_target rep = auto_detect_target_column F).
Proof.
  intros Hrun Hd HF Ho Hne.
  assert (truthy o = true) as Ht by (destruct o; [congruence | reflexivity]).
  split.
  - intros Hin.
    assert (forall (Q' : Quality) rep' s'',
              quality_issues (Q:=Q') args dataset_id s = (Ok rep', s'') ->
              detected_target rep' = Some o /\ session s'' = session s) as Hall.
    { intros Q' rep' s'' Hrun'.
      destruct (quality_issues_target (Q:=Q') _ _ _ _ _ _ _ Hrun' Hd HF) as [_ H].
      rewrite Ho, Ht, bool_decide_true in H by exact Hin. exact H. }
    destruct (Hall Q rep s' Hrun) as [H1 H2].
    split; [exact H1|]. split; [exact H2|].
    intros Q' rep' s'' Hrun'. exact (proj1 (Hall Q' rep' s'' Hrun')).
  - intros Hnin.
    destruct (quality_issues_target _ _ _ _ _ _ _ Hrun Hd HF) as [_ H].
    rewrite Ho, Ht, bool_decide_false in H by exact Hnin. exact (proj1 H).
Qed.


(** C10.  A request without one of the three category selectors
    returns a report as soon as the flagged labels are labels of the
    dataset; and when it returns a report, the table is rendered from
    the unfiltered view, a new object of the store, whose rows are
    three blocks in this order: the rows of the statistical list
    tagged ["Statistical"], those of the semantic list tagged
    ["AI-Based"], those of the structural list tagged ["Structural"];
    each block follows the order of its list, with for each label the
    dataset's rows that carry it.  Hence a row of an earlier category
    stands before every row of a later one.  When the dataset's
    labels do not repeat, each block has one row per label of its
    list. *)
Theorem merged_rows_grouped_by_method args dataset_id s d F :
  datasets s !! dataset_id = Some d ->
  load_df (path_join UPLOAD_FOLDER (filename d)) (original_filename d) = Ok F ->
  let structural_idx := default [] (out_structural_indices (detect_outliers F)) in
  let statistical_idx := default [] (out_statistical_indices (detect_outliers F)) in
  let semantic_idx := default [] (out_semantic_indices (detect_outliers F)) in
  selected_filter_of args <> "statistical" ->
  selected_filter_of args <> "ai" ->
  selected_filter_of args <> "structural" ->
  (Forall (fun l => l ∈ labels F) structural_idx ->
   Forall (fun l => l ∈ labels F) statistical_idx ->
   Forall (fun l => l ∈ labels F) semantic_idx ->
   exists rep s', quality_issues args dataset_id s = (Ok rep, s')) /\
  (forall rep s', quality_issues args dataset_id s = (Ok rep, s') ->
   exists md view,
     length (frames s) < md /\
     frames s' !! md = Some view /\
     merged_table rep
     = html_or "table table-bordered table-sm" view
         "<p>No outliers found for this category.</p>" /\
     map snd (rows view)
       = picked_cells "Statistical" F statistical_idx
         ++ picked_cells "AI-Based" F semantic_idx
         ++ picked_cells "Structural" F structural_idx /\
     (forall i j ri rj,
        rows view !! i = Some ri -> rows view !! j = Some rj ->
        (tag_of ri = PStr "Statistical" /\ tag_of rj = PStr "AI-Based")
        \/ (tag_of ri = PStr "AI-Based" /\ tag_of rj = PStr "Structural")
        \/ (tag_of ri = PStr "Statistical" /\ tag_of rj = PStr "Structural") ->
        i < j) /\
     (unique_labels F ->
      map snd (rows view)
        = map (fun l => tagged "Statistical" (row_at F l)) statistical_idx
          ++ map (fun l => tagged "AI-Based" (row_at F l)) semantic_idx
          ++ map (fun l => tagged "Structural" (row_at F l)) structural_idx)).
Proof.
  intros Hd HF structural_idx statistical_idx semantic_idx F1 F2 F3.
  assert (selected_filter_of args ∉ ["statistical"; "ai"; "structural"]) as Hnin.
  { rewrite !not_elem_of_cons. repeat split; auto. apply not_elem_of_nil. }
  split.
  { intros Ht Hs Ha.
    destruct (quality_issues_merged args dataset_id s d F Hd HF Ht Hs Ha)
      as (mr & md & _ & _ & _ & _ & _ & Hex).
    destruct (Hex (or_intror Hnin)) as [rep Hok].
    destruct (quality_issues args dataset_id s) as [r s']. simpl in Hok. subst r.
    eauto. }
  intros rep s' E.
  destruct (quality_issues_present _ _ _ _ _ _ _ E Hd HF) as (Ht & Hs & Ha).
  fold structural_idx in Ht. fold statistical_idx in Hs. fold semantic_idx in Ha.
  destruct (quality_issues_merged args dataset_id s d F Hd HF Ht Hs Ha)
    as (mr & md & _ & Hf2 & _ & Hmd & Hrep & _).
  fold structural_idx statistical_idx semantic_idx in Hmd, Hrep.
  rewrite E in Hmd, Hrep. simpl in Hmd, Hrep.
  specialize (Hrep rep eq_refl). rewrite category_view_all in Hrep by exact Hnin.
  set (view := merged_of (temps_of statistical_idx semantic_idx structural_idx
                 (picked F statistical_idx) (picked F semantic_idx)
                 (picked F structural_idx))) in *.
  assert (map snd (rows view)
          = picked_cells "Statistical" F statistical_idx
            ++ picked_cells "AI-Based" F semantic_idx
            ++ picked_cells "Structural" F structural_idx) as Hrows.
  { subst view. now rewrite rows_merged_of, rows_temps_picked. }
  exists md, view.
  split; [exact Hf2|]. split; [exact Hmd|].
  split; [exact Hrep|]. split; [exact Hrows|]. split.
  - intros i j ri rj Hi Hj Htags.
    assert (forall k r, rows view !! k = Some r ->
              (k < length (picked_cells "Statistical" F statistical_idx)
               /\ tag_of r = PStr "Statistical")
              \/ (length (picked_cells "Statistical" F statistical_idx) <= k
                  < length (picked_cells "Statistical" F statistical_idx)
                    + length (picked_cells "AI-Based" F semantic_idx)
                  /\ tag_of r = PStr "AI-Based")
              \/ (length (picked_cells "Statistical" F statistical_idx)
                  + length (picked_cells "AI-Based" F semantic_idx) <= k
                  /\ tag_of r = PStr "Structural")) as Hpos.
    { intros k r Hk.
      assert (map snd (rows view) !! k = Some r.2) as Hk'
        by (rewrite list_lookup_fmap, Hk; reflexivity).
      rewrite Hrows in Hk'. apply lookup_three_blocks in Hk'.
      unfold tag_of, cell.
      destruct Hk' as [[Hlt Hin]|[[Hlt Hin]|[Hlt Hin]]];
        apply picked_block_tag in Hin; rewrite Hin; simpl; auto. }
    apply Hpos in Hi, Hj.
    destruct Htags as [[Ti Tj]|[[Ti Tj]|[Ti Tj]]]; rewrite Ti in Hi; rewrite Tj in Hj;
      destruct Hi as [[Hi ?]|[[Hi ?]|[Hi ?]]]; try discriminate;
      destruct Hj as [[Hj ?]|[[Hj ?]|[Hj ?]]]; try discriminate; lia.
  - intros Hu. rewrite Hrows. now rewrite !picked_cells_unique by assumption.
Qed.
End RouteClaims.

(** ** The route claims on the demonstration dataset *)

Section RouteExamples.
#[local] Existing Instance Demo.installation.

Ltac by_evaluation :=
  match goal with
  | |- ?P => apply (bool_decide_unpack P); vm_compute; exact I
  end.

(** C2 as it is stated fails on a dataset whose row labels repeat.
    The file of dataset 6 reads as three rows labelled 1, 1 and 2; the
    statistical detector flags label 1 and nothing else is flagged.
    The request returns a report, and the frame it gathered in
    [merged_rows] carries label 1 twice under ["Statistical"], although
    one detector flagged it once; [merged_df] has the two rows. *)
Lemma merged_rows_repeated_label_counterexample :
  let run := quality_issues (Q:=Demo.flagging_one) ∅ 6 Demo.ragged_start in
  let temp := tag_frame "Statistical" (picked Demo.ragged [1%Z]) in
  datasets Demo.ragged_start !! 6%Z = Some Demo.ragged_csv
  /\ load_df "uploads/6_ragged.csv" "ragged.csv" = Ok Demo.ragged
  /\ labels Demo.ragged = [1%Z; 1%Z; 2%Z]
  /\ default [] (out_statistical_indices
                   (detect_outliers (Quality:=Demo.flagging_one) Demo.ragged)) = [1%Z]
  /\ default [] (out_semantic_indices
                   (detect_outliers (Quality:=Demo.flagging_one) Demo.ragged)) = []
  /\ default [] (out_structural_indices
                   (detect_outliers (Quality:=Demo.flagging_one) Demo.ragged)) = []
  /\ (exists rep, run.1 = Ok rep)
  /\ frames run.2 !! 2 = Some temp
  /\ frames run.2 !! 3 = Some (merged_of [temp])
  /\ provenance [temp] = [(1%Z, PStr "Statistical"); (1%Z, PStr "Statistical")]
  /\ occurrences (1%Z, PStr "Statistical") (provenance [temp]) = 2
  /\ flagged 1%Z [1%Z] = 1
  /\ map tag_of (rows (merged_of [temp])) = [PStr "Statistical"; PStr "Statistical"].
Proof.
  intros run temp.
  split; [vm_compute; reflexivity|]. split; [vm_compute; reflexivity|].
  split; [reflexivity|]. split; [vm_compute; reflexivity|].
  split; [vm_compute; reflexivity|]. split; [vm_compute; reflexivity|].
  split.
  { destruct run as [[rep|e] s'] eqn:E; [eauto|]. vm_compute in E. discriminate. }
  split; [vm_compute; reflexivity|]. split; [vm_compute; reflexivity|].
  split; [vm_compute; reflexivity|]. split; [vm_compute; reflexivity|].
  split; vm_compute; reflexivity.
Qed.

Lemma merged_rows_once_per_detector_witness :
  exists rep temps,
    (quality_issues (Q:=Demo.flagging) ∅ 7 Demo.start).1 = Ok rep
    /\ occurrences (4%Z, PStr "Statistical") (provenance temps) = 1
    /\ occurrences (4%Z, PStr "AI-Based") (provenance temps) = 1
    /\ occurrences (4%Z, PStr "Structural") (provenance temps) = 0
    /\ occurrences 4%Z (map fst (provenance temps)) = 2
    /\ occurrences 0%Z (map fst (provenance temps)) = 0.
Proof.
  assert (datasets Demo.start !! 7%Z = Some Demo.people_csv) as H1
    by (vm_compute; reflexivity).
  assert (load_df (path_join UPLOAD_FOLDER (filename Demo.people_csv))
            (original_filename Demo.people_csv) = Ok Demo.people) as H2
    by (vm_compute; reflexivity).
  assert (unique_labels Demo.people) as H3 by (unfold unique_labels; by_evaluation).
  assert (Forall (fun l => l ∈ labels Demo.people)
            (default [] (out_structural_indices
                           (detect_outliers (Quality:=Demo.flagging) Demo.people))))
    as H4 by by_evaluation.
  assert (Forall (fun l => l ∈ labels Demo.people)
            (default [] (out_statistical_indices
                           (detect_outliers (Quality:=Demo.flagging) Demo.people))))
    as H5 by by_evaluation.
  assert (Forall (fun l => l ∈ labels Demo.people)
            (default [] (out_semantic_indices
                           (detect_outliers (Quality:=Demo.flagging) Demo.people))))
    as H6 by by_evaluation.
  assert (NoDup (default [] (out_structural_indices
                               (detect_outliers (Quality:=Demo.flagging) Demo.people))))
    as H7 by by_evaluation.
  assert (NoDup (default [] (out_statistical_indices
                               (detect_outliers (Quality:=Demo.flagging) Demo.people))))
    as H8 by by_evaluation.
  assert (NoDup (default [] (out_semantic_indices
                               (detect_outliers (Quality:=Demo.flagging) Demo.people))))
    as H9 by by_evaluation.
  destruct (merged_rows_once_per_detector (Q:=Demo.flagging) ∅ 7 Demo.start
              Demo.people_csv Demo.people H1 H2 H3 H4 H5 H6 H7 H8 H9)
    as (mr & md & temps & Mf & _ & _ & _ & _ & _ & Hex & _ & _ & Hocc & _ & Hall).
  destruct Hex as [rep Hrep]; [right; by_evaluation|].
  exists rep, temps. split; [exact Hrep|].
  destruct (Hocc 4%Z) as (O1 & O2 & O3).
  rewrite O1, O2, O3, (Hall 4%Z), (Hall 0%Z). vm_compute. auto.
Defined.

Lemma manual_override_wins_witness :
  (exists rep s',
     quality_issues (Q:=Demo.flagging) ∅ 7 (Demo.overridden "age") = (Ok rep, s')
     /\ detected_target rep = Some "age"
     /\ session s' = session (Demo.overridden "age"))
  /\ (exists rep s',
        quality_issues (Q:=Demo.flagging) ∅ 7 (Demo.overridden "income") = (Ok rep, s')
        /\ detected_target rep = Some "label").
Proof.
  assert (forall t, datasets (Demo.overridden t) !! 7%Z = Some Demo.people_csv) as H1
    by (intros t; vm_compute; reflexivity).
  assert (load_df (path_join UPLOAD_FOLDER (filename Demo.people_csv))
            (original_filename Demo.people_csv) = Ok Demo.people) as H2
    by (vm_compute; reflexivity).
  assert (forall t, session (Demo.overridden t) !! session_key_of Demo.people_csv
                    = Some t) as H3 by (intros t; vm_compute; reflexivity).
  assert ("age" <> EmptyString) as H4 by discriminate.
  assert ("income" <> EmptyString) as H5 by discriminate.
  assert ("age" ∈ columns Demo.people) as H6 by by_evaluation.
  assert ("income" ∉ columns Demo.people) as H7 by by_evaluation.
  split.
  - destruct (quality_issues (Q:=Demo.flagging) ∅ 7 (Demo.overridden "age"))
      as [[rep|e] s'] eqn:E; [|vm_compute in E; discriminate].
    destruct (manual_override_wins (Q:=Demo.flagging) ∅ 7 (Demo.overridden "age")
                rep s' Demo.people_csv Demo.people "age" E (H1 "age") H2 (H3 "age") H4)
      as (Hvalid & _).
    destruct (Hvalid H6) as (T1 & T2 & _).
    exists rep, s'. auto.
  - destruct (quality_issues (Q:=Demo.flagging) ∅ 7 (Demo.overridden "income"))
      as [[rep|e] s'] eqn:E; [|vm_compute in E; discriminate].
    destruct (manual_override_wins (Q:=Demo.flagging) ∅ 7 (Demo.overridden "income")
                rep s' Demo.people_csv Demo.people "income" E (H1 "income") H2
                (H3 "income") H5)
      as (_ & Hstale).
    exists rep, s'. split; [reflexivity|]. rewrite (Hstale H7). reflexivity.
Defined.



Lemma merged_rows_grouped_by_method_witness :
  exists rep s' md view,
    quality_issues (Q:=Demo.flagging_all) ∅ 7 Demo.start = (Ok rep, s')
    /\ frames s' !! md = Some view
    /\ map (fun c => c !! "__outlier_type__") (map snd (rows view))
       = [Some (PStr "Statistical"); Some (PStr "AI-Based"); Some (PStr "AI-Based");
          Some (PStr "Structural")]
    /\ default [] (out_semantic_indices
                     (detect_outliers (Quality:=Demo.flagging_all) Demo.people))
       = [4%Z; 2%Z]
    /\ map (fun c => c !! "age") (map snd (rows view))
       = [Some (PInt 1000); Some (PInt 1000); Some (PInt 24); Some (PInt 25)].
Proof.
  assert (datasets Demo.start !! 7%Z = Some Demo.people_csv) as H1
    by (vm_compute; reflexivity).
  assert (load_df (path_join UPLOAD_FOLDER (filename Demo.people_csv))
            (original_filename Demo.people_csv) = Ok Demo.people) as H2
    by (vm_compute; reflexivity).
  assert (Forall (fun l => l ∈ labels Demo.people)
            (default [] (out_structural_indices
                           (detect_outliers (Quality:=Demo.flagging_all) Demo.people))))
    as H3 by by_evaluation.
  assert (Forall (fun l => l ∈ labels Demo.people)
            (default [] (out_statistical_indices
                           (detect_outliers (Quality:=Demo.flagging_all) Demo.people))))
    as H4 by by_evaluation.
  assert (Forall (fun l => l ∈ labels Demo.people)
            (default [] (out_semantic_indices
                           (detect_outliers (Quality:=Demo.flagging_all) Demo.people))))
    as H5 by by_evaluation.
  assert (selected_filter_of ∅ <> "statistical") as H6 by discriminate.
  assert (selected_filter_of ∅ <> "ai") as H7 by discriminate.
  assert (selected_filter_of ∅ <> "structural") as H8 by discriminate.
  destruct (merged_rows_grouped_by_method (Q:=Demo.flagging_all) ∅ 7 Demo.start
              Demo.people_csv Demo.people H1 H2 H6 H7 H8) as (Hret & Hview).
  destruct (Hret H3 H4 H5) as (rep & s' & E).
  destruct (Hview rep s' E) as (md & view & _ & Hmd & _ & Hrows & _).
  exists rep, s', md, view. split; [exact E|]. split; [exact Hmd|]. rewrite Hrows.
  split; [|split]; vm_compute; reflexivity.
Defined.
End RouteExamples.

(** ** The other routes on the demonstration installation *)

Lemma profiled_have_path_empty : profiled_have_path ∅.
Proof. intros k d Hk. rewrite lookup_empty in Hk. discriminate. Qed.

Lemma profiled_have_path_insert (k : Z) (d : Dataset) (ds : gmap Z Dataset) :
  (profile_generated d = true ->
   exists p, profile_path d = Some p /\ p <> EmptyString) ->
  profiled_have_path ds -> profiled_have_path (<[k := d]> ds).
Proof.
  intros Hd Hds k' d' Hk. destruct (decide (k = k')) as [->|Hne].
  - rewrite lookup_insert_eq in Hk. injection Hk as <-. exact Hd.
  - rewrite lookup_insert_ne in Hk by exact Hne. eauto.
Qed.

Section MoreExamples.
#[local] Existing Instance Demo.installation.
#[local] Existing Instance Demo.services.

Ltac by_evaluation :=
  match goal with
  | |- ?P => apply (bool_decide_unpack P); vm_compute; exact I
  end.

Lemma allowed_file_load_df_reads_witness :
  allowed_file "People.CSV" = true
  /\ load_df "uploads/7_people.csv" "People.CSV" = Ok Demo.people.
Proof.
  assert (allowed_file "People.CSV" = true) as H by (vm_compute; reflexivity).
  split; [exact H|].
  destruct (allowed_file_load_df_reads "uploads/7_people.csv" "People.CSV" H)
    as [_ [H1|[H1|[H1 _]]]].
  - vm_compute in H1. discriminate.
  - rewrite H1. vm_compute. reflexivity.
  - vm_compute in H1. discriminate.
Defined.

Lemma overrides_do_not_cross_datasets_witness :
  (target_column_detection (Q:=Demo.flagging) Demo.people_csv 0
     (change_target_column 1 {[ "target_col" := "income" ]} 8 Demo.loaded).2).1
  = Ok (Some "label").
Proof.
  assert (forall d1, datasets Demo.loaded !! 8%Z = Some d1 ->
                     id d1 <> id Demo.people_csv) as H.
  { intros d1 Hd. vm_compute in Hd. injection Hd as <-. discriminate. }
  rewrite (proj2 (overrides_do_not_cross_datasets (Q:=Demo.flagging)
                    1 {[ "target_col" := "income" ]} 8 Demo.loaded Demo.people_csv 0) H).
  vm_compute. reflexivity.
Defined.

Lemma posted_override_round_trip_witness :
  exists rep s2,
    quality_issues (Q:=Demo.flagging) ∅ 7
      (change_target_column 1 {[ "target_col" := "age" ]} 7 Demo.start).2 = (Ok rep, s2)
    /\ detected_target rep = Some "age".
Proof.
  destruct (quality_issues (Q:=Demo.flagging) ∅ 7
              (change_target_column 1 {[ "target_col" := "age" ]} 7 Demo.start).2)
    as [[rep|e] s2] eqn:E; [|vm_compute in E; discriminate].
  assert (datasets Demo.start !! 7%Z = Some Demo.people_csv) as H1
    by (vm_compute; reflexivity).
  assert (user_id Demo.people_csv = 1%Z) as H2 by reflexivity.
  assert (({[ "target_col" := "age" ]} : gmap string string) !! "target_col"
          = Some "age") as H3 by (vm_compute; reflexivity).
  assert ("age" <> EmptyString) as H4 by discriminate.
  assert (load_df (path_join UPLOAD_FOLDER (filename Demo.people_csv))
            (original_filename Demo.people_csv) = Ok Demo.people) as H5
    by (vm_compute; reflexivity).
  assert ("age" ∈ columns Demo.people) as H6 by by_evaluation.
  exists rep, s2. split; [reflexivity|].
  exact (proj1 (proj1 (posted_override_round_trip (Q:=Demo.flagging)
                         1 {[ "target_col" := "age" ]} ∅ 7 Demo.start Demo.people_csv
                         Demo.people "age" rep s2 H1 H2 H3 H4 H5 E) H6)).
Defined.

Lemma merged_frame_shape_witness :
  exists Mf,
    length (rows Mf) = 3
    /\ labels Mf = [0%Z; 1%Z; 2%Z]
    /\ columns Mf = ["age"; "label"; "__outlier_type__"].
Proof.
  assert (frames Demo.loaded !! 0 = Some Demo.people) as H1 by reflexivity.
  assert (unique_labels Demo.people) as H2 by (unfold unique_labels; by_evaluation).
  assert (Forall (fun l => l ∈ labels Demo.people) [4%Z]) as H3 by by_evaluation.
  assert (Forall (fun l => l ∈ labels Demo.people) [2%Z; 4%Z]) as H4 by by_evaluation.
  assert (Forall (fun l => l ∈ labels Demo.people) []) as H5 by constructor.
  destruct (merged_frame_shape Demo.loaded 0 Demo.people [] [4%Z] [2%Z; 4%Z]
              H1 H2 H3 H4 H5)
    as (mr & md & s' & Mf & _ & _ & Hlen & Hlab & Hcols & _).
  exists Mf. rewrite Hlab, Hlen, Hcols by (left; discriminate).
  repeat split.
Defined.

Lemma report_table_of_category_witness :
  exists rep s',
    quality_issues (Q:=Demo.flagging) {[ "filter" := "structural" ]} 7 Demo.start
      = (Ok rep, s')
    /\ merged_table rep = "<p>No outliers found for this category.</p>".
Proof.
  assert (datasets Demo.start !! 7%Z = Some Demo.people_csv) as H1
    by (vm_compute; reflexivity).
  assert (load_df (path_join UPLOAD_FOLDER (filename Demo.people_csv))
            (original_filename Demo.people_csv) = Ok Demo.people) as H2
    by (vm_compute; reflexivity).
  assert (unique_labels Demo.people) as H3 by (unfold unique_labels; by_evaluation).
  assert (Forall (fun l => l ∈ labels Demo.people)
            (default [] (out_structural_indices
                           (detect_outliers (Quality:=Demo.flagging) Demo.people))))
    as H4 by by_evaluation.
  assert (Forall (fun l => l ∈ labels Demo.people)
            (default [] (out_statistical_indices
                           (detect_outliers (Quality:=Demo.flagging) Demo.people))))
    as H5 by by_evaluation.
  assert (Forall (fun l => l ∈ labels Demo.people)
            (default [] (out_semantic_indices
                           (detect_outliers (Quality:=Demo.flagging) Demo.people))))
    as H6 by by_evaluation.
  assert (default [] (out_statistical_indices
                        (detect_outliers (Quality:=Demo.flagging) Demo.people)) <> []
          \/ default [] (out_semantic_indices
                           (detect_outliers (Quality:=Demo.flagging) Demo.people)) <> []
          \/ default [] (out_structural_indices
                           (detect_outliers (Quality:=Demo.flagging) Demo.people)) <> [])
    as H7 by (left; vm_compute; discriminate).
  destruct (report_table_of_category (Q:=Demo.flagging) {[ "filter" := "structural" ]}
              7 Demo.start Demo.people_csv Demo.people H1 H2 H3 H4 H5 H6 H7)
    as (rep & s' & view & E & _ & _ & Htab).
  exists rep, s'. split; [exact E|]. rewrite Htab. vm_compute. reflexivity.
Defined.

Lemma profile_dataset_never_raises_witness :
  exists w',
    profile_dataset 1 5 Demo.world = (Ok (Redirect "dashboard" None), w')
    /\ flashes (state w')
       = [("Error generating profile: Unsupported file extension: txt", "error")].
Proof.
  assert (datasets (state Demo.world) !! 5%Z = Some Demo.notes_txt) as H1
    by (vm_compute; reflexivity).
  destruct (profile_dataset_never_raises 1 5 Demo.world Demo.notes_txt H1)
    as (response & w' & E & _ & _ & Hfail).
  assert (load_df (path_join UPLOAD_FOLDER (filename Demo.notes_txt))
            (original_filename Demo.notes_txt)
          = Raise (ValueError "Unsupported file extension: txt")) as H2
    by (vm_compute; reflexivity).
  assert (import_ProfileReport = Ok tt) as H3 by reflexivity.
  destruct (Hfail _ eq_refl eq_refl H3 H2) as [-> ->].
  eexists. split; [exact E|]. vm_compute. reflexivity.
Defined.

Lemma profile_is_found_again_witness :
  exists w',
    profile_dataset 1 8 Demo.world
      = (Ok (Render "profile.html" (profiled Demo.latin_csv)), w')
    /\ profile_report 1 8 w' = (Ok (SendFile "uploads/profile_8.html"), w').
Proof.
  assert (datasets (state Demo.world) !! 8%Z = Some Demo.latin_csv) as H1
    by (vm_compute; reflexivity).
  assert (load_df (path_join UPLOAD_FOLDER (filename Demo.latin_csv))
            (original_filename Demo.latin_csv) = Ok Demo.people) as H2
    by (vm_compute; reflexivity).
  assert (import_ProfileReport = Ok tt) as H3 by reflexivity.
  assert (ProfileReport_to_file Demo.people
            ("Profile - " +:+ original_filename Demo.latin_csv)
            (path_join UPLOAD_FOLDER (profile_filename_of Demo.latin_csv)) = Ok tt) as H4
    by reflexivity.
  destruct (profile_is_found_again (Q:=Demo.flagging) 1 8 Demo.world Demo.latin_csv
              Demo.people H1 eq_refl eq_refl H3 H2 H4)
    as (w' & E & _ & _ & _ & _ & Hrep & _).
  exists w'. split; [exact E|]. rewrite Hrep. vm_compute. reflexivity.
Defined.

Lemma profiled_datasets_have_a_path_witness :
  profiled_have_path (datasets (state (profile_dataset 1 8 Demo.world).2))
  /\ profile_report 1 9 Demo.world
     = (Ok (SendFile "uploads/profile_9.html"), Demo.world).
Proof.
  assert (profiled_have_path (datasets (state Demo.world))) as H.
  { simpl. repeat apply profiled_have_path_insert;
      try apply profiled_have_path_empty; simpl; intros Hg;
      try discriminate; eexists; (split; [reflexivity | discriminate]). }
  split.
  - exact (proj1 (profiled_datasets_have_a_path 1 8 Demo.world H)).
  - assert (datasets (state Demo.world) !! 9%Z = Some Demo.profiled_csv) as H1
      by (vm_compute; reflexivity).
    destruct (profiled_datasets_have_a_path 1 9 Demo.world H) as (_ & _ & Hrep).
    destruct (Hrep _ H1) as [(response & E & _)|(name & _ & _ & _ & _ & E)];
      rewrite E; vm_compute in E; [injection E as <- | discriminate].
    reflexivity.
Defined.

Lemma strangers_change_nothing_witness :
  delete_dataset 2 7 Demo.world
    = (Ok (Redirect "dashboard" None), flashed "Access denied." "error" Demo.world)
  /\ profile_report 2 7 Demo.world = (Ok (Plain "Access denied" 403), Demo.world).
Proof.
  assert (datasets (state Demo.world) !! 7%Z = Some Demo.people_csv) as H1
    by (vm_compute; reflexivity).
  assert (user_id Demo.people_csv <> 2%Z) as H2 by discriminate.
  destruct (strangers_change_nothing 2 ∅ 7 Demo.world
              Demo.people_csv H1 H2) as (_ & Hdel & _ & _ & Hrep & _).
  split; [exact Hdel | exact Hrep].
Defined.

Lemma delete_dataset_never_raises_witness :
  exists w',
    delete_dataset 1 9 Demo.world = (Ok (Redirect "dashboard" None), w')
    /\ session (state w') = session (state Demo.world)
    /\ "uploads/8_latin.csv" ∈ files w'.
Proof.
  assert (datasets (state Demo.world) !! 9%Z = Some Demo.profiled_csv) as H1
    by (vm_compute; reflexivity).
  destruct (delete_dataset_never_raises 1 9 Demo.world Demo.profiled_csv H1)
    as (w' & E & Hs & _ & _ & _ & Hkeep).
  exists w'. split; [exact E|]. split; [exact Hs|].
  apply Hkeep; by_evaluation.
Defined.

Lemma delete_dataset_removes_witness :
  exists w',
    delete_dataset 1 7 Demo.world = (Ok (Redirect "dashboard" None), w')
    /\ files w' = files Demo.world ∖ paths_of Demo.people_csv
    /\ quality_issues (Q:=Demo.flagging) ∅ 7 (state w') = (Raise NotFound404, state w').
Proof.
  assert (datasets (state Demo.world) !! 7%Z = Some Demo.people_csv) as H1
    by (vm_compute; reflexivity).
  assert (forall p, p ∈ paths_of Demo.people_csv -> remove_error p = None) as H2.
  { intros p Hp. unfold paths_of in Hp. simpl in Hp.
    apply elem_of_union in Hp as [Hp|Hp]; apply elem_of_singleton in Hp; subst p;
      vm_compute; reflexivity. }
  destruct (delete_dataset_removes (Q:=Demo.flagging) 1 ∅ 7 Demo.world Demo.people_csv
              H1 eq_refl H2) as (w' & E & _ & Hf & Hq & _).
  exists w'. split; [exact E|]. split; [exact Hf | exact Hq].
Defined.

Lemma delete_dataset_can_stop_halfway_witness :
  exists w',
    delete_dataset 1 9 Demo.world = (Ok (Redirect "dashboard" None), w')
    /\ datasets (state w') = datasets (state Demo.world)
    /\ files w' = files Demo.world ∖ {[ "uploads/7_people.csv" ]}.
Proof.
  assert (datasets (state Demo.world) !! 9%Z = Some Demo.profiled_csv) as H1
    by (vm_compute; reflexivity).
  assert ("profile_9.html" <> EmptyString) as H2 by discriminate.
  assert ("uploads/7_people.csv" ∈ files Demo.world) as H3 by by_evaluation.
  assert ("uploads/profile_9.html" ∈ files Demo.world) as H4 by by_evaluation.
  assert ("uploads/7_people.csv" <> "uploads/profile_9.html") as H5 by discriminate.
  assert (remove_error "uploads/7_people.csv" = None) as H6 by reflexivity.
  assert (remove_error "uploads/profile_9.html" = Some (OtherError "PermissionError"))
    as H7 by reflexivity.
  destruct (delete_dataset_can_stop_halfway (P:=Demo.installation) (S:=Demo.services)
              1 9 Demo.world Demo.profiled_csv
              "profile_9.html" (OtherError "PermissionError")
              H1 eq_refl eq_refl H2 H3 H4 H5 H6 H7)
    as (w' & E & Hd & Hf & _).
  exists w'. split; [exact E|]. split; [exact Hd | exact Hf].
Defined.
End MoreExamples.
